(** * Deployment and verification workflow of the Web3 starter pack

    A shallow embedding of the three command-line scripts of the repository
    (scripts/compile.js, scripts/deploy.js, scripts/verify.js) and the
    properties of the deployment-and-verification workflow checked on it.

    Conventions of the embedding.
    - JavaScript strings are [string]s (sequences of 8-bit characters).
    - BigInt values are [Z]; BigInt division truncates towards zero, which
      is [Z.quot].
    - Every [async] function is a computation in the monad [M]: it threads
      the file system, may throw, and produces the list of the input/output
      events it performed, in order.  [await] is sequencing.
    - Results of services outside the scripts (JSON-RPC endpoint, explorer
      HTTP API, the Solidity compiler, the ABI coder of ethers) are read
      from an explicit environment record.
    - [console.warn] and [console.error] are events, without the
      pictograph that starts some of the messages; the informational
      [console.log] lines are not modelled.
    - Files are addressed by what they are ([Path]) and hold parsed
      documents ([File]); a [writeFile] may fail, following a schedule kept
      in the [World]. *)

From Stdlib Require Import String Ascii List ZArith Bool Lia Arith.
Import ListNotations.
Open Scope string_scope.

(* ================================================================= *)
(** ** JavaScript values and string primitives *)

Module Js.

(** The values a property lookup in the scripts can produce: a string,
    [undefined], or something inherited from [Object.prototype] (one of
    its built-in functions, or the prototype object itself through the
    [__proto__] accessor). *)
Inductive value : Type :=
| VStr (s : string)
| VUndefined
| VBuiltin (name : string)
| VObjectPrototype.

(** [ToBoolean]: the empty string and [undefined] are falsy, functions and
    objects are truthy. *)
Definition truthy (v : value) : bool :=
  match v with
  | VStr s => negb (s =? "")
  | VUndefined => false
  | VBuiltin _ => true
  | VObjectPrototype => true
  end.

(** [a || b]. *)
Definition or (a b : value) : value := if truthy a then a else b.

(** [ToString], as used by template literals and [URLSearchParams]. *)
Definition to_string (v : value) : string :=
  match v with
  | VStr s => s
  | VUndefined => "undefined"
  | VBuiltin name => "function " ++ name ++ "() { [native code] }"
  | VObjectPrototype => "[object Object]"
  end.

(** The function-valued properties every object literal inherits. *)
Definition object_prototype_functions : list string :=
  [ "constructor"; "hasOwnProperty"; "isPrototypeOf";
    "propertyIsEnumerable"; "toLocaleString"; "toString"; "valueOf";
    "__defineGetter__"; "__defineSetter__";
    "__lookupGetter__"; "__lookupSetter__" ].

Fixpoint mem (k : string) (l : list string) : bool :=
  match l with
  | [] => false
  | x :: r => if k =? x then true else mem k r
  end.

Definition inherited (k : string) : value :=
  if mem k object_prototype_functions then
    VBuiltin (if k =? "constructor" then "Object" else k)
  else if k =? "__proto__" then VObjectPrototype
  else VUndefined.

(** Own properties of an object literal, in source order. *)
Fixpoint own (props : list (string * value)) (k : string) : option value :=
  match props with
  | [] => None
  | (k', v) :: r => if k =? k' then Some v else own r k
  end.

(** [obj[k]] on an object literal: own properties first, then the
    prototype chain, which for a literal is [Object.prototype]. *)
Definition get (props : list (string * value)) (k : string) : value :=
  match own props k with
  | Some v => v
  | None => inherited k
  end.

(** An environment variable or optional string seen as a value. *)
Definition of_option (o : option string) : value :=
  match o with
  | Some s => VStr s
  | None => VUndefined
  end.

(** [s.includes(t)]. *)
Fixpoint includes (s t : string) : bool :=
  if prefix t s then true
  else match s with
       | EmptyString => false
       | String _ s' => includes s' t
       end.

(** [s.slice(n)] for a non-negative [n]. *)
Fixpoint slice (n : nat) (s : string) : string :=
  match n, s with
  | O, _ => s
  | S n', String _ s' => slice n' s'
  | S _, EmptyString => EmptyString
  end.

(** [s.endsWith(t)]. *)
Definition endsWith (s t : string) : bool :=
  let ls := String.length s in
  let lt := String.length t in
  if Nat.ltb ls lt then false
  else slice (ls - lt) s =? t.

End Js.

(* ================================================================= *)
(** ** verify.js: lookup tables *)

Definition getLicenseType (license : string) : Js.value :=
  let types :=
    [ ("MIT", Js.VStr "3");
      ("GPL-3.0", Js.VStr "9");
      ("Apache-2.0", Js.VStr "2");
      ("BSD-3-Clause", Js.VStr "8");
      ("Unlicense", Js.VStr "12") ] in
  Js.or (Js.get types license) (Js.VStr "3").

(* ================================================================= *)
(** ** deploy.js: gas limit *)

(** [deploymentGas * 120n / 100n]. *)
Definition gasLimit (deploymentGas : Z) : Z :=
  Z.quot (deploymentGas * 120) 100.

(* ================================================================= *)
(** ** Data model: the JSON files of the workflow *)

Record AbiItem : Type := {
  item_type : string;
  item_inputs : list string  (* the [type] of each input *)
}.

(** artifacts/<contractName>.json *)
Record Artifact : Type := {
  a_contractName : string;
  a_abi : list AbiItem;
  a_bytecode : string;
  a_deployedBytecode : string;
  a_metadata : string
}.

(** artifacts/compilation-settings.json *)
Record CompilationSettings : Type := {
  s_contractName : string;
  s_solcVersion : string;
  s_optimization_enabled : bool;
  s_optimization_runs : Z;
  s_pragma : string;
  s_license : string;
  s_deployedBytecode : string;
  s_compilationTimestamp : string
}.

Inductive VStatus : Type := Submitted | Verified | Failed | Timeout.

Definition status_string (s : VStatus) : string :=
  match s with
  | Submitted => "submitted"
  | Verified => "verified"
  | Failed => "failed"
  | Timeout => "timeout"
  end.

(** The [verification] sub-object of a deployment record.  Every key but
    [status] may be absent ([None] also stands for [null]). *)
Record VerificationStatus : Type := {
  v_status : VStatus;
  v_guid : option string;
  v_submittedAt : option string;
  v_compilerVersion : option string;
  v_explorerUrl : option string;
  v_verifiedAt : option string;
  v_failureReason : option string
}.

(** deployments/<network>.json and public/deployments/<network>.json *)
Record DeploymentRecord : Type := {
  d_contractName : string;
  d_contractAddress : string;
  d_deploymentTx : string;
  d_deployer : string;
  d_network : string;
  d_chainId : Z;
  d_timestamp : string;
  d_constructorArgs : list string;
  d_constructorTypes : list string;
  d_encodedConstructorArgs : string;
  d_verification : option VerificationStatus
}.

(** The files the scripts touch, relative to the project root. *)
Inductive Path : Type :=
| ArtifactsDir
| ContractsDir
| DeploymentsDir
| PublicDeploymentsDir
| ArtifactFile (contractName : string)
| SettingsFile
| SourceFile (file : string)
| DeploymentFile (network : string)
| PublicDeploymentFile (network : string).

Definition path_string (p : Path) : string :=
  match p with
  | ArtifactsDir => "artifacts"
  | ContractsDir => "contracts"
  | DeploymentsDir => "deployments"
  | PublicDeploymentsDir => "public/deployments"
  | ArtifactFile n => "artifacts/" ++ n ++ ".json"
  | SettingsFile => "artifacts/compilation-settings.json"
  | SourceFile f => "contracts/" ++ f
  | DeploymentFile n => "deployments/" ++ n ++ ".json"
  | PublicDeploymentFile n => "public/deployments/" ++ n ++ ".json"
  end.

Definition path_eqb (p q : Path) : bool :=
  match p, q with
  | ArtifactsDir, ArtifactsDir => true
  | ContractsDir, ContractsDir => true
  | DeploymentsDir, DeploymentsDir => true
  | PublicDeploymentsDir, PublicDeploymentsDir => true
  | ArtifactFile a, ArtifactFile b => a =? b
  | SettingsFile, SettingsFile => true
  | SourceFile a, SourceFile b => a =? b
  | DeploymentFile a, DeploymentFile b => a =? b
  | PublicDeploymentFile a, PublicDeploymentFile b => a =? b
  | _, _ => false
  end.

(** Parsed file contents. *)
Inductive File : Type :=
| FArtifact (a : Artifact)
| FSettings (s : CompilationSettings)
| FDeployment (d : DeploymentRecord)
| FText (s : string).

(* ================================================================= *)
(** ** Effects: errors, events, the file system *)

Record Error : Type := {
  message : string;
  code : option string
}.

(** [new Error(msg)] *)
Definition mkError (msg : string) : Error :=
  {| message := msg; code := None |}.

(** How a computation ends: normally, by a thrown error (a rejected
    promise), or by [process.exit], which no handler intercepts. *)
Inductive Res (A : Type) : Type :=
| Ok (a : A)
| Throw (err : Error)
| Exit (status : Z).
Arguments Ok {A} a.
Arguments Throw {A} err.
Arguments Exit {A} status.

(** What a service outside the scripts answers: a value, or an error. *)
Inductive Reply (A : Type) : Type :=
| Returns (a : A)
| Fails (err : Error).
Arguments Returns {A} a.
Arguments Fails {A} err.

Definition reply {A} (r : Reply A) : Res A :=
  match r with
  | Returns a => Ok a
  | Fails err => Throw err
  end.

(** The form fields posted to the explorer. *)
Record VerificationPayload : Type := {
  p_apikey : option string;
  p_module : string;
  p_action : string;
  p_contractaddress : string;
  p_sourceCode : string;
  p_codeformat : string;
  p_contractname : string;
  p_compilerversion : string;
  p_optimizationUsed : string;
  p_runs : Z;   (* sent as its decimal text *)
  p_constructorArguements : string;
  p_licenseType : Js.value
}.

Inductive Event : Type :=
| EvMkdir (p : Path)
| EvReaddir (p : Path)
| EvReadFile (p : Path)
| EvWriteFile (p : Path) (f : File)   (* a write that succeeded *)
| EvWriteFailed (p : Path)
| EvGetBalance (provider address : string)
| EvGetNetwork (provider : string)
| EvEstimateGas (from data : string)
| EvSendDeployTx (constructorArgs : list string) (gas : Z)
| EvWaitForDeployment
| EvGetCode (provider : Js.value) (address : string)
| EvHttpPost (url : Js.value) (payload : VerificationPayload)
| EvHttpGet (url : string)
| EvSleep (ms : Z)
| EvWarn (msg : string)
| EvError (msg : string).

(** The file system, and the outcome of the coming [writeFile] calls:
    the head of [faults] is consumed by each call, [true] makes it fail;
    an exhausted schedule means success. *)
Record World : Type := {
  files : Path -> option File;
  faults : list bool
}.

Definition M (A : Type) : Type := World -> Res A * World * list Event.

Definition ret {A} (a : A) : M A := fun w => (Ok a, w, []).

Definition bind {A B} (c : M A) (k : A -> M B) : M B :=
  fun w =>
    match c w with
    | (Ok a, w1, t1) =>
        match k a w1 with
        | (r, w2, t2) => (r, w2, (t1 ++ t2)%list)
        end
    | (Throw err, w1, t1) => (Throw err, w1, t1)
    | (Exit n, w1, t1) => (Exit n, w1, t1)
    end.

Notation "x <- c ;; k" := (bind c (fun x => k))
  (at level 61, c at next level, right associativity).
Notation "c ;; k" := (bind c (fun _ => k))
  (at level 61, right associativity).

Definition throw {A} (err : Error) : M A := fun w => (Throw err, w, []).

(** [process.exit(n)] *)
Definition process_exit {A} (n : Z) : M A := fun w => (Exit n, w, []).

Definition emit (ev : Event) : M unit := fun w => (Ok tt, w, [ev]).

(** [try { c } catch (error) { h error }] *)
Definition try_catch {A} (c : M A) (h : Error -> M A) : M A :=
  fun w =>
    match c w with
    | (Throw err, w1, t1) =>
        match h err w1 with
        | (r, w2, t2) => (r, w2, (t1 ++ t2)%list)
        end
    | other => other
    end.

(** The result of a call to an outside service, announced by event [ev]. *)
Definition call {A} (ev : Event) (r : Reply A) : M A :=
  fun w => (reply r, w, [ev]).

(** The result of a library call that performs no input/output. *)
Definition lift {A} (r : Reply A) : M A := fun w => (reply r, w, []).

Definition console_warn (msg : string) : M unit := emit (EvWarn msg).
Definition console_error (msg : string) : M unit := emit (EvError msg).

Definition enoent (p : Path) : Error :=
  {| message := "ENOENT: no such file or directory, open '" ++ path_string p ++ "'";
     code := Some "ENOENT" |}.

Definition eacces (p : Path) : Error :=
  {| message := "EACCES: permission denied, open '" ++ path_string p ++ "'";
     code := Some "EACCES" |}.

(** [fs.readFile(p, 'utf8')] *)
Definition readFile (p : Path) : M File :=
  fun w =>
    match files w p with
    | Some f => (Ok f, w, [EvReadFile p])
    | None => (Throw (enoent p), w, [EvReadFile p])
    end.

Definition update_files (fs : Path -> option File) (p : Path) (f : File)
  : Path -> option File :=
  fun q => if path_eqb p q then Some f else fs q.

(** [fs.writeFile(p, JSON.stringify(f, null, 2))] *)
Definition writeFile (p : Path) (f : File) : M unit :=
  fun w =>
    match faults w with
    | true :: rest =>
        (Throw (eacces p), {| files := files w; faults := rest |},
         [EvWriteFailed p])
    | false :: rest =>
        (Ok tt, {| files := update_files (files w) p f; faults := rest |},
         [EvWriteFile p f])
    | [] =>
        (Ok tt, {| files := update_files (files w) p f; faults := [] |},
         [EvWriteFile p f])
    end.

(** Files are typed: a path that holds a document of another kind than
    the one the script expects stands for a file that fails to load. *)
Definition malformed (p : Path) : Error :=
  mkError ("Unexpected token in JSON: " ++ path_string p).

Definition read_artifact (contractName : string) : M Artifact :=
  f <- readFile (ArtifactFile contractName) ;;
  match f with
  | FArtifact a => ret a
  | _ => throw (malformed (ArtifactFile contractName))
  end.

Definition read_settings : M CompilationSettings :=
  f <- readFile SettingsFile ;;
  match f with
  | FSettings s => ret s
  | _ => throw (malformed SettingsFile)
  end.

Definition read_deployment (network : string) : M DeploymentRecord :=
  f <- readFile (DeploymentFile network) ;;
  match f with
  | FDeployment d => ret d
  | _ => throw (malformed (DeploymentFile network))
  end.

Definition read_source (file : string) : M string :=
  f <- readFile (SourceFile file) ;;
  match f with
  | FText s => ret s
  | _ => throw (malformed (SourceFile file))
  end.

(* ================================================================= *)
(** ** The environment of a run *)

(** [{status, message, result}] of the explorer API. *)
Record ApiResponse : Type := {
  r_status : string;
  r_message : string;
  r_result : string
}.

(** The parts of the compiler's standard-JSON output the script reads. *)
Record SolcError : Type := {
  severity : string;
  formattedMessage : string
}.

Record SolcContract : Type := {
  c_abi : list AbiItem;
  c_bytecode : string;          (* evm.bytecode.object *)
  c_deployedBytecode : string;  (* evm.deployedBytecode.object *)
  c_metadata : string
}.

Record SolcOutput : Type := {
  o_errors : option (list SolcError);
  o_contracts : option (list (string * list (string * SolcContract)))
}.

Record Env : Type := {
  (** [process.argv]; index 0 is the node binary, index 1 the script. *)
  argv : list string;
  (** [process.env], after [dotenv.config()]. *)
  BSC_MAINNET_RPC_URL : option string;
  BSC_TESTNET_RPC_URL : option string;
  ETH_MAINNET_RPC_URL : option string;
  ETH_SEPOLIA_RPC_URL : option string;
  BSCSCAN_API_KEY : option string;
  ETHERSCAN_API_KEY : option string;
  PRIVATE_KEY : option string;
  NETWORK : option string;
  (** [new Date().toISOString()] *)
  now : string;
  (** [fs.mkdir(dir, { recursive: true })] *)
  fs_mkdir : Path -> Reply unit;
  (** [fs.readdir(dir)] *)
  fs_readdir : Path -> Reply (list string);
  (** [solc.version()] *)
  solc_version : Reply string;
  (** [JSON.parse(solc.compile(JSON.stringify(input)))] for the source
      unit [file] with the given content. *)
  solc_compile : string -> string -> Reply SolcOutput;
  (** [new ethers.Wallet(privateKey, provider)] and its address. *)
  eth_Wallet : string -> Reply string;
  (** [provider.getBalance(address)] *)
  eth_getBalance : string -> Reply Z;
  (** [Number((await provider.getNetwork()).chainId)] *)
  eth_getNetwork : Reply Z;
  (** [new ethers.ContractFactory(abi, bytecode, signer)] *)
  eth_ContractFactory : Artifact -> Reply unit;
  (** [(await factory.getDeployTransaction(...args)).data] *)
  eth_getDeployTransaction : Artifact -> list string -> Reply string;
  (** [provider.estimateGas({from, data})] *)
  eth_estimateGas : string -> string -> Reply Z;
  (** [factory.deploy(...args, {gasLimit})]: the transaction hash. *)
  eth_deploy : list string -> Z -> Reply string;
  (** [contract.waitForDeployment()] *)
  eth_waitForDeployment : Reply unit;
  (** [contract.getAddress()] *)
  eth_getAddress : Reply string;
  (** [ethers.AbiCoder.defaultAbiCoder().encode(types, values)] *)
  abi_encode : list string -> list string -> Reply string;
  (** [provider.getCode(address)] *)
  eth_getCode : string -> Reply string;
  (** The explorer's answer to the submission POST, parsed. *)
  http_submit : Reply ApiResponse;
  (** The [result] text of the explorer's answer to the i-th status
      check (counted from 0); [Throw] when the request or its parsing
      fails. *)
  http_checkstatus : nat -> Reply string
}.

(** [a || d] where [a] is a string or [undefined]. *)
Definition str_or (a : option string) (d : string) : string :=
  match a with
  | Some s => if s =? "" then d else s
  | None => d
  end.

(** [!s] where [s] is a string or [undefined]. *)
Definition missing (a : option string) : bool :=
  match a with
  | Some s => s =? ""
  | None => true
  end.

Definition mkdir (e : Env) (p : Path) : M unit :=
  call (EvMkdir p) (fs_mkdir e p).

(** [process.argv[2] || 'SimpleStorage'] *)
Definition cli_contractName (e : Env) : string :=
  str_or (nth_error (argv e) 2) "SimpleStorage".

(** [process.argv[3] || process.env.NETWORK || 'bsc-testnet'] *)
Definition cli_network (e : Env) : string :=
  str_or (nth_error (argv e) 3) (str_or (NETWORK e) "bsc-testnet").

(* ================================================================= *)
(** ** deploy.js *)

Inductive DeployResult : Type :=
| DeploySuccess (contractAddress deploymentTx : string)
| DeployFailure (error : string).

Definition bsc_testnet_default : string :=
  "https://data-seed-prebsc-1-s1.binance.org:8545/".

(** The provider is represented by its RPC URL. *)
Definition getProvider (e : Env) (network : string) : M string :=
  let rpcUrl : option string :=
    if network =? "bsc" then
      Some (str_or (BSC_MAINNET_RPC_URL e) "https://bsc-dataseed.binance.org/")
    else if network =? "bsc-testnet" then
      Some (str_or (BSC_TESTNET_RPC_URL e) bsc_testnet_default)
    else if network =? "ethereum" then ETH_MAINNET_RPC_URL e
    else if network =? "sepolia" then ETH_SEPOLIA_RPC_URL e
    else Some (str_or (BSC_TESTNET_RPC_URL e) bsc_testnet_default) in
  match rpcUrl with
  | Some url =>
      if url =? "" then
        throw (mkError ("No RPC URL configured for network: " ++ network))
      else ret url
  | None => throw (mkError ("No RPC URL configured for network: " ++ network))
  end.

(** The signer is represented by its address. *)
Definition getSigner (e : Env) (provider : string) : M string :=
  let privateKey := PRIVATE_KEY e in
  if missing privateKey then
    throw (mkError "No private key found in environment variables")
  else
    match privateKey with
    | Some key => lift (eth_Wallet e key)
    | None => throw (mkError "No private key found in environment variables")
    end.

(** [artifact.abi.find(item => item.type === 'constructor')] *)
Fixpoint find_constructor (abi : list AbiItem) : option AbiItem :=
  match abi with
  | [] => None
  | item :: rest =>
      if item_type item =? "constructor" then Some item
      else find_constructor rest
  end.

Definition constructor_types (abi : list AbiItem) : list string :=
  match find_constructor abi with
  | Some c => item_inputs c
  | None => []
  end.

Definition insufficient_funds : Error :=
  mkError "Deployer has no funds. Please fund your account first.".

(** Everything [deploy] does up to and including the construction of
    [deploymentInfo]. *)
Definition deploy_prepare (e : Env) : M DeploymentRecord :=
  mkdir e DeploymentsDir ;;
  let contractName := cli_contractName e in
  artifact <- read_artifact contractName ;;
  let network := cli_network e in
  provider <- getProvider e network ;;
  signer <- getSigner e provider ;;
  let address := signer in
  balance <- call (EvGetBalance provider address) (eth_getBalance e address) ;;
  (if (balance =? 0)%Z then throw insufficient_funds else ret tt) ;;
  chainId <- call (EvGetNetwork provider) (eth_getNetwork e) ;;
  lift (eth_ContractFactory e artifact) ;;
  let constructorArgs := skipn 4 (argv e) in
  data <- lift (eth_getDeployTransaction e artifact constructorArgs) ;;
  deploymentGas <-
    call (EvEstimateGas address data) (eth_estimateGas e address data) ;;
  let gasLimit := gasLimit deploymentGas in
  deploymentTx <-
    call (EvSendDeployTx constructorArgs gasLimit)
         (eth_deploy e constructorArgs gasLimit) ;;
  call EvWaitForDeployment (eth_waitForDeployment e) ;;
  contractAddress <- lift (eth_getAddress e) ;;
  encodedConstructorArgs <-
    match constructorArgs with
    | [] => ret ""
    | _ :: _ =>
        let paramTypes := constructor_types (a_abi artifact) in
        enc <- lift (abi_encode e paramTypes constructorArgs) ;;
        ret (Js.slice 2 enc)
    end ;;
  ret {| d_contractName := contractName;
         d_contractAddress := contractAddress;
         d_deploymentTx := deploymentTx;
         d_deployer := address;
         d_network := network;
         d_chainId := chainId;
         d_timestamp := now e;
         (* command-line arguments are strings, which the
            [typeof arg === 'bigint'] conversion leaves as they are *)
         d_constructorArgs := constructorArgs;
         d_constructorTypes := constructor_types (a_abi artifact);
         d_encodedConstructorArgs := encodedConstructorArgs;
         d_verification := None |}.

(** The record-persistence step: the canonical file, then the mirror
    under public/. *)
Definition deploy_persist (e : Env) (deploymentInfo : DeploymentRecord)
  : M unit :=
  let network := d_network deploymentInfo in
  writeFile (DeploymentFile network) (FDeployment deploymentInfo) ;;
  mkdir e PublicDeploymentsDir ;;
  writeFile (PublicDeploymentFile network) (FDeployment deploymentInfo).

Definition deploy (e : Env) : M DeployResult :=
  try_catch
    (deploymentInfo <- deploy_prepare e ;;
     deploy_persist e deploymentInfo ;;
     ret (DeploySuccess (d_contractAddress deploymentInfo)
                        (d_deploymentTx deploymentInfo)))
    (fun error =>
       console_error ("Deployment failed: " ++ message error) ;;
       (match code error with
        | Some c =>
            if c =? "INSUFFICIENT_FUNDS" then
              console_error
                "Make sure your account has enough funds for deployment"
            else ret tt
        | None => ret tt
        end) ;;
       ret (DeployFailure (message error))).

(* ================================================================= *)
(** ** verify.js *)

Definition getRpcUrl (e : Env) (network : string) : Js.value :=
  let urls :=
    [ ("bsc", Js.VStr (str_or (BSC_MAINNET_RPC_URL e)
                              "https://bsc-dataseed.binance.org/"));
      ("bsc-testnet", Js.VStr (str_or (BSC_TESTNET_RPC_URL e)
                                      bsc_testnet_default));
      ("ethereum", Js.of_option (ETH_MAINNET_RPC_URL e));
      ("sepolia", Js.of_option (ETH_SEPOLIA_RPC_URL e)) ] in
  Js.or (Js.get urls network) (Js.get urls "bsc-testnet").

Definition getApiKey (e : Env) (network : string) : option string :=
  if Js.includes network "bsc" then BSCSCAN_API_KEY e
  else ETHERSCAN_API_KEY e.

Definition getApiUrl (network : string) : Js.value :=
  let urls :=
    [ ("bsc", Js.VStr "https://api.bscscan.com/api");
      ("bsc-testnet", Js.VStr "https://api-testnet.bscscan.com/api");
      ("ethereum", Js.VStr "https://api.etherscan.io/api");
      ("sepolia", Js.VStr "https://api-sepolia.etherscan.io/api") ] in
  Js.or (Js.get urls network) (Js.get urls "bsc-testnet").

Definition getExplorerUrl (network contractAddress : string) : string :=
  let baseUrls :=
    [ ("bsc", Js.VStr "https://bscscan.com");
      ("bsc-testnet", Js.VStr "https://testnet.bscscan.com");
      ("ethereum", Js.VStr "https://etherscan.io");
      ("sepolia", Js.VStr "https://sepolia.etherscan.io") ] in
  let baseUrl := Js.or (Js.get baseUrls network) (Js.get baseUrls "bsc-testnet") in
  Js.to_string baseUrl ++ "/address/" ++ contractAddress ++ "#contracts".

Definition submitVerification (e : Env) (apiUrl : Js.value)
    (payload : VerificationPayload) : M ApiResponse :=
  call (EvHttpPost apiUrl payload) (http_submit e).

(** [{...deployment, verification: v}] *)
Definition with_verification (deployment : DeploymentRecord)
    (v : VerificationStatus) : DeploymentRecord :=
  {| d_contractName := d_contractName deployment;
     d_contractAddress := d_contractAddress deployment;
     d_deploymentTx := d_deploymentTx deployment;
     d_deployer := d_deployer deployment;
     d_network := d_network deployment;
     d_chainId := d_chainId deployment;
     d_timestamp := d_timestamp deployment;
     d_constructorArgs := d_constructorArgs deployment;
     d_constructorTypes := d_constructorTypes deployment;
     d_encodedConstructorArgs := d_encodedConstructorArgs deployment;
     d_verification := Some v |}.

Definition storeVerificationDetails (e : Env) (network : string)
    (deployment : DeploymentRecord) (guid : string)
    (compilationSettings : CompilationSettings) : M unit :=
  try_catch
    (let updatedDeployment :=
       with_verification deployment
         {| v_status := Submitted;
            v_guid := Some guid;
            v_submittedAt := Some (now e);
            v_compilerVersion := Some (s_solcVersion compilationSettings);
            v_explorerUrl :=
              Some (getExplorerUrl network (d_contractAddress deployment));
            v_verifiedAt := None;
            v_failureReason := None |} in
     writeFile (DeploymentFile network) (FDeployment updatedDeployment))
    (fun error =>
       console_warn ("Warning: Could not store verification details: "
                     ++ message error)).

(** [currentDeployment.verification?.<field>] *)
Definition vfield {A} (v : option VerificationStatus)
    (f : VerificationStatus -> option A) : option A :=
  match v with
  | Some x => f x
  | None => None
  end.

(** [{...current, status, verifiedAt: ..., failureReason}] where
    [current] is [currentDeployment.verification]. *)
Definition updated_verification (e : Env)
    (current : option VerificationStatus) (status : VStatus)
    (failureReason : option string) : VerificationStatus :=
  {| v_status := status;
     v_guid := vfield current v_guid;
     v_submittedAt := vfield current v_submittedAt;
     v_compilerVersion := vfield current v_compilerVersion;
     v_explorerUrl := vfield current v_explorerUrl;
     v_verifiedAt :=
       match status with
       | Verified => Some (now e)
       | _ => vfield current v_verifiedAt
       end;
     v_failureReason := failureReason |}.

Definition updateVerificationStatus (e : Env) (network : string)
    (deployment : DeploymentRecord) (status : VStatus) (guid : string)
    (failureReason : option string) : M unit :=
  try_catch
    (currentDeployment <- read_deployment network ;;
     let updatedDeployment :=
       with_verification currentDeployment
         (updated_verification e (d_verification currentDeployment)
            status failureReason) in
     writeFile (DeploymentFile network) (FDeployment updatedDeployment))
    (fun error =>
       console_warn ("Warning: Could not update verification status: "
                     ++ message error)).

Definition checkstatus_url (apiUrl : Js.value) (apiKey : option string)
    (guid : string) : string :=
  Js.to_string apiUrl ++ "?module=contract&action=checkverifystatus&guid="
  ++ guid ++ "&apikey=" ++ Js.to_string (Js.of_option apiKey).

(** The body of [for (let i = ...; i < 20; i++)] with [remaining]
    iterations still to run, followed by the code after the loop. *)
Fixpoint poll_from (e : Env) (apiUrl : Js.value) (apiKey : option string)
    (guid network : string) (deployment : DeploymentRecord)
    (remaining i : nat) : M unit :=
  match remaining with
  | O =>
      updateVerificationStatus e network deployment Timeout guid None ;;
      throw (mkError "Verification timeout")
  | S remaining' =>
      emit (EvSleep 3000) ;;
      result <- call (EvHttpGet (checkstatus_url apiUrl apiKey guid))
                     (http_checkstatus e i) ;;
      if result =? "Pass - Verified" then
        updateVerificationStatus e network deployment Verified guid None ;;
        ret tt
      else if Js.includes result "Fail" then
        updateVerificationStatus e network deployment Failed guid
          (Some result) ;;
        throw (mkError ("Verification failed: " ++ result))
      else
        poll_from e apiUrl apiKey guid network deployment remaining' (S i)
  end.

Definition pollVerificationStatus (e : Env) (apiUrl : Js.value)
    (apiKey : option string) (guid network : string)
    (deployment : DeploymentRecord) : M unit :=
  poll_from e apiUrl apiKey guid network deployment 20 0.

Definition bytecode_mismatch : Error :=
  mkError "Deployed bytecode does not match compiled bytecode".

(** The version-format check of [verifyContract]. *)
Definition version_warnings (solcVersion : string) : list Event :=
  [ EvWarn "Version missing commit hash - this may cause verification failure";
    EvWarn ("Current version: " ++ solcVersion);
    EvWarn "Expected format: 0.8.20+commit.a1b79de6" ].

Definition warn_version_format (solcVersion : string) : M unit :=
  if negb (Js.includes solcVersion "+commit.") then
    console_warn
      "Version missing commit hash - this may cause verification failure" ;;
    console_warn ("Current version: " ++ solcVersion) ;;
    console_warn "Expected format: 0.8.20+commit.a1b79de6"
  else ret tt.

(** The object [verificationPayload]. *)
Definition verification_payload (e : Env) (network : string)
    (compilationSettings : CompilationSettings)
    (deployment : DeploymentRecord) (encodedArgs sourceCode : string)
  : VerificationPayload :=
  {| p_apikey := getApiKey e network;
     p_module := "contract";
     p_action := "verifysourcecode";
     p_contractaddress := d_contractAddress deployment;
     p_sourceCode := sourceCode;
     p_codeformat := "solidity-single-file";
     p_contractname := s_contractName compilationSettings;
     p_compilerversion := "v" ++ s_solcVersion compilationSettings;
     p_optimizationUsed :=
       if s_optimization_enabled compilationSettings then "1" else "0";
     p_runs := s_optimization_runs compilationSettings;
     p_constructorArguements := encodedArgs;
     p_licenseType := getLicenseType (s_license compilationSettings) |}.

(** The [try] block of [verifyContract]. *)
Definition verify_body (e : Env) : M unit :=
  let contractName := cli_contractName e in
  let network := cli_network e in
  compilationSettings <- read_settings ;;
  let solcVersion := s_solcVersion compilationSettings in
  warn_version_format solcVersion ;;
  deployment <- read_deployment network ;;
  let provider := getRpcUrl e network in
  deployedBytecode <-
    call (EvGetCode provider (d_contractAddress deployment))
         (eth_getCode e (d_contractAddress deployment)) ;;
  (if negb (Js.includes deployedBytecode
              (Js.slice 2 (s_deployedBytecode compilationSettings)))
   then throw bytecode_mismatch else ret tt) ;;
  encodedArgs <-
    (if negb (d_encodedConstructorArgs deployment =? "") then
       ret (d_encodedConstructorArgs deployment)
     else
       enc <- lift (abi_encode e (d_constructorTypes deployment)
                               (d_constructorArgs deployment)) ;;
       ret (Js.slice 2 enc)) ;;
  sourceCode <- read_source (s_contractName compilationSettings ++ ".sol") ;;
  let verificationPayload :=
    verification_payload e network compilationSettings deployment
      encodedArgs sourceCode in
  response <- submitVerification e (getApiUrl network) verificationPayload ;;
  if r_status response =? "1" then
    storeVerificationDetails e network deployment (r_result response)
      compilationSettings ;;
    pollVerificationStatus e (getApiUrl network) (getApiKey e network)
      (r_result response) network deployment
  else
    throw (mkError ("Verification submission failed: "
                    ++ r_message response)).

(** [compilationSettings] is declared with [const] inside the [try]
    block, so the [catch] block's reference to it does not resolve. *)
Definition reference_error : Error :=
  mkError "compilationSettings is not defined".

Definition verifyContract (e : Env) : M unit :=
  try_catch (verify_body e)
    (fun error =>
       (if Js.includes (message error)
             "Invalid Or Not supported solc version" then
          console_error "Compiler version not supported by block explorer" ;;
          throw reference_error
        else ret tt) ;;
       console_error ("Verification failed: " ++ message error) ;;
       process_exit 1).

(** The exit status of a script whose entry point calls the function
    without handling its promise: a rejection nobody handles ends the
    process with status 1, [process.exit(n)] with [n], and otherwise the
    process ends with status 0 once nothing is left to run. *)
Definition exit_status {A} (r : Res A) : Z :=
  match r with
  | Ok _ => 0
  | Throw _ => 1
  | Exit n => n
  end.

(* ================================================================= *)
(** ** compile.js: the regular expressions *)

Module Re.

Definition is_digit (c : ascii) : bool :=
  let n := nat_of_ascii c in ((48 <=? n) && (n <=? 57))%nat.

(** [[a-f0-9]] *)
Definition is_hex (c : ascii) : bool :=
  let n := nat_of_ascii c in is_digit c || ((97 <=? n) && (n <=? 102))%nat.

(** A line terminator, which [.] does not match. *)
Definition is_newline (c : ascii) : bool :=
  let n := nat_of_ascii c in ((n =? 10) || (n =? 13))%nat.

(** White space removed by [trim]. *)
Definition is_space (c : ascii) : bool :=
  let n := nat_of_ascii c in
  (((9 <=? n) && (n <=? 13)) || (n =? 32) || (n =? 160))%nat.

(** The longest prefix whose characters satisfy [f], and what follows. *)
Fixpoint span (f : ascii -> bool) (s : string) : string * string :=
  match s with
  | EmptyString => (EmptyString, EmptyString)
  | String c r =>
      if f c then let (a, b) := span f r in (String c a, b)
      else (EmptyString, s)
  end.

(** [Some rest] when [s = p ++ rest]. *)
Fixpoint strip_prefix (p s : string) : option string :=
  match p, s with
  | EmptyString, _ => Some s
  | String a p', String b s' =>
      if Ascii.eqb a b then strip_prefix p' s' else None
  | String _ _, EmptyString => None
  end.

(** One or more [f]-characters, greedily. *)
Definition plus (f : ascii -> bool) (s : string) : option (string * string) :=
  match span f s with
  | (EmptyString, _) => None
  | (m, rest) => Some (m, rest)
  end.

(** [\d+\.\d+\.\d+] anchored at the start of [s]. *)
Definition semver_at (s : string) : option (string * string) :=
  match plus is_digit s with
  | Some (major, r1) =>
      match strip_prefix "." r1 with
      | Some r2 =>
          match plus is_digit r2 with
          | Some (minor, r3) =>
              match strip_prefix "." r3 with
              | Some r4 =>
                  match plus is_digit r4 with
                  | Some (patch, r5) =>
                      Some (major ++ "." ++ minor ++ "." ++ patch, r5)
                  | None => None
                  end
              | None => None
              end
          | None => None
          end
      | None => None
      end
  | None => None
  end.

(** [\d+\.\d+\.\d+\+commit\.[a-f0-9]+] anchored at the start of [s]. *)
Definition commit_version_at (s : string) : option (string * string) :=
  match semver_at s with
  | Some (v, r1) =>
      match strip_prefix "+commit." r1 with
      | Some r2 =>
          match plus is_hex r2 with
          | Some (h, r3) => Some (v ++ "+commit." ++ h, r3)
          | None => None
          end
      | None => None
      end
  | None => None
  end.

(** The leftmost match of an anchored matcher. *)
Fixpoint search {A} (at_ : string -> option A) (s : string) : option A :=
  match at_ s with
  | Some m => Some m
  | None =>
      match s with
      | EmptyString => None
      | String _ r => search at_ r
      end
  end.

(** [(.*?)] followed by one of the [stops]: the shortest run of
    characters other than line terminators after which a stop is found. *)
Fixpoint lazy_until (stops : list string) (s : string) : option string :=
  if existsb (fun stop => prefix stop s) stops then Some EmptyString
  else match s with
       | EmptyString => None
       | String c r =>
           if is_newline c then None
           else match lazy_until stops r with
                | Some m => Some (String c m)
                | None => None
                end
       end.

(** [s.match(/<lit>(.*?)(<stops>)/)[1]] *)
Definition capture_after (lit : string) (stops : list string) (s : string)
  : option string :=
  search (fun t => match strip_prefix lit t with
                   | Some r => lazy_until stops r
                   | None => None
                   end) s.

Fixpoint trim_start (s : string) : string :=
  match s with
  | EmptyString => EmptyString
  | String c r => if is_space c then trim_start r else s
  end.

Fixpoint trim_end (s : string) : string :=
  match s with
  | EmptyString => EmptyString
  | String c r =>
      match trim_end r with
      | EmptyString => if is_space c then EmptyString else String c EmptyString
      | r' => String c r'
      end
  end.

Definition trim (s : string) : string := trim_end (trim_start s).

End Re.

Definition CR : string := String (ascii_of_nat 13) EmptyString.
Definition LF : string := String (ascii_of_nat 10) EmptyString.

(** [/SPDX-License-Identifier: (.*?)(\r?\n|\*\/)/] *)
Definition extract_license (contractSource : string) : string :=
  match Re.capture_after "SPDX-License-Identifier: "
          [CR ++ LF; LF; "*/"] contractSource with
  | Some m => Re.trim m
  | None => "UNLICENSED"
  end.

(** [/pragma solidity (.*?);/] *)
Definition extract_pragma (contractSource : string) : string :=
  match Re.capture_after "pragma solidity " [";"] contractSource with
  | Some m => Re.trim m
  | None => "0.8.20"
  end.

(** The commit-qualified version pattern
    [<major>.<minor>.<patch>+commit.<hex>] of the data model, as a test
    on a whole string. *)
Definition commit_qualified (v : string) : bool :=
  match Re.commit_version_at v with
  | Some (_, EmptyString) => true
  | _ => false
  end.

(* ================================================================= *)
(** ** compile.js *)

Definition getCompilerVersion (e : Env) : M string :=
  try_catch
    (fullVersion <- lift (solc_version e) ;;
     match Re.search Re.commit_version_at fullVersion with
     | Some (versionMatch, _) => ret versionMatch
     | None =>
         match Re.search Re.semver_at fullVersion with
         | Some (semanticMatch, _) =>
             console_warn
               "Using semantic version only - verification may fail" ;;
             ret semanticMatch
         | None =>
             throw (mkError ("Could not extract version from: "
                             ++ fullVersion))
         end
     end)
    (fun error =>
       console_error ("Version detection failed: " ++ message error) ;;
       ret "0.8.20").

Fixpoint assoc {A} (k : string) (l : list (string * A)) : option A :=
  match l with
  | [] => None
  | (k', v) :: r => if k =? k' then Some v else assoc k r
  end.

Definition type_error (property : string) : Error :=
  mkError ("Cannot read properties of undefined (reading '"
           ++ property ++ "')").

(** [output.contracts[file][contractName]] followed by the [!contract]
    test and the reads of [contract.evm.bytecode.object] and
    [contract.evm.deployedBytecode.object]. *)
Definition select_contract (output : SolcOutput) (file contractName : string)
  : M SolcContract :=
  match o_contracts output with
  | None => throw (type_error file)
  | Some contracts =>
      match assoc file contracts with
      | None =>
          (* [file] ends in [.sol], so nothing is inherited under it *)
          throw (type_error contractName)
      | Some units =>
          match assoc contractName units with
          | Some contract => ret contract
          | None =>
              if Js.truthy (Js.inherited contractName) then
                throw (type_error "bytecode")
              else
                throw (mkError ("Contract " ++ contractName
                                ++ " not found in compilation output"))
          end
      end
  end.

(** [path.basename(file, '.sol')] for a directory entry ending in
    [.sol]. *)
Definition basename_sol (file : string) : string :=
  substring 0 (String.length file - 4) file.

(** One iteration of the loop over the directory entries. *)
Definition compile_file (e : Env) (compilerVersion file : string) : M unit :=
  if negb (Js.endsWith file ".sol") then ret tt
  else
    contractSource <- read_source file ;;
    let contractName := basename_sol file in
    output <- lift (solc_compile e file contractSource) ;;
    (match o_errors output with
     | Some errors =>
         let hasError :=
           existsb (fun error => severity error =? "error") errors in
         if hasError then
           throw (mkError "Compilation failed due to errors")
         else ret tt
     | None => ret tt
     end) ;;
    contract <- select_contract output file contractName ;;
    let abi := c_abi contract in
    let bytecode := c_bytecode contract in
    let deployedBytecode := c_deployedBytecode contract in
    let license := extract_license contractSource in
    let pragma := extract_pragma contractSource in
    writeFile (ArtifactFile contractName)
      (FArtifact {| a_contractName := contractName;
                    a_abi := abi;
                    a_bytecode := bytecode;
                    a_deployedBytecode := deployedBytecode;
                    a_metadata := c_metadata contract |}) ;;
    writeFile SettingsFile
      (FSettings {| s_contractName := contractName;
                    s_solcVersion := compilerVersion;
                    s_optimization_enabled := true;
                    s_optimization_runs := 200;
                    s_pragma := pragma;
                    s_license := license;
                    s_deployedBytecode := deployedBytecode;
                    s_compilationTimestamp := now e |}).

Fixpoint compile_files (e : Env) (compilerVersion : string)
    (contractFiles : list string) : M unit :=
  match contractFiles with
  | [] => ret tt
  | file :: rest =>
      compile_file e compilerVersion file ;;
      compile_files e compilerVersion rest
  end.

(** The [try] block of [compile]. *)
Definition compile_body (e : Env) : M bool :=
  mkdir e ArtifactsDir ;;
  compilerVersion <- getCompilerVersion e ;;
  contractFiles <- call (EvReaddir ContractsDir) (fs_readdir e ContractsDir) ;;
  compile_files e compilerVersion contractFiles ;;
  ret true.

Definition compile (e : Env) : M bool :=
  try_catch (compile_body e)
    (fun error =>
       console_error ("Compilation failed: " ++ message error) ;;
       ret false).

(* ================================================================= *)
(** ** Observations on a run *)

Definition result_of {A} (x : Res A * World * list Event) : Res A :=
  fst (fst x).
Definition world_of {A} (x : Res A * World * list Event) : World :=
  snd (fst x).
Definition trace_of {A} (x : Res A * World * list Event) : list Event :=
  snd x.

(** A run that comes after the events [t]. *)
Definition prepend {A} (t : list Event) (x : Res A * World * list Event)
  : Res A * World * list Event :=
  (result_of x, world_of x, (t ++ trace_of x)%list).

(** The computation never calls [process.exit]. *)
Definition no_exit {A} (c : M A) : Prop :=
  forall w n, result_of (c w) <> Exit n.

(** The status stored in deployments/<network>.json. *)
Definition persisted_verification (w : World) (network : string)
  : option VerificationStatus :=
  match files w (DeploymentFile network) with
  | Some (FDeployment d) => d_verification d
  | _ => None
  end.

Definition persisted_status (w : World) (network : string) : option VStatus :=
  option_map v_status (persisted_verification w network).


(** The coming [writeFile] call succeeds. *)
Definition next_write_ok (w : World) : bool := negb (hd false (faults w)).

(** The world after a [writeFile] call that succeeded. *)
Definition written (w : World) (p : Path) (f : File) : World :=
  {| files := update_files (files w) p f; faults := tl (faults w) |}.

(** Events of the storage layer and the warnings about it. *)
Definition is_storage (ev : Event) : bool :=
  match ev with
  | EvReadFile _ | EvWriteFile _ _ | EvWriteFailed _ | EvWarn _ => true
  | _ => false
  end.

(** The constructor arguments [verifyContract] sends: the pre-encoded
    ones of the record when there are any, else a fresh encoding without
    its two leading characters. *)
Definition encoded_args (e : Env) (d : DeploymentRecord) : Reply string :=
  if negb (d_encodedConstructorArgs d =? "") then
    Returns (d_encodedConstructorArgs d)
  else
    match abi_encode e (d_constructorTypes d) (d_constructorArgs d) with
    | Returns enc => Returns (Js.slice 2 enc)
    | Fails err => Fails err
    end.

(** A run without its storage events and storage warnings: what it
    returned or threw, the requests it made and the errors it reported. *)
Definition observable (t : list Event) : list Event :=
  filter (fun ev => negb (is_storage ev)) t.

Definition outcome {A} (x : Res A * World * list Event)
  : Res A * list Event :=
  (result_of x, observable (trace_of x)).

Definition is_submission (ev : Event) : bool :=
  match ev with
  | EvHttpPost _ _ => true
  | _ => false
  end.

Definition is_status_check (ev : Event) : bool :=
  match ev with
  | EvHttpGet _ => true
  | _ => false
  end.

Definition is_send_tx (ev : Event) : bool :=
  match ev with
  | EvSendDeployTx _ _ => true
  | _ => false
  end.

(** A [writeFile] call, whether it succeeded or not. *)
Definition is_write (ev : Event) : bool :=
  match ev with
  | EvWriteFile _ _ | EvWriteFailed _ => true
  | _ => false
  end.

(** What the record-persistence step and the [catch] block of [deploy]
    can do. *)
Definition is_persist_or_report (ev : Event) : bool :=
  match ev with
  | EvWriteFile _ _ | EvWriteFailed _ | EvMkdir _ | EvError _ => true
  | _ => false
  end.

Definition is_error_report (ev : Event) : bool :=
  match ev with
  | EvError _ => true
  | _ => false
  end.

(** What [k] polling attempts look like: a 3-second sleep, then the
    status-check GET. *)
Fixpoint attempts (url : string) (k : nat) : list Event :=
  match k with
  | O => []
  | S k' => EvSleep 3000 :: EvHttpGet url :: attempts url k'
  end.

(** The three exits of [pollVerificationStatus] that follow a status
    write-back: what the function returns or throws, the status it has
    just asked to store, and the failure reason stored with it. *)
Inductive PollEnd : Res unit -> VStatus -> option string -> Prop :=
| EndVerified : PollEnd (Ok tt) Verified None
| EndFailed r :
    PollEnd (Throw (mkError ("Verification failed: " ++ r))) Failed (Some r)
| EndTimeout : PollEnd (Throw (mkError "Verification timeout")) Timeout None.

(** A poll result that leaves the verification pending. *)
Definition pending (result : string) : bool :=
  negb (result =? "Pass - Verified") && negb (Js.includes result "Fail").

(** A scripted source of poll results; past its end the request fails. *)
Definition scripted (responses : list string) (i : nat) : Reply string :=
  match nth_error responses i with
  | Some r => Returns r
  | None => Fails (mkError "request failed")
  end.


Definition with_faults (w : World) (fl : list bool) : World :=
  {| files := files w; faults := fl |}.

(* ================================================================= *)
(** ** A concrete run: SimpleStorage on bsc-testnet *)

Module Sample.

Definition artifact : Artifact :=
  {| a_contractName := "SimpleStorage";
     a_abi := [ {| item_type := "constructor"; item_inputs := [] |} ];
     a_bytecode := "0x60806040";
     a_deployedBytecode := "0x6080";
     a_metadata := "" |}.

Definition settings (version : string) : CompilationSettings :=
  {| s_contractName := "SimpleStorage";
     s_solcVersion := version;
     s_optimization_enabled := true;
     s_optimization_runs := 200;
     s_pragma := "0.8.20";
     s_license := "MIT";
     s_deployedBytecode := "0x6080";
     s_compilationTimestamp := "2024-01-01T00:00:00.000Z" |}.

Definition deployment : DeploymentRecord :=
  {| d_contractName := "SimpleStorage";
     d_contractAddress := "0xC0FFEE";
     d_deploymentTx := "0xABCDEF";
     d_deployer := "0xD00D";
     d_network := "bsc-testnet";
     d_chainId := 97;
     d_timestamp := "2024-01-01T00:00:00.000Z";
     d_constructorArgs := [];
     d_constructorTypes := [];
     d_encodedConstructorArgs := "";
     d_verification := None |}.

Definition env (args : list string) (key : option string) (balance : Z)
    (wait : Reply unit) (live : string) (polls : list string) : Env :=
  {| argv := "node" :: "script" :: args;
     BSC_MAINNET_RPC_URL := None;
     BSC_TESTNET_RPC_URL := None;
     ETH_MAINNET_RPC_URL := None;
     ETH_SEPOLIA_RPC_URL := None;
     BSCSCAN_API_KEY := Some "KEY";
     ETHERSCAN_API_KEY := None;
     PRIVATE_KEY := key;
     NETWORK := None;
     now := "2024-01-02T00:00:00.000Z";
     fs_mkdir := fun _ => Returns tt;
     fs_readdir := fun _ => Returns ["SimpleStorage.sol"];
     solc_version := Returns "0.8.20+commit.a1b79de6.Emscripten.clang";
     solc_compile := fun _ _ =>
       Returns {| o_errors := None;
             o_contracts :=
               Some [ ("SimpleStorage.sol",
                       [ ("SimpleStorage",
                          {| c_abi := a_abi artifact;
                             c_bytecode := "60806040";
                             c_deployedBytecode := "6080";
                             c_metadata := "" |}) ]) ] |};
     eth_Wallet := fun _ => Returns "0xD00D";
     eth_getBalance := fun _ => Returns balance;
     eth_getNetwork := Returns 97%Z;
     eth_ContractFactory := fun _ => Returns tt;
     eth_getDeployTransaction := fun _ _ => Returns "0x60806040";
     eth_estimateGas := fun _ _ => Returns 100001%Z;
     eth_deploy := fun _ _ => Returns "0xABCDEF";
     eth_waitForDeployment := wait;
     eth_getAddress := Returns "0xC0FFEE";
     abi_encode := fun _ _ => Returns "0x";
     eth_getCode := fun _ => Returns live;
     http_submit :=
       Returns {| r_status := "1"; r_message := "OK"; r_result := "abc123guid" |};
     http_checkstatus := scripted polls |}.

Definition source : string :=
  "// SPDX-License-Identifier: MIT" ++ LF ++ "pragma solidity 0.8.20;" ++ LF.

(** A project directory after compile and deploy. *)
Definition world (version : string) (fl : list bool) : World :=
  {| files := fun p =>
       match p with
       | ArtifactFile "SimpleStorage" => Some (FArtifact artifact)
       | SettingsFile => Some (FSettings (settings version))
       | SourceFile "SimpleStorage.sol" => Some (FText source)
       | DeploymentFile "bsc-testnet" => Some (FDeployment deployment)
       | _ => None
       end;
     faults := fl |}.

(** A fresh checkout: only the contract source is there. *)
Definition fresh : World :=
  {| files := fun p =>
       match p with
       | SourceFile "SimpleStorage.sol" => Some (FText source)
       | _ => None
       end;
     faults := [] |}.

(** A checkout without the contracts. *)
Definition empty : World :=
  {| files := fun _ => None; faults := [] |}.

End Sample.

(* ================================================================= *)
(** ** Further observations *)

(** A request to the JSON-RPC endpoint. *)
Definition is_chain_call (ev : Event) : bool :=
  match ev with
  | EvGetBalance _ _ | EvGetNetwork _ | EvEstimateGas _ _
  | EvSendDeployTx _ _ | EvWaitForDeployment | EvGetCode _ _ => true
  | _ => false
  end.

(** The [verification] object [storeVerificationDetails] attaches. *)
Definition submitted_status (e : Env) (network : string)
    (deployment : DeploymentRecord) (guid : string)
    (compilationSettings : CompilationSettings) : VerificationStatus :=
  {| v_status := Submitted;
     v_guid := Some guid;
     v_submittedAt := Some (now e);
     v_compilerVersion := Some (s_solcVersion compilationSettings);
     v_explorerUrl :=
       Some (getExplorerUrl network (d_contractAddress deployment));
     v_verifiedAt := None;
     v_failureReason := None |}.

(** What [verifyContract] does with the explorer's answer to the
    submission. *)
Definition after_submission (e : Env) (network : string)
    (compilationSettings : CompilationSettings)
    (deployment : DeploymentRecord) : M unit :=
  fun w =>
    match http_submit e with
    | Returns response =>
        (if r_status response =? "1" then
           storeVerificationDetails e network deployment (r_result response)
             compilationSettings ;;
           pollVerificationStatus e (getApiUrl network) (getApiKey e network)
             (r_result response) network deployment
         else
           throw (mkError ("Verification submission failed: "
                           ++ r_message response))) w
    | Fails err => (Throw err, w, [])
    end.

(** Neither a request to the explorer nor a write nor an error report. *)
Definition is_quiet (ev : Event) : bool :=
  negb (is_submission ev || is_status_check ev || is_write ev
        || is_error_report ev).

(** The explorer answered the submission with status "1". *)
Definition submission_accepted (e : Env) : bool :=
  match http_submit e with
  | Returns response => r_status response =? "1"
  | Fails _ => false
  end.

Definition with_submit (e : Env) (r : Reply ApiResponse) : Env :=
  {| argv := argv e;
     BSC_MAINNET_RPC_URL := BSC_MAINNET_RPC_URL e;
     BSC_TESTNET_RPC_URL := BSC_TESTNET_RPC_URL e;
     ETH_MAINNET_RPC_URL := ETH_MAINNET_RPC_URL e;
     ETH_SEPOLIA_RPC_URL := ETH_SEPOLIA_RPC_URL e;
     BSCSCAN_API_KEY := BSCSCAN_API_KEY e;
     ETHERSCAN_API_KEY := ETHERSCAN_API_KEY e;
     PRIVATE_KEY := PRIVATE_KEY e;
     NETWORK := NETWORK e;
     now := now e;
     fs_mkdir := fs_mkdir e;
     fs_readdir := fs_readdir e;
     solc_version := solc_version e;
     solc_compile := solc_compile e;
     eth_Wallet := eth_Wallet e;
     eth_getBalance := eth_getBalance e;
     eth_getNetwork := eth_getNetwork e;
     eth_ContractFactory := eth_ContractFactory e;
     eth_getDeployTransaction := eth_getDeployTransaction e;
     eth_estimateGas := eth_estimateGas e;
     eth_deploy := eth_deploy e;
     eth_waitForDeployment := eth_waitForDeployment e;
     eth_getAddress := eth_getAddress e;
     abi_encode := abi_encode e;
     eth_getCode := eth_getCode e;
     http_submit := r;
     http_checkstatus := http_checkstatus e |}.

(** An explorer that rejects the submission with the given message. *)
Definition rejecting (msg : string) : Env :=
  with_submit
    (Sample.env [] (Some "0x01") 5 (Returns tt) "0x6080" ["Pass - Verified"])
    (Returns {| r_status := "0"; r_message := msg; r_result := "" |}).

Definition network_names : list string :=
  ["bsc"; "bsc-testnet"; "ethereum"; "sepolia"].

(** Every character of [s] satisfies [f]. *)
Fixpoint all_chars (f : ascii -> bool) (s : string) : bool :=
  match s with
  | EmptyString => true
  | String c r => f c && all_chars f r
  end.

(** [s] is empty or starts with a character that fails [f]. *)
Definition stops_at (f : ascii -> bool) (s : string) : bool :=
  match s with
  | EmptyString => true
  | String c _ => negb (f c)
  end.



(** [output.errors.some(error => error.severity === 'error')], and
    [false] for an output without [errors]. *)
Definition has_error (output : SolcOutput) : bool :=
  match o_errors output with
  | Some errors => existsb (fun error => severity error =? "error") errors
  | None => false
  end.

(** [output.contracts[file][contractName]] where the output has it. *)
Definition compiled_contract (output : SolcOutput)
    (file contractName : string) : option SolcContract :=
  match o_contracts output with
  | Some contracts =>
      match assoc file contracts with
      | Some units => assoc contractName units
      | None => None
      end
  | None => None
  end.

(** The two documents [compile] writes for a contract. *)
Definition artifact_of (contractName : string) (contract : SolcContract)
  : Artifact :=
  {| a_contractName := contractName;
     a_abi := c_abi contract;
     a_bytecode := c_bytecode contract;
     a_deployedBytecode := c_deployedBytecode contract;
     a_metadata := c_metadata contract |}.

Definition settings_of (e : Env) (compilerVersion contractName
    contractSource : string) (contract : SolcContract)
  : CompilationSettings :=
  {| s_contractName := contractName;
     s_solcVersion := compilerVersion;
     s_optimization_enabled := true;
     s_optimization_runs := 200;
     s_pragma := extract_pragma contractSource;
     s_license := extract_license contractSource;
     s_deployedBytecode := c_deployedBytecode contract;
     s_compilationTimestamp := now e |}.

(** No entry of the directory listing ends in [.sol]. *)
Definition no_sol (contractFiles : list string) : bool :=
  forallb (fun file => negb (Js.endsWith file ".sol")) contractFiles.

(** A path [compile] writes to. *)
Definition is_compile_output (p : Path) : bool :=
  match p with
  | ArtifactFile _ | SettingsFile => true
  | _ => false
  end.

(** The environment with another listing of the contracts directory and
    another compiler. *)
Definition with_project (e : Env) (entries : list string)
    (compiler : string -> string -> Reply SolcOutput) : Env :=
  {| argv := argv e;
     BSC_MAINNET_RPC_URL := BSC_MAINNET_RPC_URL e;
     BSC_TESTNET_RPC_URL := BSC_TESTNET_RPC_URL e;
     ETH_MAINNET_RPC_URL := ETH_MAINNET_RPC_URL e;
     ETH_SEPOLIA_RPC_URL := ETH_SEPOLIA_RPC_URL e;
     BSCSCAN_API_KEY := BSCSCAN_API_KEY e;
     ETHERSCAN_API_KEY := ETHERSCAN_API_KEY e;
     PRIVATE_KEY := PRIVATE_KEY e;
     NETWORK := NETWORK e;
     now := now e;
     fs_mkdir := fs_mkdir e;
     fs_readdir := fun _ => Returns entries;
     solc_version := solc_version e;
     solc_compile := compiler;
     eth_Wallet := eth_Wallet e;
     eth_getBalance := eth_getBalance e;
     eth_getNetwork := eth_getNetwork e;
     eth_ContractFactory := eth_ContractFactory e;
     eth_getDeployTransaction := eth_getDeployTransaction e;
     eth_estimateGas := eth_estimateGas e;
     eth_deploy := eth_deploy e;
     eth_waitForDeployment := eth_waitForDeployment e;
     eth_getAddress := eth_getAddress e;
     abi_encode := abi_encode e;
     eth_getCode := eth_getCode e;
     http_submit := http_submit e;
     http_checkstatus := http_checkstatus e |}.

(** A compiler that rejects every unit with one error diagnostic. *)
Definition failing_compiler (file contractSource : string)
  : Reply SolcOutput :=
  Returns {| o_errors := Some [ {| severity := "error";
                                   formattedMessage := "ParserError" |} ];
             o_contracts := None |}.

(* ================================================================= *)
(** ** Equations of the monad *)

Lemma prepend_nil {A} (x : Res A * World * list Event) : prepend [] x = x.
Proof. destruct x as [[r w] t]; reflexivity. Qed.

Lemma result_of_prepend {A} t (x : Res A * World * list Event) :
  result_of (prepend t x) = result_of x.
Proof. reflexivity. Qed.

Lemma world_of_prepend {A} t (x : Res A * World * list Event) :
  world_of (prepend t x) = world_of x.
Proof. reflexivity. Qed.

Lemma trace_of_prepend {A} t (x : Res A * World * list Event) :
  trace_of (prepend t x) = (t ++ trace_of x)%list.
Proof. reflexivity. Qed.

Section MonadEquations.

Context {A B : Type}.

Lemma bind_unfold (c : M A) (k : A -> M B) (w : World) :
  bind c k w =
  match result_of (c w) with
  | Ok a => prepend (trace_of (c w)) (k a (world_of (c w)))
  | Throw err => (Throw err, world_of (c w), trace_of (c w))
  | Exit n => (Exit n, world_of (c w), trace_of (c w))
  end.
Proof.
  unfold bind, prepend, result_of, world_of, trace_of.
  destruct (c w) as [[[a | err | n] w1] t1]; simpl; try reflexivity.
  destruct (k a w1) as [[r w2] t2]; reflexivity.
Qed.

Lemma bind_ret (a : A) (k : A -> M B) (w : World) : bind (ret a) k w = k a w.
Proof. rewrite bind_unfold; simpl. apply prepend_nil. Qed.

Lemma bind_throw (err : Error) (k : A -> M B) (w : World) :
  bind (throw err) k w = (Throw err, w, []).
Proof. reflexivity. Qed.

Lemma bind_call (ev : Event) (r : Reply A) (k : A -> M B) (w : World) :
  bind (call ev r) k w =
  match r with
  | Returns a => prepend [ev] (k a w)
  | Fails err => (Throw err, w, [ev])
  end.
Proof. rewrite bind_unfold; destruct r; reflexivity. Qed.

Lemma bind_lift (r : Reply A) (k : A -> M B) (w : World) :
  bind (lift r) k w =
  match r with
  | Returns a => k a w
  | Fails err => (Throw err, w, [])
  end.
Proof.
  rewrite bind_unfold; destruct r; simpl; [apply prepend_nil | reflexivity].
Qed.

Lemma try_catch_unfold (c : M A) (h : Error -> M A) (w : World) :
  try_catch c h w =
  match result_of (c w) with
  | Throw err => prepend (trace_of (c w)) (h err (world_of (c w)))
  | _ => c w
  end.
Proof.
  unfold try_catch, prepend, result_of, world_of, trace_of.
  destruct (c w) as [[[a | err | n] w1] t1]; simpl; try reflexivity.
  destruct (h err w1) as [[r w2] t2]; reflexivity.
Qed.

End MonadEquations.

Lemma bind_emit {B} (ev : Event) (k : unit -> M B) (w : World) :
  bind (emit ev) k w = prepend [ev] (k tt w).
Proof. rewrite bind_unfold; reflexivity. Qed.

Lemma bind_readFile {B} (p : Path) (k : File -> M B) (w : World) :
  bind (readFile p) k w =
  match files w p with
  | Some f => prepend [EvReadFile p] (k f w)
  | None => (Throw (enoent p), w, [EvReadFile p])
  end.
Proof.
  rewrite bind_unfold; unfold readFile; destruct (files w p); reflexivity.
Qed.

Lemma bind_assoc {A B C} (c : M A) (k1 : A -> M B) (k2 : B -> M C) w :
  bind (bind c k1) k2 w = bind c (fun a => bind (k1 a) k2) w.
Proof.
  unfold bind.
  destruct (c w) as [[[a | err | n] w1] t1]; try reflexivity.
  destruct (k1 a w1) as [[[b | err | n] w2] t2]; try reflexivity.
  destruct (k2 b w2) as [[r w3] t3].
  now rewrite app_assoc.
Qed.

(** The provider is found, or the run stops on the configuration error. *)
Lemma getProvider_cases (e : Env) (network : string) (w : World) :
  (exists url, getProvider e network w = (Ok url, w, [])) \/
  getProvider e network w =
    (Throw (mkError ("No RPC URL configured for network: " ++ network)), w, []).
Proof.
  unfold getProvider; cbv zeta.
  repeat match goal with
         | |- context [if ?b then _ else _] => destruct b
         | |- context [match ?o with Some _ => _ | None => _ end] => destruct o
         end;
    first [left; eexists; reflexivity | right; reflexivity].
Qed.

Lemma getSigner_cases (e : Env) (provider : string) (w : World) :
  (exists a, getSigner e provider w = (Ok a, w, [])) \/
  (exists err, getSigner e provider w = (Throw err, w, [])).
Proof.
  unfold getSigner, lift.
  destruct (missing (PRIVATE_KEY e)); [right; eexists; reflexivity |].
  destruct (PRIVATE_KEY e); [| right; eexists; reflexivity].
  destruct (eth_Wallet e s); simpl; eauto.
Qed.

Lemma bind_Ok {A B} (c : M A) (k : A -> M B) w a w1 t1 :
  c w = (Ok a, w1, t1) -> bind c k w = prepend t1 (k a w1).
Proof. intros H; rewrite bind_unfold, H; reflexivity. Qed.

Lemma bind_Throw {A B} (c : M A) (k : A -> M B) w err w1 t1 :
  c w = (Throw err, w1, t1) -> bind c k w = (Throw err, w1, t1).
Proof. intros H; rewrite bind_unfold, H; reflexivity. Qed.

Lemma bind_read_artifact {B} (n : string) (k : Artifact -> M B) (w : World) :
  bind (read_artifact n) k w =
  match files w (ArtifactFile n) with
  | Some (FArtifact a) => prepend [EvReadFile (ArtifactFile n)] (k a w)
  | Some _ => (Throw (malformed (ArtifactFile n)), w, [EvReadFile (ArtifactFile n)])
  | None => (Throw (enoent (ArtifactFile n)), w, [EvReadFile (ArtifactFile n)])
  end.
Proof.
  unfold read_artifact. rewrite bind_assoc, bind_readFile.
  destruct (files w (ArtifactFile n)) as [[a | s | d | s] |]; try reflexivity.
  now rewrite bind_ret.
Qed.

(** One step of symbolic execution of the first action of a [bind]. *)
(** Symbolic execution: [step] rewrites the first action of a [bind] with
    its equation and splits on what that action can answer. *)
Ltac break_reply :=
  match goal with
  | |- context [match ?r with Returns _ => _ | Fails _ => _ end] =>
      destruct r eqn:?
  end.

Ltac break_file :=
  match goal with
  | |- context [match files ?w ?p with _ => _ end] =>
      destruct (files w p) as [[? | ? | ? | ?] |] eqn:?
  end.

Ltac step :=
  first
    [ rewrite bind_ret
    | rewrite bind_throw
    | rewrite bind_emit
    | rewrite bind_call; break_reply
    | rewrite bind_lift; break_reply
    | rewrite bind_read_artifact; break_file
    | rewrite bind_assoc
    | match goal with
      | |- context [bind (if ?b then _ else _) _ _] => destruct b eqn:?
      | |- context [bind (match ?l with [] => _ | _ :: _ => _ end) _ _] =>
          destruct l eqn:?
      end ].

(** Case analysis on a membership [H : In ev t] in an explicit trace. *)
Ltac in_trace H :=
  repeat (destruct H as [H | H]; try discriminate H); try contradiction.

(** Runs [deploy_prepare] symbolically, one goal per way it can end. *)
Ltac run_prepare e w :=
  unfold deploy_prepare, mkdir;
  step;
  [ step;
    [ destruct (getProvider_cases e (cli_network e) w) as [[?url Hp] | Hp];
      [ rewrite (bind_Ok _ _ _ _ _ _ Hp), prepend_nil;
        match goal with
        | |- context [getSigner e ?u] =>
            destruct (getSigner_cases e u w) as [[?addr Hs] | [?err Hs]];
            [ rewrite (bind_Ok _ _ _ _ _ _ Hs), prepend_nil; repeat step
            | rewrite (bind_Throw _ _ _ _ _ _ Hs) ]
        end
      | rewrite (bind_Throw _ _ _ _ _ _ Hp) ]
    | .. ]
  | ];
  unfold prepend, trace_of, result_of, world_of; simpl.

Lemma deploy_prepare_pure (e : Env) (w : World) :
  world_of (deploy_prepare e w) = w /\
  (forall ev, In ev (trace_of (deploy_prepare e w)) -> is_write ev = false).
Proof.
  run_prepare e w.
  all: split; [reflexivity | intros ev H; in_trace H; subst ev; reflexivity].
Qed.

Lemma deploy_prepare_balance (e : Env) (w : World) :
  forall p a, In (EvGetBalance p a) (trace_of (deploy_prepare e w)) ->
    (eth_getBalance e a = Returns 0%Z ->
       result_of (deploy_prepare e w) = Throw insufficient_funds /\
       (forall ev, In ev (trace_of (deploy_prepare e w)) ->
                   is_send_tx ev = false)) /\
    (forall b, eth_getBalance e a = Returns b -> b <> 0%Z ->
       In (EvGetNetwork p) (trace_of (deploy_prepare e w))).
Proof.
  run_prepare e w.
  all: intros p a' H; in_trace H.
  all: injection H as <- <-.
  all: match goal with
       | Hb : eth_getBalance _ _ = _ |- _ =>
           split;
           [ intros H0; rewrite H0 in Hb; try discriminate Hb;
             injection Hb as <-
           | intros b H0 Hne; rewrite H0 in Hb; try discriminate Hb;
             injection Hb as <- ]
       end.
  all: try match goal with
           | Hz : (_ =? _)%Z = true |- _ => apply Z.eqb_eq in Hz
           | Hz : (0 =? 0)%Z = false |- _ => discriminate Hz
           end.
  all: try contradiction.
  all: try (split; [reflexivity | intros ev H; in_trace H; subst ev; reflexivity]).
  all: simpl; tauto.
Qed.


Lemma bind_writeFile {B} (p : Path) (f : File) (k : unit -> M B) (w : World) :
  bind (writeFile p f) k w =
  match faults w with
  | true :: rest =>
      (Throw (eacces p), {| files := files w; faults := rest |},
       [EvWriteFailed p])
  | false :: rest =>
      prepend [EvWriteFile p f]
        (k tt {| files := update_files (files w) p f; faults := rest |})
  | [] =>
      prepend [EvWriteFile p f]
        (k tt {| files := update_files (files w) p f; faults := [] |})
  end.
Proof.
  rewrite bind_unfold; unfold writeFile.
  destruct (faults w) as [| [|] rest]; reflexivity.
Qed.

(** The [catch] block of [deploy]. *)
Lemma deploy_handler (err : Error) (w : World) :
  exists report,
    (console_error ("Deployment failed: " ++ message err) ;;
     (match code err with
      | Some c =>
          if c =? "INSUFFICIENT_FUNDS" then
            console_error
              "Make sure your account has enough funds for deployment"
          else ret tt
      | None => ret tt
      end) ;;
     ret (DeployFailure (message err))) w =
    (Ok (DeployFailure (message err)), w,
     EvError ("Deployment failed: " ++ message err) :: report) /\
    (forall ev, In ev report -> is_error_report ev = true).
Proof.
  unfold console_error.
  rewrite bind_emit.
  destruct (code err) as [c |]; [destruct (c =? "INSUFFICIENT_FUNDS") |].
  - rewrite bind_emit. eexists; split; [reflexivity |].
    intros ev H; in_trace H; subst ev; reflexivity.
  - rewrite bind_ret. exists []; split; [reflexivity | intros ev []].
  - rewrite bind_ret. exists []; split; [reflexivity | intros ev []].
Qed.

Lemma deploy_after_failure (e : Env) (w : World) (err : Error) :
  result_of (deploy_prepare e w) = Throw err ->
  result_of (deploy e w) = Ok (DeployFailure (message err)) /\
  world_of (deploy e w) = w /\
  exists report,
    trace_of (deploy e w) =
      (trace_of (deploy_prepare e w)
       ++ EvError ("Deployment failed: " ++ message err) :: report)%list /\
    (forall ev, In ev report -> is_error_report ev = true).
Proof.
  intros H.
  destruct (deploy_prepare_pure e w) as [Hw _].
  unfold deploy. rewrite try_catch_unfold, bind_unfold, H.
  cbn [result_of world_of trace_of fst snd].
  destruct (deploy_handler err (world_of (deploy_prepare e w)))
    as [report [-> Hrep]].
  rewrite Hw. unfold prepend; cbn [result_of world_of trace_of fst snd].
  repeat split. exists report; split; [reflexivity | exact Hrep].
Qed.


(* ================================================================= *)
(** ** deploy.js: properties *)

Lemma deploy_persist_run (e : Env) (info : DeploymentRecord) (w : World) :
  (forall ev, In ev (trace_of (deploy_persist e info w)) ->
              is_persist_or_report ev = true) /\
  (forall n, result_of (deploy_persist e info w) <> Exit n).
Proof.
  unfold deploy_persist, mkdir.
  rewrite bind_writeFile.
  destruct (faults w) as [| [|] rest];
    [ | split; [intros ev H; in_trace H; subst ev; reflexivity | discriminate] | ].
  all: rewrite bind_call;
    destruct (fs_mkdir e PublicDeploymentsDir);
    [ unfold writeFile; simpl | split; [intros ev H; in_trace H; subst ev; reflexivity | discriminate] ].
  - split; [intros ev H; in_trace H; subst ev; reflexivity | discriminate].
  - destruct rest as [| [|] rest];
    (split; [intros ev H; in_trace H; subst ev; reflexivity | discriminate]).
Qed.

Lemma deploy_trace (e : Env) (w : World) :
  exists rest,
    trace_of (deploy e w) = (trace_of (deploy_prepare e w) ++ rest)%list /\
    (forall ev, In ev rest -> is_persist_or_report ev = true).
Proof.
  destruct (result_of (deploy_prepare e w)) as [info | err | n] eqn:H.
  - destruct (deploy_persist_run e info (world_of (deploy_prepare e w)))
      as [Hev Hex].
    unfold deploy. rewrite try_catch_unfold, bind_unfold, H.
    rewrite result_of_prepend, bind_unfold.
    destruct (result_of (deploy_persist e info (world_of (deploy_prepare e w))))
      as [[] | err | n] eqn:Hp.
    + cbn [result_of world_of trace_of fst snd prepend ret].
      eexists; split; [reflexivity |].
      intros ev Hin. rewrite app_nil_r in Hin. auto.
    + cbn [result_of world_of trace_of fst snd prepend].
      destruct (deploy_handler err
                  (world_of (deploy_persist e info (world_of (deploy_prepare e w)))))
        as [report [-> Hrep]].
      cbn [result_of world_of trace_of fst snd prepend].
      eexists; split; [rewrite <- app_assoc; reflexivity |].
      intros ev Hin. apply in_app_or in Hin as [Hin | Hin]; [auto |].
      destruct Hin as [<- | Hin]; [reflexivity |].
      apply Hrep in Hin. destruct ev; try discriminate; reflexivity.
    + now elim (Hex n).
  - destruct (deploy_after_failure e w err H) as (_ & _ & report & -> & Hrep).
    eexists; split; [reflexivity |].
    intros ev [<- | Hin]; [reflexivity |].
    apply Hrep in Hin. destruct ev; try discriminate; reflexivity.
  - unfold deploy. rewrite try_catch_unfold, bind_unfold, H.
    cbn [result_of world_of trace_of fst snd].
    exists []; split; [now rewrite app_nil_r | intros ev []].
Qed.

(** The failures the workflow names, as ways [deploy_prepare] throws. *)
Lemma deploy_prepare_named_failures (e : Env) (w : World) :
  let t := trace_of (deploy_prepare e w) in
  let r := result_of (deploy_prepare e w) in
  (forall n, In (EvReadFile (ArtifactFile n)) t ->
     files w (ArtifactFile n) = None -> r = Throw (enoent (ArtifactFile n))) /\
  (forall a err,
     fs_mkdir e DeploymentsDir = Returns tt ->
     files w (ArtifactFile (cli_contractName e)) = Some (FArtifact a) ->
     result_of (getProvider e (cli_network e) w) = Throw err ->
     r = Throw err /\
     err = mkError ("No RPC URL configured for network: " ++ cli_network e)) /\
  (forall a url,
     fs_mkdir e DeploymentsDir = Returns tt ->
     files w (ArtifactFile (cli_contractName e)) = Some (FArtifact a) ->
     result_of (getProvider e (cli_network e) w) = Ok url ->
     missing (PRIVATE_KEY e) = true ->
     r = Throw (mkError "No private key found in environment variables")) /\
  (forall err, In EvWaitForDeployment t ->
     eth_waitForDeployment e = Fails err -> r = Throw err).
Proof.
  intros t r; subst t r.
  split; [| split; [| split]].
  - run_prepare e w.
    all: intros n H; in_trace H.
    all: injection H as <-.
    all: intros Hnone; try congruence.
    all: reflexivity.
  - intros a err Hm Ha Hp.
    unfold deploy_prepare, mkdir.
    rewrite bind_call, Hm, bind_read_artifact, Ha.
    destruct (getProvider_cases e (cli_network e) w) as [[url H] | H];
      rewrite H in Hp; unfold result_of in Hp; simpl in Hp;
      [discriminate | injection Hp as <-].
    rewrite (bind_Throw _ _ _ _ _ _ H). split; reflexivity.
  - intros a url Hm Ha Hp Hk.
    unfold deploy_prepare, mkdir.
    rewrite bind_call, Hm, bind_read_artifact, Ha.
    destruct (getProvider_cases e (cli_network e) w) as [[url' H] | H];
      rewrite H in Hp; unfold result_of in Hp; simpl in Hp;
      [injection Hp as -> | discriminate].
    rewrite (bind_Ok _ _ _ _ _ _ H), prepend_nil.
    unfold getSigner. rewrite Hk. reflexivity.
  - run_prepare e w.
    all: intros err' H; in_trace H.
    all: intros Hf; congruence.
Qed.

(** C4. When [deploy] fails at any step before the record-persistence
    step (whatever makes [deploy_prepare] throw: artifact not found, no
    RPC URL, no private key, no funds, a reverted or timed-out
    confirmation), it stops there, reports the error and returns
    [{success: false, error}] with the underlying message; no [writeFile]
    is attempted, and neither the canonical nor the mirrored deployment
    record changes. *)
Theorem deploy_failure_writes_no_record (e : Env) (w : World) (err : Error) :
  result_of (deploy_prepare e w) = Throw err ->
  result_of (deploy e w) = Ok (DeployFailure (message err)) /\
  (forall network,
     files (world_of (deploy e w)) (DeploymentFile network)
       = files w (DeploymentFile network) /\
     files (world_of (deploy e w)) (PublicDeploymentFile network)
       = files w (PublicDeploymentFile network)) /\
  (forall ev, In ev (trace_of (deploy e w)) -> is_write ev = false) /\
  exists report,
    trace_of (deploy e w) =
      (trace_of (deploy_prepare e w)
       ++ EvError ("Deployment failed: " ++ message err) :: report)%list /\
    (forall ev, In ev report -> is_error_report ev = true).
Proof.
  intros H.
  destruct (deploy_after_failure e w err H) as (Hr & Hw & report & Ht & Hrep).
  destruct (deploy_prepare_pure e w) as [_ Hnw].
  split; [exact Hr |].
  split; [rewrite Hw; auto |].
  split; [| exists report; auto].
  rewrite Ht. intros ev Hin.
  apply in_app_or in Hin as [Hin | [<- | Hin]]; [auto | reflexivity |].
  apply Hrep in Hin. destruct ev; try discriminate; reflexivity.
Qed.

Lemma deploy_failure_writes_no_record_witness :
  let e := Sample.env [] (Some "0x01") 0 (Returns tt) "" [] in
  let w := Sample.world "0.8.20" [] in
  result_of (deploy_prepare e w) = Throw insufficient_funds /\
  result_of (deploy e w)
    = Ok (DeployFailure
            "Deployer has no funds. Please fund your account first.") /\
  files (world_of (deploy e w)) (DeploymentFile "bsc-testnet")
    = files w (DeploymentFile "bsc-testnet") /\
  files (world_of (deploy e w)) (PublicDeploymentFile "bsc-testnet") = None.
Proof.
  intros e w.
  assert (H : result_of (deploy_prepare e w) = Throw insufficient_funds)
    by reflexivity.
  destruct (deploy_failure_writes_no_record e w insufficient_funds H)
    as (Hr & Hf & _).
  split; [exact H |].
  split; [exact Hr |].
  split; [apply (Hf "bsc-testnet") |].
  destruct (Hf "bsc-testnet") as [_ ->]. reflexivity.
Defined.

(** The six failures the workflow names, on the sample project: each
    ends [deploy] with [{success: false, error}] and leaves the canonical
    record as it was. *)
Example deploy_named_failures :
  let run args key balance wait w :=
    let x := deploy (Sample.env args key balance wait "" []) w in
    (result_of x, files (world_of x) (DeploymentFile "bsc-testnet"),
     files (world_of x) (PublicDeploymentFile "bsc-testnet")) in
  let ok := Sample.world "0.8.20" [] in
  let key := Some "0x01" in
  run [] key 5%Z (Returns tt) Sample.fresh =
    (Ok (DeployFailure
       "ENOENT: no such file or directory, open 'artifacts/SimpleStorage.json'"),
     None, None) /\
  run ["SimpleStorage"; "sepolia"] key 5%Z (Returns tt) ok =
    (Ok (DeployFailure "No RPC URL configured for network: sepolia"),
     Some (FDeployment Sample.deployment), None) /\
  run [] None 5%Z (Returns tt) ok =
    (Ok (DeployFailure "No private key found in environment variables"),
     Some (FDeployment Sample.deployment), None) /\
  run [] key 0%Z (Returns tt) ok =
    (Ok (DeployFailure
       "Deployer has no funds. Please fund your account first."),
     Some (FDeployment Sample.deployment), None) /\
  run [] key 5%Z (Fails (mkError "transaction execution reverted")) ok =
    (Ok (DeployFailure "transaction execution reverted"),
     Some (FDeployment Sample.deployment), None) /\
  run [] key 5%Z (Fails (mkError "timeout")) ok =
    (Ok (DeployFailure "timeout"),
     Some (FDeployment Sample.deployment), None).
Proof. repeat split. Qed.

(** C5. In every run of [deploy] that queries the signer's balance: if
    the endpoint answers exactly zero, [deploy] fails with the
    insufficient-funds error and no contract-creation transaction is
    sent; if it answers any other value, the check is passed and the run
    goes on to its next step, the chain-identifier query. *)
Theorem zero_balance_fails_before_send (e : Env) (w : World)
    (p a : string) :
  In (EvGetBalance p a) (trace_of (deploy e w)) ->
  (eth_getBalance e a = Returns 0%Z ->
     result_of (deploy e w) = Ok (DeployFailure (message insufficient_funds)) /\
     (forall ev, In ev (trace_of (deploy e w)) -> is_send_tx ev = false)) /\
  (forall b, eth_getBalance e a = Returns b -> b <> 0%Z ->
     In (EvGetNetwork p) (trace_of (deploy e w))).
Proof.
  destruct (deploy_trace e w) as (rest & Ht & Hrest).
  rewrite Ht. intros Hin.
  assert (Hp : In (EvGetBalance p a) (trace_of (deploy_prepare e w))).
  { apply in_app_or in Hin as [Hin | Hin]; [exact Hin |].
    apply Hrest in Hin; discriminate. }
  destruct (deploy_prepare_balance e w p a Hp) as [Hzero Hpos].
  split.
  - intros H0. destruct (Hzero H0) as [Hr Hns].
    split; [apply (deploy_after_failure e w _ Hr) |].
    intros ev Hev. apply in_app_or in Hev as [Hev | Hev]; [auto |].
    apply Hrest in Hev. destruct ev; try discriminate; reflexivity.
  - intros b Hb Hne. apply in_or_app; left. eauto.
Qed.

Lemma zero_balance_fails_before_send_witness :
  let e := Sample.env [] (Some "0x01") 0 (Returns tt) "" [] in
  let w := Sample.world "0.8.20" [] in
  In (EvGetBalance bsc_testnet_default "0xD00D") (trace_of (deploy e w)) /\
  result_of (deploy e w)
    = Ok (DeployFailure
            "Deployer has no funds. Please fund your account first.") /\
  In (EvGetNetwork bsc_testnet_default)
     (trace_of (deploy (Sample.env [] (Some "0x01") 1 (Returns tt) "" []) w)).
Proof.
  intros e w.
  assert (H : In (EvGetBalance bsc_testnet_default "0xD00D")
                 (trace_of (deploy e w)))
    by (right; right; left; reflexivity).
  split; [exact H |].
  split.
  - destruct (zero_balance_fails_before_send e w _ _ H) as [Hz _].
    apply Hz. reflexivity.
  - assert (H1 : In (EvGetBalance bsc_testnet_default "0xD00D")
                    (trace_of (deploy (Sample.env [] (Some "0x01") 1
                                         (Returns tt) "" []) w)))
      by (right; right; left; reflexivity).
    destruct (zero_balance_fails_before_send _ w _ _ H1) as [_ Hp].
    apply (Hp 1%Z); [reflexivity | discriminate].
Defined.


(** The margin is rounded down: an estimate of 1 gets no margin at all,
    where rounding [1.2] up would give 2. *)
Example gas_limit_rounds_down :
  gasLimit 1 = 1%Z /\ gasLimit 4 = 4%Z /\ gasLimit 5 = 6%Z /\
  gasLimit 104 = 124%Z.
Proof. repeat split. Qed.


(* ================================================================= *)
(** ** verify.js: the status write-back *)

Lemma bind_read_deployment {B} (n : string) (k : DeploymentRecord -> M B)
    (w : World) :
  bind (read_deployment n) k w =
  match files w (DeploymentFile n) with
  | Some (FDeployment d) => prepend [EvReadFile (DeploymentFile n)] (k d w)
  | Some _ =>
      (Throw (malformed (DeploymentFile n)), w,
       [EvReadFile (DeploymentFile n)])
  | None =>
      (Throw (enoent (DeploymentFile n)), w, [EvReadFile (DeploymentFile n)])
  end.
Proof.
  unfold read_deployment. rewrite bind_assoc, bind_readFile.
  destruct (files w (DeploymentFile n)) as [[a | s | d | s] |]; try reflexivity.
  now rewrite bind_ret.
Qed.

Lemma path_eqb_refl (p : Path) : path_eqb p p = true.
Proof. destruct p; simpl; auto using String.eqb_refl. Qed.

Lemma writeFile_ok (p : Path) (f : File) (w : World) :
  next_write_ok w = true ->
  writeFile p f w = (Ok tt, written w p f, [EvWriteFile p f]).
Proof.
  unfold next_write_ok, writeFile, written.
  destruct (faults w) as [| [|] rest]; simpl; intros H;
    [reflexivity | discriminate | reflexivity].
Qed.

Lemma writeFile_fails (p : Path) (f : File) (w : World) :
  next_write_ok w = false ->
  writeFile p f w =
    (Throw (eacces p), with_faults w (tl (faults w)), [EvWriteFailed p]).
Proof.
  unfold next_write_ok, writeFile, with_faults.
  destruct (faults w) as [| [|] rest]; simpl; intros H;
    [discriminate | reflexivity | discriminate].
Qed.

(** The three ways a status write-back can go. *)
Lemma updateVerificationStatus_run (e : Env) network d status guid reason w :
  let p := DeploymentFile network in
  updateVerificationStatus e network d status guid reason w =
  match files w p with
  | Some (FDeployment cur) =>
      if next_write_ok w then
        (Ok tt,
         written w p
           (FDeployment
              (with_verification cur
                 (updated_verification e (d_verification cur) status reason))),
         [EvReadFile p;
          EvWriteFile p
            (FDeployment
               (with_verification cur
                  (updated_verification e (d_verification cur) status
                     reason)))])
      else
        (Ok tt, with_faults w (tl (faults w)),
         [EvReadFile p; EvWriteFailed p;
          EvWarn ("Warning: Could not update verification status: "
                  ++ message (eacces p))])
  | Some _ =>
      (Ok tt, w,
       [EvReadFile p;
        EvWarn ("Warning: Could not update verification status: "
                ++ message (malformed p))])
  | None =>
      (Ok tt, w,
       [EvReadFile p;
        EvWarn ("Warning: Could not update verification status: "
                ++ message (enoent p))])
  end.
Proof.
  intros p. unfold updateVerificationStatus.
  rewrite try_catch_unfold, bind_read_deployment. fold p.
  destruct (files w p) as [[a | s | cur | s] |]; try reflexivity.
  destruct (next_write_ok w) eqn:Hw.
  - rewrite (writeFile_ok _ _ _ Hw). reflexivity.
  - rewrite (writeFile_fails _ _ _ Hw). reflexivity.
Qed.

Lemma updateVerificationStatus_total (e : Env) network d status guid reason w :
  result_of (updateVerificationStatus e network d status guid reason w)
    = Ok tt /\
  (forall ev,
     In ev (trace_of (updateVerificationStatus e network d status guid
                        reason w)) ->
     is_storage ev = true).
Proof.
  rewrite updateVerificationStatus_run.
  destruct (files w (DeploymentFile network)) as [[a | s | cur | s] |];
    [ | | destruct (next_write_ok w) | | ];
    (split; [reflexivity | intros ev H; in_trace H; subst ev; reflexivity]).
Qed.

Lemma storeVerificationDetails_run (e : Env) network d guid cs w :
  let p := DeploymentFile network in
  let f :=
    FDeployment
      (with_verification d
         {| v_status := Submitted;
            v_guid := Some guid;
            v_submittedAt := Some (now e);
            v_compilerVersion := Some (s_solcVersion cs);
            v_explorerUrl :=
              Some (getExplorerUrl network (d_contractAddress d));
            v_verifiedAt := None;
            v_failureReason := None |}) in
  storeVerificationDetails e network d guid cs w =
  if next_write_ok w then (Ok tt, written w p f, [EvWriteFile p f])
  else
    (Ok tt, with_faults w (tl (faults w)),
     [EvWriteFailed p;
      EvWarn ("Warning: Could not store verification details: "
              ++ message (eacces p))]).
Proof.
  intros p f. unfold storeVerificationDetails.
  rewrite try_catch_unfold. cbv zeta. fold p. fold f.
  destruct (next_write_ok w) eqn:Hw.
  - rewrite (writeFile_ok _ _ _ Hw). reflexivity.
  - rewrite (writeFile_fails _ _ _ Hw). reflexivity.
Qed.

(* ================================================================= *)
(** ** verify.js: the poller *)


Section Poller.

Variable e : Env.
Variables (apiUrl : Js.value) (apiKey : option string).
Variables (guid network : string) (deployment : DeploymentRecord).

Let url := checkstatus_url apiUrl apiKey guid.
Let poll := poll_from e apiUrl apiKey guid network deployment.
Let update := updateVerificationStatus e network deployment.

Lemma pass_is_not_fail (r : string) :
  (r =? "Pass - Verified") = true -> Js.includes r "Fail" = false.
Proof. intros H. apply String.eqb_eq in H. subst r. reflexivity. Qed.

Lemma poll_request_fails n i w err :
  http_checkstatus e i = Fails err ->
  poll (S n) i w = (Throw err, w, attempts url 1).
Proof.
  intros H. unfold poll; simpl.
  rewrite bind_emit, bind_call, H. reflexivity.
Qed.

Lemma poll_pending n i w r :
  http_checkstatus e i = Returns r -> pending r = true ->
  poll (S n) i w = prepend (attempts url 1) (poll n (S i) w).
Proof.
  intros H Hp. unfold pending in Hp.
  apply andb_true_iff in Hp as [H1 H2].
  apply negb_true_iff in H1, H2.
  unfold poll; simpl.
  rewrite bind_emit, bind_call, H, H1, H2. reflexivity.
Qed.

Lemma poll_pass n i w :
  http_checkstatus e i = Returns "Pass - Verified" ->
  poll (S n) i w = prepend (attempts url 1) (update Verified guid None w).
Proof.
  intros H. unfold poll; simpl.
  rewrite bind_emit, bind_call, H. simpl.
  rewrite bind_unfold.
  pose proof (updateVerificationStatus_total e network deployment Verified
                guid None w) as [Hr _].
  unfold update.
  destruct (updateVerificationStatus e network deployment Verified guid None w)
    as [[r w'] t].
  unfold result_of in Hr; simpl in Hr; subst r. unfold prepend, ret; simpl.
  now rewrite app_nil_r.
Qed.

Lemma poll_fail n i w r :
  http_checkstatus e i = Returns r -> Js.includes r "Fail" = true ->
  poll (S n) i w =
  (Throw (mkError ("Verification failed: " ++ r)),
   world_of (update Failed guid (Some r) w),
   (attempts url 1 ++ trace_of (update Failed guid (Some r) w))%list).
Proof.
  intros H Hf.
  assert (Hn : (r =? "Pass - Verified") = false).
  { destruct (r =? "Pass - Verified") eqn:Heq; [| reflexivity].
    apply pass_is_not_fail in Heq. congruence. }
  unfold poll; simpl.
  rewrite bind_emit, bind_call, H, Hn, Hf.
  rewrite bind_unfold.
  pose proof (updateVerificationStatus_total e network deployment Failed
                guid (Some r) w) as [Hr _].
  unfold update.
  destruct (updateVerificationStatus e network deployment Failed guid
              (Some r) w) as [[r' w'] t].
  unfold result_of in Hr; simpl in Hr; subst r'.
  unfold prepend, throw, result_of, world_of, trace_of; simpl.
  now rewrite app_nil_r.
Qed.

Lemma poll_exhausted i w :
  poll 0 i w =
  (Throw (mkError "Verification timeout"),
   world_of (update Timeout guid None w),
   trace_of (update Timeout guid None w)).
Proof.
  unfold poll; simpl.
  rewrite bind_unfold.
  pose proof (updateVerificationStatus_total e network deployment Timeout
                guid None w) as [Hr _].
  unfold update.
  destruct (updateVerificationStatus e network deployment Timeout guid None w)
    as [[r' w'] t].
  unfold result_of in Hr; simpl in Hr; subst r'. unfold prepend; simpl. now rewrite app_nil_r.
Qed.

Lemma poll_shape n i w :
  exists k, (k <= n)%nat /\
    ((exists err,
        poll n i w = (Throw err, w, attempts url k)) \/
     (exists res status reason,
        PollEnd res status reason /\
        poll n i w =
          (res, world_of (update status guid reason w),
           (attempts url k ++ trace_of (update status guid reason w))%list))).
Proof.
  revert i; induction n as [| n IH]; intros i.
  - exists 0; split; [lia |]. right.
    exists (Throw (mkError "Verification timeout")), Timeout, None.
    split; [constructor | apply poll_exhausted].
  - destruct (http_checkstatus e i) as [r | err] eqn:H.
    + destruct (r =? "Pass - Verified") eqn:Hpass.
      * apply String.eqb_eq in Hpass; subst r.
        exists 1; split; [lia |]. right.
        exists (Ok tt), Verified, None. split; [constructor |].
        rewrite (poll_pass _ _ _ H).
        pose proof (updateVerificationStatus_total e network deployment
                      Verified guid None w) as [Hr _].
        unfold update in *.
        destruct (updateVerificationStatus e network deployment Verified guid
                    None w) as [[r' w'] t].
        unfold result_of in Hr; simpl in Hr; subst r'. reflexivity.
      * destruct (Js.includes r "Fail") eqn:Hfail.
        -- exists 1; split; [lia |]. right.
           exists (Throw (mkError ("Verification failed: " ++ r))),
             Failed, (Some r).
           split; [constructor | apply (poll_fail _ _ _ _ H Hfail)].
        -- assert (Hp : pending r = true)
             by (unfold pending; now rewrite Hpass, Hfail).
           rewrite (poll_pending _ _ _ _ H Hp).
           destruct (IH (S i)) as (k & Hk & [[err ->] | (res & st & rs & He & ->)]).
           ++ exists (S k); split; [lia |]. left. exists err. reflexivity.
           ++ exists (S k); split; [lia |]. right.
              exists res, st, rs. split; [exact He | reflexivity].
    + exists 1; split; [lia |]. left. exists err.
      apply (poll_request_fails _ _ _ _ H).
Qed.


End Poller.




(** A write-back on a store that works. *)
Lemma updateVerificationStatus_ok (e : Env) network d status guid reason w cur :
  files w (DeploymentFile network) = Some (FDeployment cur) ->
  next_write_ok w = true ->
  let f := FDeployment
             (with_verification cur
                (updated_verification e (d_verification cur) status reason)) in
  updateVerificationStatus e network d status guid reason w =
    (Ok tt, written w (DeploymentFile network) f,
     [EvReadFile (DeploymentFile network);
      EvWriteFile (DeploymentFile network) f]).
Proof.
  intros Hf Hw f.
  pose proof (updateVerificationStatus_run e network d status guid reason w) as H.
  cbv zeta in H. rewrite Hf, Hw in H. exact H.
Qed.



(* ================================================================= *)
(** ** verify.js: up to the submission *)

Lemma bind_read_settings {B} (k : CompilationSettings -> M B) (w : World) :
  bind read_settings k w =
  match files w SettingsFile with
  | Some (FSettings cs) => prepend [EvReadFile SettingsFile] (k cs w)
  | Some _ => (Throw (malformed SettingsFile), w, [EvReadFile SettingsFile])
  | None => (Throw (enoent SettingsFile), w, [EvReadFile SettingsFile])
  end.
Proof.
  unfold read_settings. rewrite bind_assoc, bind_readFile.
  destruct (files w SettingsFile) as [[a | s | d | s] |]; try reflexivity.
  now rewrite bind_ret.
Qed.

Lemma bind_read_source {B} (file : string) (k : string -> M B) (w : World) :
  bind (read_source file) k w =
  match files w (SourceFile file) with
  | Some (FText s) => prepend [EvReadFile (SourceFile file)] (k s w)
  | Some _ =>
      (Throw (malformed (SourceFile file)), w, [EvReadFile (SourceFile file)])
  | None =>
      (Throw (enoent (SourceFile file)), w, [EvReadFile (SourceFile file)])
  end.
Proof.
  unfold read_source. rewrite bind_assoc, bind_readFile.
  destruct (files w (SourceFile file)) as [[a | s | d | s] |]; try reflexivity.
  now rewrite bind_ret.
Qed.

Lemma bind_warn_version_format {B} (v : string) (k : unit -> M B) (w : World) :
  bind (warn_version_format v) k w =
  prepend (if Js.includes v "+commit." then [] else version_warnings v)
          (k tt w).
Proof.
  unfold warn_version_format, console_warn.
  destruct (Js.includes v "+commit."); simpl negb; cbv iota.
  - rewrite bind_ret. now rewrite prepend_nil.
  - rewrite !bind_assoc, !bind_emit.
    rewrite bind_unfold. unfold emit, prepend, result_of, world_of, trace_of.
    simpl. destruct (k tt w) as [[r w'] t]. reflexivity.
Qed.

(** The [catch] block of [verifyContract]. *)
Lemma verify_handler (err : Error) (w : World) :
  ((if Js.includes (message err) "Invalid Or Not supported solc version" then
      console_error "Compiler version not supported by block explorer" ;;
      throw reference_error
    else ret tt) ;;
   console_error ("Verification failed: " ++ message err) ;;
   @process_exit unit 1) w =
  if Js.includes (message err) "Invalid Or Not supported solc version" then
    (Throw reference_error, w,
     [EvError "Compiler version not supported by block explorer"])
  else
    (Exit 1%Z, w, [EvError ("Verification failed: " ++ message err)]).
Proof.
  destruct (Js.includes (message err) "Invalid Or Not supported solc version").
  - unfold console_error. rewrite bind_assoc, bind_emit, bind_throw.
    reflexivity.
  - unfold console_error. rewrite bind_ret. reflexivity.
Qed.

Section Verify.

Variables (e : Env) (w : World).
Variables (cs : CompilationSettings) (d : DeploymentRecord) (live : string).

Let network := cli_network e.

Hypothesis settings_loaded : files w SettingsFile = Some (FSettings cs).
Hypothesis deployment_loaded :
  files w (DeploymentFile network) = Some (FDeployment d).
Hypothesis code_fetched : eth_getCode e (d_contractAddress d) = Returns live.



Lemma bind_encoded_args {B} (k : string -> M B) :
  bind (if negb (d_encodedConstructorArgs d =? "") then
          ret (d_encodedConstructorArgs d)
        else
          enc <- lift (abi_encode e (d_constructorTypes d)
                                  (d_constructorArgs d)) ;;
          ret (Js.slice 2 enc)) k w =
  match encoded_args e d with
  | Returns args => k args w
  | Fails err => (Throw err, w, [])
  end.
Proof.
  unfold encoded_args.
  destruct (negb (d_encodedConstructorArgs d =? "")).
  - now rewrite bind_ret.
  - rewrite bind_assoc, bind_lift.
    destruct (abi_encode e (d_constructorTypes d) (d_constructorArgs d));
      [now rewrite bind_ret | reflexivity].
Qed.

Variables (args src : string).

Hypothesis contained :
  Js.includes live (Js.slice 2 (s_deployedBytecode cs)) = true.
Hypothesis args_encoded : encoded_args e d = Returns args.
Hypothesis source_loaded :
  files w (SourceFile (s_contractName cs ++ ".sol")) = Some (FText src).


End Verify.

Lemma verifyContract_run (e : Env) (w : World) :
  verifyContract e w =
  match result_of (verify_body e w) with
  | Throw err =>
      prepend (trace_of (verify_body e w))
        (if Js.includes (message err) "Invalid Or Not supported solc version"
         then
           (Throw reference_error, world_of (verify_body e w),
            [EvError "Compiler version not supported by block explorer"])
         else
           (Exit 1%Z, world_of (verify_body e w),
            [EvError ("Verification failed: " ++ message err)]))
  | _ => verify_body e w
  end.
Proof.
  unfold verifyContract. rewrite try_catch_unfold.
  destruct (result_of (verify_body e w)); try reflexivity.
  now rewrite verify_handler.
Qed.

Lemma verifyContract_trace (e : Env) (w : World) :
  exists report,
    trace_of (verifyContract e w) = (trace_of (verify_body e w) ++ report)%list
    /\ (forall ev, In ev report -> is_error_report ev = true).
Proof.
  rewrite verifyContract_run.
  destruct (result_of (verify_body e w)) as [[] | err | n].
  - exists []; split; [now rewrite app_nil_r | intros ev []].
  - destruct (Js.includes (message err) _);
      (eexists; split; [reflexivity |]);
      intros ev H; in_trace H; subst ev; reflexivity.
  - exists []; split; [now rewrite app_nil_r | intros ev []].
Qed.


Lemma prefix_app (t s : string) :
  prefix t s = true <-> exists b, s = t ++ b.
Proof.
  revert s; induction t as [| c t IH]; intros s.
  - split; [intros _; exists s; reflexivity | intros _; now destruct s].
  - destruct s as [| c' s]; simpl;
      [split; [discriminate | intros [b Hb]; discriminate] |].
    destruct (ascii_dec c c') as [<- | Hne].
    + rewrite IH. split; intros [b Hb]; exists b.
      * now rewrite Hb.
      * now injection Hb.
    + split; [discriminate |].
      intros [b Hb]. injection Hb as Hc _. congruence.
Qed.

(** [s.includes(t)] holds exactly when [t] occurs inside [s]. *)
Lemma includes_substring (s t : string) :
  Js.includes s t = true <-> exists a b, s = a ++ t ++ b.
Proof.
  induction s as [| c s IH].
  - change (Js.includes "" t) with (if prefix t "" then true else false).
    destruct (prefix t "") eqn:Hp.
    + split; [intros _ | reflexivity].
      apply prefix_app in Hp as [b Hb]. exists "", b. exact Hb.
    + split; [discriminate |].
      intros (a & b & Hab).
      destruct a as [| ? ?]; [| discriminate].
      assert (prefix t "" = true) by (apply prefix_app; exists b; exact Hab).
      congruence.
  - change (Js.includes (String c s) t)
      with (if prefix t (String c s) then true else Js.includes s t).
    destruct (prefix t (String c s)) eqn:Hp.
    + split; [intros _ | reflexivity].
      apply prefix_app in Hp as [b Hb]. exists "", b. exact Hb.
    + rewrite IH. split.
      * intros (a & b & ->). exists (String c a), b. reflexivity.
      * intros (a & b & Hab).
        destruct a as [| c' a].
        -- assert (prefix t (String c s) = true)
             by (apply prefix_app; exists b; exact Hab).
           congruence.
        -- injection Hab as _ ->. eauto.
Qed.


(** [slice(2)] drops two characters whatever they are: on a value that
    does not start with "0x" the comparison leaves out its first two
    digits. *)
Example slice_drops_two_characters :
  Js.slice 2 "0x6080" = "6080" /\ Js.slice 2 "6080" = "80" /\
  Js.slice 2 "6" = "".
Proof. repeat split. Qed.





(* ================================================================= *)
(** ** verify.js: storage failures and the primary outcome *)

Lemma observable_app (t1 t2 : list Event) :
  observable (t1 ++ t2) = (observable t1 ++ observable t2)%list.
Proof. apply filter_app. Qed.

Lemma observable_storage (t : list Event) :
  (forall ev, In ev t -> is_storage ev = true) -> observable t = [].
Proof.
  induction t as [| ev t IH]; intros H; [reflexivity |].
  unfold observable in *; simpl.
  rewrite (H ev) by (left; reflexivity). simpl.
  apply IH. intros ev' Hin. apply H. right; exact Hin.
Qed.

Lemma outcome_tuple {A} (r : Res A) (w : World) (t : list Event) :
  outcome (r, w, t) = (r, observable t).
Proof. reflexivity. Qed.

Lemma outcome_prepend {A} (t : list Event) (x : Res A * World * list Event) :
  outcome (prepend t x) =
  (fst (outcome x), (observable t ++ snd (outcome x))%list).
Proof. unfold outcome, prepend; simpl. now rewrite observable_app. Qed.

Lemma outcome_prepend_eq {A} (t : list Event)
    (x y : Res A * World * list Event) :
  outcome x = outcome y -> outcome (prepend t x) = outcome (prepend t y).
Proof. intros H. rewrite !outcome_prepend. now rewrite H. Qed.

(** A computation that always succeeds and only touches the storage
    leaves no mark on the outcome of what follows. *)
Lemma outcome_after_storage {B} (c : M unit) (k : unit -> M B) (w : World) :
  result_of (c w) = Ok tt ->
  (forall ev, In ev (trace_of (c w)) -> is_storage ev = true) ->
  outcome (bind c k w) = outcome (k tt (world_of (c w))).
Proof.
  intros Hr Ht. rewrite bind_unfold, Hr.
  rewrite outcome_prepend, (observable_storage _ Ht).
  now destruct (outcome (k tt (world_of (c w)))).
Qed.

Lemma storeVerificationDetails_total (e : Env) network d guid cs w :
  result_of (storeVerificationDetails e network d guid cs w) = Ok tt /\
  (forall ev,
     In ev (trace_of (storeVerificationDetails e network d guid cs w)) ->
     is_storage ev = true).
Proof.
  pose proof (storeVerificationDetails_run e network d guid cs w) as H.
  cbv zeta in H. rewrite H.
  destruct (next_write_ok w);
    (split; [reflexivity | intros ev Hin; in_trace Hin; subst ev; reflexivity]).
Qed.

Lemma poll_outcome (e : Env) apiUrl apiKey guid network d n :
  forall i w1 w2,
    outcome (poll_from e apiUrl apiKey guid network d n i w1) =
    outcome (poll_from e apiUrl apiKey guid network d n i w2).
Proof.
  assert (Hupd : forall status reason w,
            outcome (updateVerificationStatus e network d status guid reason w)
            = (Ok tt, [])).
  { intros status reason w.
    destruct (updateVerificationStatus_total e network d status guid reason w)
      as [Hr Ht].
    unfold outcome. now rewrite Hr, (observable_storage _ Ht). }
  assert (Hobs : forall status reason w,
            observable
              (trace_of (updateVerificationStatus e network d status guid
                           reason w)) = []).
  { intros status reason w. specialize (Hupd status reason w).
    unfold outcome in Hupd. now inversion Hupd. }
  induction n as [| n IH]; intros i w1 w2.
  - rewrite !poll_exhausted, !outcome_tuple.
    now rewrite !Hobs.
  - destruct (http_checkstatus e i) as [r | err] eqn:H.
    + destruct (r =? "Pass - Verified") eqn:Hpass.
      * apply String.eqb_eq in Hpass; subst r.
        rewrite !(poll_pass _ _ _ _ _ _ _ _ _ H).
        apply outcome_prepend_eq. now rewrite !Hupd.
      * destruct (Js.includes r "Fail") eqn:Hfail.
        -- rewrite !(poll_fail _ _ _ _ _ _ _ _ _ _ H Hfail).
           rewrite !outcome_tuple.
           now rewrite !observable_app, !Hobs.
        -- assert (Hp : pending r = true)
             by (unfold pending; now rewrite Hpass, Hfail).
           rewrite !(poll_pending _ _ _ _ _ _ _ _ _ _ H Hp).
           apply outcome_prepend_eq. apply IH.
    + rewrite !(poll_request_fails _ _ _ _ _ _ _ _ _ _ H). reflexivity.
Qed.

Lemma verify_body_outcome (e : Env) (w : World) (fl : list bool) :
  outcome (verify_body e (with_faults w fl)) = outcome (verify_body e w).
Proof.
  unfold verify_body. cbv zeta.
  rewrite !bind_read_settings. cbn [files with_faults].
  destruct (files w SettingsFile) as [[a | cs | d0 | s] |]; try reflexivity.
  apply outcome_prepend_eq.
  rewrite !bind_warn_version_format. apply outcome_prepend_eq.
  rewrite !bind_read_deployment. cbn [files with_faults].
  destruct (files w (DeploymentFile (cli_network e)))
    as [[a | s0 | d | s] |]; try reflexivity.
  apply outcome_prepend_eq.
  rewrite !bind_call.
  destruct (eth_getCode e (d_contractAddress d)) as [live | err];
    [| reflexivity].
  apply outcome_prepend_eq.
  destruct (negb (Js.includes live (Js.slice 2 (s_deployedBytecode cs))));
    [rewrite !bind_throw; reflexivity | rewrite !bind_ret].
  rewrite !bind_encoded_args.
  destruct (encoded_args e d) as [args | err]; [| reflexivity].
  rewrite !bind_read_source. cbn [files with_faults].
  destruct (files w (SourceFile (s_contractName cs ++ ".sol")))
    as [[a | s0 | d1 | src] |]; try reflexivity.
  apply outcome_prepend_eq.
  unfold submitVerification. rewrite !bind_call.
  destruct (http_submit e) as [response | err]; [| reflexivity].
  apply outcome_prepend_eq.
  destruct (r_status response =? "1"); [| reflexivity].
  rewrite !outcome_after_storage
    by apply storeVerificationDetails_total.
  apply poll_outcome.
Qed.

Lemma verifyContract_outcome (e : Env) (w : World) :
  outcome (verifyContract e w) =
  match fst (outcome (verify_body e w)) with
  | Throw err =>
      if Js.includes (message err) "Invalid Or Not supported solc version"
      then
        (Throw reference_error,
         (snd (outcome (verify_body e w))
          ++ [EvError "Compiler version not supported by block explorer"])%list)
      else
        (Exit 1%Z,
         (snd (outcome (verify_body e w))
          ++ [EvError ("Verification failed: " ++ message err)])%list)
  | _ => outcome (verify_body e w)
  end.
Proof.
  rewrite verifyContract_run.
  unfold outcome at 2. cbn [fst].
  destruct (result_of (verify_body e w)) as [[] | err | n]; try reflexivity.
  rewrite outcome_prepend.
  destruct (Js.includes (message err) _); reflexivity.
Qed.

(** C7. A status write-back whose storage write fails still returns
    normally, leaves the files as they were and ends on a warning, for the
    initial [submitted] record as for every transition of the poller; and
    what the poller and [verifyContract] return or throw, the requests
    they make and the errors they report are the same whichever writes
    fail. *)
Theorem storage_failure_keeps_outcome :
  (forall e network d guid cs w fl,
     let p := DeploymentFile network in
     let x := storeVerificationDetails e network d guid cs
                (with_faults w (true :: fl)) in
     result_of x = Ok tt /\
     files (world_of x) = files w /\
     trace_of x =
       [EvWriteFailed p;
        EvWarn ("Warning: Could not store verification details: "
                ++ message (eacces p))]) /\
  (forall e network d status guid reason w fl,
     let x := updateVerificationStatus e network d status guid reason
                (with_faults w (true :: fl)) in
     result_of x = Ok tt /\
     files (world_of x) = files w /\
     exists t msg,
       trace_of x =
         (t ++ [EvWarn ("Warning: Could not update verification status: "
                        ++ msg)])%list) /\
  (forall e apiUrl apiKey guid network d w1 w2,
     outcome (pollVerificationStatus e apiUrl apiKey guid network d w1) =
     outcome (pollVerificationStatus e apiUrl apiKey guid network d w2)) /\
  (forall e w fl,
     outcome (verifyContract e (with_faults w fl)) =
     outcome (verifyContract e w)).
Proof.
  split; [| split; [| split]].
  - intros e network d guid cs w fl p x. subst x.
    pose proof (storeVerificationDetails_run e network d guid cs
                  (with_faults w (true :: fl))) as H.
    cbv zeta in H. rewrite H. repeat split.
  - intros e network d status guid reason w fl x. subst x.
    pose proof (updateVerificationStatus_run e network d status guid reason
                  (with_faults w (true :: fl))) as H.
    cbv zeta in H. rewrite H. cbn [files with_faults].
    destruct (files w (DeploymentFile network)) as [[a | s | cur | s] |];
      (split; [reflexivity |]); (split; [reflexivity |]).
    + exists [EvReadFile (DeploymentFile network)]. eexists; reflexivity.
    + exists [EvReadFile (DeploymentFile network)]. eexists; reflexivity.
    + exists [EvReadFile (DeploymentFile network);
              EvWriteFailed (DeploymentFile network)].
      eexists; reflexivity.
    + exists [EvReadFile (DeploymentFile network)]. eexists; reflexivity.
    + exists [EvReadFile (DeploymentFile network)]. eexists; reflexivity.
  - intros e apiUrl apiKey guid network d w1 w2. apply poll_outcome.
  - intros e w fl. rewrite !verifyContract_outcome.
    now rewrite verify_body_outcome.
Qed.

(** The sample verification with a store that refuses every write: the
    contract is verified and the run succeeds, only the record keeps no
    trace of it. *)
Example verify_with_failing_store :
  let e := Sample.env [] (Some "0x01") 5 (Returns tt) "0x6080"
             ["Pending"; "Pass - Verified"] in
  let ok := verifyContract e (Sample.world "0.8.20+commit.a1b79de6" []) in
  let ko := verifyContract e
              (Sample.world "0.8.20+commit.a1b79de6" [true; true]) in
  result_of ok = Ok tt /\ result_of ko = Ok tt /\
  persisted_status (world_of ok) "bsc-testnet" = Some Verified /\
  persisted_status (world_of ko) "bsc-testnet" = None /\
  observable (trace_of ok) = observable (trace_of ko) /\
  filter (fun ev => match ev with EvWarn _ => true | _ => false end)
         (trace_of ko) =
    [ EvWarn ("Warning: Could not store verification details: "
              ++ message (eacces (DeploymentFile "bsc-testnet")));
      EvWarn ("Warning: Could not update verification status: "
              ++ message (eacces (DeploymentFile "bsc-testnet"))) ].
Proof. repeat split. Qed.

(* ================================================================= *)
(** ** verify.js: the license table *)

Lemma getLicenseType_listed :
  getLicenseType "MIT" = Js.VStr "3" /\
  getLicenseType "GPL-3.0" = Js.VStr "9" /\
  getLicenseType "Apache-2.0" = Js.VStr "2" /\
  getLicenseType "BSD-3-Clause" = Js.VStr "8" /\
  getLicenseType "Unlicense" = Js.VStr "12".
Proof. repeat split. Qed.

(** Away from the names every object inherits, the mapping is total and
    defaults to the MIT code. *)
Lemma getLicenseType_own_or_default (license : string) :
  Js.inherited license = Js.VUndefined ->
  (exists code, getLicenseType license = Js.VStr code /\
                In code ["3"; "9"; "2"; "8"; "12"]) /\
  (~ In license ["MIT"; "GPL-3.0"; "Apache-2.0"; "BSD-3-Clause"; "Unlicense"] ->
   getLicenseType license = Js.VStr "3").
Proof.
  intros Hinh. unfold getLicenseType, Js.get. cbn [Js.own].
  destruct (license =? "MIT") eqn:H1;
    [apply String.eqb_eq in H1; subst; split;
     [eexists; split; [reflexivity | simpl; tauto] | reflexivity] |].
  destruct (license =? "GPL-3.0") eqn:H2;
    [apply String.eqb_eq in H2; subst; split;
     [eexists; split; [reflexivity | simpl; tauto]
     | intros Hn; exfalso; apply Hn; simpl; tauto] |].
  destruct (license =? "Apache-2.0") eqn:H3;
    [apply String.eqb_eq in H3; subst; split;
     [eexists; split; [reflexivity | simpl; tauto]
     | intros Hn; exfalso; apply Hn; simpl; tauto] |].
  destruct (license =? "BSD-3-Clause") eqn:H4;
    [apply String.eqb_eq in H4; subst; split;
     [eexists; split; [reflexivity | simpl; tauto]
     | intros Hn; exfalso; apply Hn; simpl; tauto] |].
  destruct (license =? "Unlicense") eqn:H5;
    [apply String.eqb_eq in H5; subst; split;
     [eexists; split; [reflexivity | simpl; tauto]
     | intros Hn; exfalso; apply Hn; simpl; tauto] |].
  rewrite Hinh. split; [eexists; split; [reflexivity | simpl; tauto] |].
  reflexivity.
Qed.

(** C8 fails on the code at the license "constructor": the lookup finds
    the function every object inherits under that name, which is truthy,
    so the MIT default is not taken and the result is not a numeric
    code. *)
Theorem getLicenseType_inherited_name :
  getLicenseType "constructor" = Js.VBuiltin "Object" /\
  getLicenseType "constructor" <> Js.VStr "3" /\
  Js.to_string (getLicenseType "constructor")
    = "function Object() { [native code] }" /\
  (forall name, In name ("__proto__" :: Js.object_prototype_functions) ->
     forall code, getLicenseType name <> Js.VStr code).
Proof.
  split; [reflexivity |]. split; [discriminate |]. split; [reflexivity |].
  intros name Hin code.
  simpl in Hin.
  repeat (destruct Hin as [<- | Hin]; [discriminate |]).
  contradiction.
Qed.

(* ================================================================= *)
(** ** compile.js: how [compile] ends *)

Lemma no_exit_ret {A} (a : A) : no_exit (ret a).
Proof. intros w n; discriminate. Qed.

Lemma no_exit_throw {A} (err : Error) : no_exit (@throw A err).
Proof. intros w n; discriminate. Qed.

Lemma no_exit_emit (ev : Event) : no_exit (emit ev).
Proof. intros w n; discriminate. Qed.

Lemma no_exit_call {A} (ev : Event) (r : Reply A) : no_exit (call ev r).
Proof. intros w n; destruct r; discriminate. Qed.

Lemma no_exit_lift {A} (r : Reply A) : no_exit (lift r).
Proof. intros w n; destruct r; discriminate. Qed.

Lemma no_exit_readFile (p : Path) : no_exit (readFile p).
Proof. intros w n; unfold readFile; destruct (files w p); discriminate. Qed.

Lemma no_exit_writeFile (p : Path) (f : File) : no_exit (writeFile p f).
Proof.
  intros w n; unfold writeFile; destruct (faults w) as [| [|] ?]; discriminate.
Qed.

Lemma no_exit_bind {A B} (c : M A) (k : A -> M B) :
  no_exit c -> (forall a, no_exit (k a)) -> no_exit (bind c k).
Proof.
  intros Hc Hk w n. rewrite bind_unfold.
  destruct (result_of (c w)) as [a | err | m] eqn:H.
  - rewrite result_of_prepend. apply Hk.
  - discriminate.
  - now elim (Hc w m).
Qed.

Lemma no_exit_try_catch {A} (c : M A) (h : Error -> M A) :
  no_exit c -> (forall err, no_exit (h err)) -> no_exit (try_catch c h).
Proof.
  intros Hc Hh w n. rewrite try_catch_unfold.
  destruct (result_of (c w)) as [a | err | m] eqn:H.
  - rewrite H; discriminate.
  - rewrite result_of_prepend. apply Hh.
  - now elim (Hc w m).
Qed.

Create HintDb no_exit.
#[local] Hint Resolve no_exit_ret no_exit_throw no_exit_emit no_exit_call
  no_exit_lift no_exit_readFile no_exit_writeFile : no_exit.

Ltac no_exit_tac :=
  repeat first
    [ apply no_exit_bind; [| intros ?]
    | apply no_exit_try_catch; [| intros ?]
    | solve [auto with no_exit]
    | match goal with
      | |- no_exit (match ?x with _ => _ end) => destruct x
      end ].

Lemma no_exit_compile_file (e : Env) (v file : string) :
  no_exit (compile_file e v file).
Proof.
  unfold compile_file, read_source, select_contract, console_warn.
  no_exit_tac.
Qed.

Lemma no_exit_compile_files (e : Env) (v : string) (l : list string) :
  no_exit (compile_files e v l).
Proof.
  induction l as [| file l IH]; simpl.
  - apply no_exit_ret.
  - apply no_exit_bind; [apply no_exit_compile_file | intros _; exact IH].
Qed.

Lemma no_exit_compile_body (e : Env) : no_exit (compile_body e).
Proof.
  unfold compile_body, mkdir, getCompilerVersion, console_warn, console_error.
  repeat first
    [ apply no_exit_compile_files
    | apply no_exit_bind; [| intros ?]
    | apply no_exit_try_catch; [| intros ?]
    | solve [auto with no_exit]
    | match goal with
      | |- no_exit (match ?x with _ => _ end) => destruct x
      end ].
Qed.

(** What a [bind] returned comes from its continuation. *)
Lemma bind_returns {A B} (c : M A) (k : A -> M B) (w : World) (b : B) :
  result_of (bind c k w) = Ok b ->
  exists a, result_of (k a (world_of (c w))) = Ok b.
Proof.
  rewrite bind_unfold.
  destruct (result_of (c w)) as [a | err | n]; try discriminate.
  rewrite result_of_prepend. eauto.
Qed.

Lemma compile_body_returns_true (e : Env) (w : World) (b : bool) :
  result_of (compile_body e w) = Ok b -> b = true.
Proof.
  unfold compile_body. intros H.
  apply bind_returns in H as [_ H].
  apply bind_returns in H as [v H].
  apply bind_returns in H as [l H].
  apply bind_returns in H as [_ H].
  now inversion H.
Qed.

(** C9, as stated, fails: when an internal failure occurs (here the
    contract source cannot be read), [compile] returns [false] and the
    process ends with status 0, not with a non-zero status. *)
Lemma compile_failure_exits_zero :
  ~ (forall e w err,
       result_of (compile_body e w) = Throw err ->
       exit_status (result_of (compile e w)) <> 0%Z).
Proof.
  intros H.
  apply (H (Sample.env [] None 0 (Returns tt) "" []) Sample.empty
           (enoent (SourceFile "SimpleStorage.sol")));
    reflexivity.
Qed.

(** C9, amended. [compile] never rejects and never exits: it returns
    [true] exactly when its body ran to the end, and on any failure inside
    the body it reports the error and returns [false]; run as a script,
    the process ends with status 0 in both cases. *)
Theorem compile_always_resolves (e : Env) (w : World) :
  exit_status (result_of (compile e w)) = 0%Z /\
  (result_of (compile e w) = Ok true <->
   result_of (compile_body e w) = Ok true) /\
  (result_of (compile e w) = Ok false <->
   exists err, result_of (compile_body e w) = Throw err) /\
  (forall err,
     result_of (compile_body e w) = Throw err ->
     trace_of (compile e w) =
       (trace_of (compile_body e w)
        ++ [EvError ("Compilation failed: " ++ message err)])%list).
Proof.
  unfold compile. rewrite try_catch_unfold.
  destruct (result_of (compile_body e w)) as [b | err | n] eqn:H.
  - pose proof (compile_body_returns_true e w b H) as ->.
    rewrite H. split; [reflexivity |]. split; [tauto |].
    split; [| discriminate].
    split; [discriminate | intros [err Herr]; discriminate].
  - unfold console_error. rewrite bind_emit.
    unfold prepend, ret, result_of, world_of, trace_of; cbn [fst snd].
    split; [reflexivity |]. split; [split; discriminate |].
    split; [split; [eauto | reflexivity] |].
    intros err' Heq; injection Heq as <-. reflexivity.
  - now elim (no_exit_compile_body e w n).
Qed.

(** On the sample project [compile] succeeds and writes the artifact and
    the settings; without the contract source it returns [false]. *)
Example compile_sample :
  let e := Sample.env [] None 0 (Returns tt) "" [] in
  result_of (compile e Sample.fresh) = Ok true /\
  files (world_of (compile e Sample.fresh)) SettingsFile
    = Some (FSettings
              {| s_contractName := "SimpleStorage";
                 s_solcVersion := "0.8.20+commit.a1b79de6";
                 s_optimization_enabled := true;
                 s_optimization_runs := 200;
                 s_pragma := "0.8.20";
                 s_license := "MIT";
                 s_deployedBytecode := "6080";
                 s_compilationTimestamp := now e |}) /\
  result_of (compile e Sample.empty) = Ok false /\
  exit_status (result_of (compile e Sample.empty)) = 0%Z.
Proof. repeat split. Qed.

Lemma compile_always_resolves_witness :
  let e := Sample.env [] None 0 (Returns tt) "" [] in
  result_of (compile_body e Sample.empty)
    = Throw (enoent (SourceFile "SimpleStorage.sol")) /\
  result_of (compile e Sample.empty) = Ok false /\
  exit_status (result_of (compile e Sample.empty)) = 0%Z.
Proof.
  intros e.
  destruct (compile_always_resolves e Sample.empty) as (H0 & _ & [_ Hf] & _).
  split; [reflexivity |].
  split; [apply Hf; eexists; reflexivity | exact H0].
Defined.

(* ================================================================= *)
(** ** deploy.js: the record and its persistence *)

(** What the record built by a successful preparation holds. *)
Lemma deploy_prepare_record (e : Env) (w : World) (info : DeploymentRecord) :
  result_of (deploy_prepare e w) = Ok info ->
  d_contractName info = cli_contractName e /\
  d_network info = cli_network e /\
  eth_getNetwork e = Returns (d_chainId info) /\
  eth_getAddress e = Returns (d_contractAddress info) /\
  eth_waitForDeployment e = Returns tt /\
  d_timestamp info = now e /\
  d_constructorArgs info = skipn 4 (argv e) /\
  d_verification info = None /\
  (skipn 4 (argv e) = [] -> d_encodedConstructorArgs info = "") /\
  In EvWaitForDeployment (trace_of (deploy_prepare e w)).
Proof.
  run_prepare e w.
  all: intros H; try discriminate H.
  all: injection H as <-; cbn.
  all: repeat match goal with
              | u : unit |- _ => destruct u
              end.
  all: repeat split; try assumption; try congruence; auto 10.
Qed.

Lemma path_eqb_mirror (n : string) :
  path_eqb (PublicDeploymentFile n) (DeploymentFile n) = false.
Proof. reflexivity. Qed.

(** The four ways the record-persistence step can go. *)
Lemma deploy_persist_cases (e : Env) (info : DeploymentRecord) (w : World) :
  let p1 := DeploymentFile (d_network info) in
  let p2 := PublicDeploymentFile (d_network info) in
  let f := FDeployment info in
  deploy_persist e info w =
  if next_write_ok w then
    match fs_mkdir e PublicDeploymentsDir with
    | Returns _ =>
        if next_write_ok (written w p1 f) then
          (Ok tt, written (written w p1 f) p2 f,
           [EvWriteFile p1 f; EvMkdir PublicDeploymentsDir; EvWriteFile p2 f])
        else
          (Throw (eacces p2),
           with_faults (written w p1 f) (tl (faults (written w p1 f))),
           [EvWriteFile p1 f; EvMkdir PublicDeploymentsDir; EvWriteFailed p2])
    | Fails err =>
        (Throw err, written w p1 f,
         [EvWriteFile p1 f; EvMkdir PublicDeploymentsDir])
    end
  else
    (Throw (eacces p1), with_faults w (tl (faults w)), [EvWriteFailed p1]).
Proof.
  intros p1 p2 f. unfold deploy_persist, mkdir. fold p1 p2 f.
  rewrite bind_unfold.
  destruct (next_write_ok w) eqn:H1.
  - rewrite (writeFile_ok _ _ _ H1).
    cbn [result_of world_of trace_of fst snd].
    rewrite bind_call.
    destruct (fs_mkdir e PublicDeploymentsDir) as [[] | err];
      [| reflexivity].
    destruct (next_write_ok (written w p1 f)) eqn:H2.
    + rewrite (writeFile_ok _ _ _ H2). reflexivity.
    + rewrite (writeFile_fails _ _ _ H2). reflexivity.
  - rewrite (writeFile_fails _ _ _ H1). reflexivity.
Qed.

(** [deploy] in terms of its two phases. *)
Lemma deploy_run (e : Env) (w : World) :
  deploy e w =
  match result_of (deploy_prepare e w) with
  | Ok info =>
      match result_of (deploy_persist e info w) with
      | Ok _ =>
          (Ok (DeploySuccess (d_contractAddress info) (d_deploymentTx info)),
           world_of (deploy_persist e info w),
           (trace_of (deploy_prepare e w)
            ++ trace_of (deploy_persist e info w))%list)
      | Throw err =>
          prepend (trace_of (deploy_prepare e w)
                   ++ trace_of (deploy_persist e info w))%list
            (bind (console_error ("Deployment failed: " ++ message err))
               (fun _ =>
                  bind (match code err with
                        | Some c =>
                            if c =? "INSUFFICIENT_FUNDS" then
                              console_error
                                "Make sure your account has enough funds for deployment"
                            else ret tt
                        | None => ret tt
                        end)
                    (fun _ => ret (DeployFailure (message err))))
               (world_of (deploy_persist e info w)))
      | Exit n => (Exit n, world_of (deploy_persist e info w), [])
      end
  | Throw err =>
      prepend (trace_of (deploy_prepare e w))
        (bind (console_error ("Deployment failed: " ++ message err))
           (fun _ =>
              bind (match code err with
                    | Some c =>
                        if c =? "INSUFFICIENT_FUNDS" then
                          console_error
                            "Make sure your account has enough funds for deployment"
                        else ret tt
                    | None => ret tt
                    end)
                (fun _ => ret (DeployFailure (message err))))
           w)
  | Exit n => (Exit n, w, [])
  end.
Proof.
  destruct (deploy_prepare_pure e w) as [Hw _].
  unfold deploy. rewrite try_catch_unfold, bind_unfold.
  destruct (result_of (deploy_prepare e w)) as [info | err | n] eqn:Hp.
  - rewrite Hw. rewrite result_of_prepend, world_of_prepend, trace_of_prepend.
    rewrite bind_unfold.
    destruct (deploy_persist_run e info w) as [_ Hne].
    destruct (result_of (deploy_persist e info w)) as [[] | err | n] eqn:Hq.
    + unfold prepend, ret, result_of, world_of, trace_of; cbn [fst snd].
      now rewrite app_nil_r.
    + cbn [result_of world_of trace_of fst snd prepend]. reflexivity.
    + now elim (Hne n).
  - cbn [result_of world_of trace_of fst snd]. now rewrite Hw.
  - exfalso. revert Hp. clear. run_prepare e w. all: discriminate.
Qed.

Lemma deploy_result_world (e : Env) (w : World) :
  match result_of (deploy_prepare e w) with
  | Ok info =>
      world_of (deploy e w) = world_of (deploy_persist e info w) /\
      match result_of (deploy_persist e info w) with
      | Ok _ =>
          result_of (deploy e w) =
            Ok (DeploySuccess (d_contractAddress info) (d_deploymentTx info))
      | Throw err => result_of (deploy e w) = Ok (DeployFailure (message err))
      | Exit n => False
      end
  | Throw err =>
      world_of (deploy e w) = w /\
      result_of (deploy e w) = Ok (DeployFailure (message err))
  | Exit n => False
  end.
Proof.
  rewrite deploy_run.
  destruct (result_of (deploy_prepare e w)) as [info | err | n] eqn:Hp.
  - destruct (deploy_persist_run e info w) as [_ Hne].
    destruct (result_of (deploy_persist e info w)) as [[] | err | n] eqn:Hq.
    + split; reflexivity.
    + destruct (deploy_handler err (world_of (deploy_persist e info w)))
        as (report & -> & _).
      split; reflexivity.
    + now elim (Hne n).
  - destruct (deploy_handler err w) as (report & -> & _). split; reflexivity.
  - revert Hp. clear. run_prepare e w. all: discriminate.
Qed.

(** X1: a successful [deploy] has stored one and the same record in the
    canonical and in the mirrored file of the requested network; the
    record carries the address and transaction hash that are returned,
    the chain identifier the endpoint reported, and no verification. *)
Theorem deploy_success_records (e : Env) (w : World) (a tx : string) :
  result_of (deploy e w) = Ok (DeploySuccess a tx) ->
  exists info,
    result_of (deploy_prepare e w) = Ok info /\
    d_contractAddress info = a /\ d_deploymentTx info = tx /\
    files (world_of (deploy e w)) (DeploymentFile (cli_network e))
      = Some (FDeployment info) /\
    files (world_of (deploy e w)) (PublicDeploymentFile (cli_network e))
      = Some (FDeployment info) /\
    eth_getNetwork e = Returns (d_chainId info) /\
    d_verification info = None.
Proof.
  intros H. pose proof (deploy_result_world e w) as D.
  destruct (result_of (deploy_prepare e w)) as [info | err | n] eqn:Hp;
    [| destruct D as [_ D]; congruence | contradiction].
  destruct D as [Hw D].
  destruct (deploy_prepare_record e w info Hp)
    as (_ & Hn & Hc & _ & _ & _ & _ & Hv & _).
  pose proof (deploy_persist_cases e info w) as C. cbv zeta in C.
  rewrite Hn in C.
  destruct (next_write_ok w);
    [destruct (fs_mkdir e PublicDeploymentsDir);
     [destruct (next_write_ok _) |] |];
    rewrite C in D, Hw; cbn [result_of world_of fst snd] in D, Hw;
    try congruence.
  exists info. rewrite H in D. injection D as <- <-.
  rewrite Hw. unfold written, update_files; cbn [files].
  cbn [path_eqb]. rewrite String.eqb_refl.
  repeat split; auto.
Qed.

Lemma deploy_success_records_witness :
  let e := Sample.env [] (Some "0x01") 5 (Returns tt) "" [] in
  let w := Sample.world "0.8.20" [] in
  result_of (deploy e w) = Ok (DeploySuccess "0xC0FFEE" "0xABCDEF") /\
  exists info,
    d_contractAddress info = "0xC0FFEE" /\
    files (world_of (deploy e w)) (DeploymentFile "bsc-testnet")
      = Some (FDeployment info) /\
    files (world_of (deploy e w)) (PublicDeploymentFile "bsc-testnet")
      = Some (FDeployment info).
Proof.
  intros e w.
  assert (H : result_of (deploy e w)
              = Ok (DeploySuccess "0xC0FFEE" "0xABCDEF")) by reflexivity.
  split; [exact H |].
  destruct (deploy_success_records e w _ _ H)
    as (info & _ & Ha & _ & H1 & H2 & _).
  exists info. auto.
Defined.



(** X3: every file [deploy] writes is one of the two record files of the
    requested network, it holds the record of this deployment, and it is
    written only once the confirmation wait has returned. *)
Theorem deploy_writes_after_confirmation (e : Env) (w : World)
    (p : Path) (f : File) :
  In (EvWriteFile p f) (trace_of (deploy e w)) ->
  exists info,
    result_of (deploy_prepare e w) = Ok info /\
    f = FDeployment info /\
    (p = DeploymentFile (cli_network e) \/
     p = PublicDeploymentFile (cli_network e)) /\
    eth_waitForDeployment e = Returns tt /\
    exists before after,
      trace_of (deploy e w) = (before ++ EvWriteFile p f :: after)%list /\
      In EvWaitForDeployment before.
Proof.
  intros Hin.
  destruct (deploy_prepare_pure e w) as [_ Hnw].
  rewrite deploy_run in *.
  destruct (result_of (deploy_prepare e w)) as [info | err | n] eqn:Hp.
  - destruct (deploy_prepare_record e w info Hp)
      as (_ & Hn & _ & _ & Hwait & _ & _ & _ & _ & Hev).
    exists info. split; [reflexivity |].
    pose proof (deploy_persist_cases e info w) as C. cbv zeta in C.
    rewrite Hn in C.
    assert (Hcases :
      In (EvWriteFile p f) (trace_of (deploy_persist e info w)) ->
      f = FDeployment info /\
      (p = DeploymentFile (cli_network e) \/
       p = PublicDeploymentFile (cli_network e)) /\
      exists b a,
        trace_of (deploy_persist e info w) = (b ++ EvWriteFile p f :: a)%list).
    { rewrite C.
      destruct (next_write_ok w);
        [destruct (fs_mkdir e PublicDeploymentsDir);
         [destruct (next_write_ok _) |] |];
        cbn [trace_of snd]; intros H; in_trace H;
        injection H as <- <-;
        (split; [reflexivity |]);
        (split; [tauto |]);
        first [ exists [], [EvMkdir PublicDeploymentsDir;
                            EvWriteFile
                              (PublicDeploymentFile (cli_network e))
                              (FDeployment info)]; reflexivity
              | exists [EvWriteFile (DeploymentFile (cli_network e))
                          (FDeployment info);
                        EvMkdir PublicDeploymentsDir], []; reflexivity
              | exists [], [EvMkdir PublicDeploymentsDir;
                            EvWriteFailed
                              (PublicDeploymentFile (cli_network e))];
                reflexivity
              | exists [], [EvMkdir PublicDeploymentsDir]; reflexivity ]. }
    assert (Hin' : In (EvWriteFile p f) (trace_of (deploy_persist e info w))).
    { destruct (deploy_persist_run e info w) as [_ Hne].
      destruct (result_of (deploy_persist e info w)) as [[] | err | n] eqn:Hq.
      - cbn [trace_of snd] in Hin.
        apply in_app_or in Hin as [Hin | Hin]; [| exact Hin].
        apply Hnw in Hin; discriminate.
      - destruct (deploy_handler err (world_of (deploy_persist e info w)))
          as (report & Hh & Hrep).
        rewrite Hh in Hin. unfold prepend in Hin.
        cbn [trace_of result_of world_of fst snd] in Hin.
        rewrite !in_app_iff in Hin.
        destruct Hin as [[Hin | Hin] | Hin]; [| exact Hin |].
        + apply Hnw in Hin; discriminate.
        + destruct Hin as [Hin | Hin]; [discriminate |].
          apply Hrep in Hin; discriminate.
      - now elim (Hne n). }
    destruct (Hcases Hin') as (Hf & Hpath & b & a & Ht).
    split; [exact Hf |]. split; [exact Hpath |]. split; [exact Hwait |].
    destruct (deploy_persist_run e info w) as [_ Hne].
    destruct (result_of (deploy_persist e info w)) as [[] | err | n] eqn:Hq.
    + exists (trace_of (deploy_prepare e w) ++ b)%list, a.
      cbn [trace_of snd]. rewrite Ht, <- app_assoc.
      split; [reflexivity | apply in_or_app; left; exact Hev].
    + destruct (deploy_handler err (world_of (deploy_persist e info w)))
        as (report & Hh & Hrep).
      rewrite Hh. unfold prepend. cbn [trace_of result_of world_of fst snd].
      exists (trace_of (deploy_prepare e w) ++ b)%list.
      eexists. rewrite Ht, <- !app_assoc. cbn [app].
      split; [reflexivity | apply in_or_app; left; exact Hev].
    + now elim (Hne n).
  - exfalso.
    destruct (deploy_handler err w) as (report & Hh & Hrep).
    rewrite Hh in Hin. unfold prepend in Hin.
    cbn [trace_of result_of world_of fst snd] in Hin.
    rewrite !in_app_iff in Hin. destruct Hin as [Hin | Hin].
    + apply Hnw in Hin; discriminate.
    + destruct Hin as [Hin | Hin]; [discriminate |].
      apply Hrep in Hin; discriminate.
  - cbn [trace_of snd] in Hin. contradiction.
Qed.

Lemma deploy_writes_after_confirmation_witness :
  let e := Sample.env [] (Some "0x01") 5 (Returns tt) "" [] in
  let w := Sample.world "0.8.20" [] in
  exists info,
    In (EvWriteFile (PublicDeploymentFile "bsc-testnet") (FDeployment info))
       (trace_of (deploy e w)) /\
    eth_waitForDeployment e = Returns tt.
Proof.
  intros e w.
  destruct (result_of (deploy_prepare e w)) as [info | err | n] eqn:Hp;
    [| discriminate Hp | discriminate Hp].
  injection Hp as Hinfo.
  assert (Hin : In (EvWriteFile (PublicDeploymentFile "bsc-testnet")
                      (FDeployment info)) (trace_of (deploy e w))).
  { rewrite <- Hinfo. vm_compute. tauto. }
  destruct (deploy_writes_after_confirmation e w _ _ Hin)
    as (info' & _ & _ & _ & Hwait & _).
  exists info. split; [exact Hin | exact Hwait].
Defined.

(* ================================================================= *)
(** ** deploy.js: configuration errors *)

Lemma str_or_nonempty (a : option string) (d : string) :
  d <> "" -> str_or a d <> "".
Proof.
  intros Hd. unfold str_or. destruct a as [s |]; [| exact Hd].
  destruct (s =? "") eqn:Hs; [exact Hd |].
  now apply String.eqb_neq in Hs.
Qed.

Lemma missing_spec (a : option string) :
  missing a = true <-> a = None \/ a = Some "".
Proof.
  unfold missing. destruct a as [s |].
  - rewrite String.eqb_eq. split.
    + intros ->. now right.
    + intros [H | H]; [discriminate | now injection H].
  - split; [now left | reflexivity].
Qed.

(** X4: [getProvider] fails exactly for the networks "ethereum" and
    "sepolia" when their RPC URL is not configured (unset or empty); for
    every other network name, known or not, it finds a non-empty URL, and
    a name it does not know silently gets the BSC testnet endpoint. *)
Theorem getProvider_configuration (e : Env) (network : string) (w : World) :
  ((exists err, result_of (getProvider e network w) = Throw err) <->
   (network = "ethereum" /\ missing (ETH_MAINNET_RPC_URL e) = true) \/
   (network = "sepolia" /\ missing (ETH_SEPOLIA_RPC_URL e) = true)) /\
  (forall err, result_of (getProvider e network w) = Throw err ->
     err = mkError ("No RPC URL configured for network: " ++ network)) /\
  (forall url, result_of (getProvider e network w) = Ok url -> url <> "") /\
  (network <> "bsc" -> network <> "bsc-testnet" ->
   network <> "ethereum" -> network <> "sepolia" ->
   result_of (getProvider e network w)
     = Ok (str_or (BSC_TESTNET_RPC_URL e) bsc_testnet_default)).
Proof.
  assert (Hd1 : "https://bsc-dataseed.binance.org/" <> "") by discriminate.
  assert (Hd2 : bsc_testnet_default <> "") by discriminate.
  pose proof (str_or_nonempty (BSC_MAINNET_RPC_URL e) _ Hd1) as N1.
  pose proof (str_or_nonempty (BSC_TESTNET_RPC_URL e) _ Hd2) as N2.
  apply String.eqb_neq in N1, N2.
  unfold getProvider. cbv zeta.
  destruct (network =? "bsc") eqn:E1.
  { apply String.eqb_eq in E1; subst network. rewrite N1.
    apply String.eqb_neq in N1.
    repeat split; try discriminate; try congruence.
    - intros [err H]; discriminate.
    - intros [[H _] | [H _]]; discriminate.
    - intros url H; injection H as <-; exact N1. }
  destruct (network =? "bsc-testnet") eqn:E2.
  { apply String.eqb_eq in E2; subst network. rewrite N2.
    apply String.eqb_neq in N2.
    repeat split; try discriminate; try congruence.
    - intros [err H]; discriminate.
    - intros [[H _] | [H _]]; discriminate.
    - intros url H; injection H as <-; exact N2. }
  destruct (network =? "ethereum") eqn:E3.
  { apply String.eqb_eq in E3; subst network.
    unfold missing.
    destruct (ETH_MAINNET_RPC_URL e) as [u |];
      [destruct (u =? "") eqn:Hu |];
      repeat split; try discriminate; try congruence;
      try (intros _; eexists; reflexivity);
      try (intros _; left; split; reflexivity);
      try (intros [err H]; discriminate);
      try (intros [[_ H] | [H _]]; discriminate);
      try (intros err H; injection H as <-; reflexivity).
    intros url H; injection H as <-. now apply String.eqb_neq in Hu. }
  destruct (network =? "sepolia") eqn:E4.
  { apply String.eqb_eq in E4; subst network.
    unfold missing.
    destruct (ETH_SEPOLIA_RPC_URL e) as [u |];
      [destruct (u =? "") eqn:Hu |];
      repeat split; try discriminate; try congruence;
      try (intros _; eexists; reflexivity);
      try (intros _; right; split; reflexivity);
      try (intros [err H]; discriminate);
      try (intros [[H _] | [_ H]]; discriminate);
      try (intros err H; injection H as <-; reflexivity).
    intros url H; injection H as <-. now apply String.eqb_neq in Hu. }
  rewrite N2. apply String.eqb_neq in E1, E2, E3, E4, N2.
  repeat split; try discriminate; try congruence.
  - intros [err H]; discriminate.
  - intros [[H _] | [H _]]; congruence.
  - intros url H; injection H as <-; exact N2.
Qed.

Lemma getProvider_configuration_witness :
  let e := Sample.env [] (Some "0x01") 5 (Returns tt) "" [] in
  result_of (getProvider e "polygon" Sample.fresh) = Ok bsc_testnet_default /\
  exists err, result_of (getProvider e "sepolia" Sample.fresh) = Throw err.
Proof.
  intros e.
  destruct (getProvider_configuration e "polygon" Sample.fresh)
    as (_ & _ & _ & H).
  destruct (getProvider_configuration e "sepolia" Sample.fresh)
    as ([_ H'] & _).
  split.
  - apply H; discriminate.
  - apply H'. right. split; reflexivity.
Defined.

Lemma deploy_prepare_without_key (e : Env) (w : World) :
  missing (PRIVATE_KEY e) = true ->
  (exists err, result_of (deploy_prepare e w) = Throw err) /\
  (forall ev, In ev (trace_of (deploy_prepare e w)) ->
     is_chain_call ev = false).
Proof.
  intros Hk.
  run_prepare e w.
  all: try match goal with
           | Hs : getSigner _ _ _ = (Ok _, _, _) |- _ =>
               exfalso; unfold getSigner in Hs; rewrite Hk in Hs;
               discriminate Hs
           end.
  all: split; [eexists; reflexivity
              | intros ev H; in_trace H; subst ev; reflexivity].
Qed.

(** X5: without a private key (unset or empty) [deploy] fails before any
    request to the chain: no balance, network, gas, send, wait or code
    query appears in the run, nothing is written, and the result is
    [{success: false, error}]. *)
Theorem deploy_without_key_makes_no_chain_call (e : Env) (w : World) :
  missing (PRIVATE_KEY e) = true ->
  (exists msg, result_of (deploy e w) = Ok (DeployFailure msg)) /\
  world_of (deploy e w) = w /\
  (forall ev, In ev (trace_of (deploy e w)) -> is_chain_call ev = false).
Proof.
  intros Hk.
  destruct (deploy_prepare_without_key e w Hk) as [[err Herr] Hnc].
  destruct (deploy_after_failure e w err Herr) as (Hr & Hw & report & Ht & Hrep).
  split; [eauto |]. split; [exact Hw |].
  intros ev Hin. rewrite Ht in Hin.
  apply in_app_or in Hin as [Hin | [<- | Hin]]; [auto | reflexivity |].
  apply Hrep in Hin. destruct ev; try discriminate; reflexivity.
Qed.

Lemma deploy_without_key_makes_no_chain_call_witness :
  let e := Sample.env [] None 5 (Returns tt) "" [] in
  let w := Sample.world "0.8.20" [] in
  missing (PRIVATE_KEY e) = true /\
  result_of (deploy e w)
    = Ok (DeployFailure "No private key found in environment variables") /\
  (forall ev, In ev (trace_of (deploy e w)) -> is_chain_call ev = false).
Proof.
  intros e w.
  destruct (deploy_without_key_makes_no_chain_call e w eq_refl)
    as (_ & _ & H).
  split; [reflexivity |]. split; [reflexivity | exact H].
Defined.

(* ================================================================= *)
(** ** verify.js: the lookup tables *)

Lemma own_unmapped (network : string) :
  ~ In network network_names ->
  (network =? "bsc") = false /\ (network =? "bsc-testnet") = false /\
  (network =? "ethereum") = false /\ (network =? "sepolia") = false.
Proof.
  unfold network_names; simpl; intros H.
  repeat split; apply String.eqb_neq; intros ->; tauto.
Qed.

Lemma getApiUrl_unmapped (network : string) :
  Js.inherited network = Js.VUndefined ->
  ~ In network network_names ->
  getApiUrl network = getApiUrl "bsc-testnet".
Proof.
  intros Hinh Hn.
  destruct (own_unmapped network Hn) as (E1 & E2 & E3 & E4).
  change (getApiUrl "bsc-testnet")
    with (Js.VStr "https://api-testnet.bscscan.com/api").
  unfold getApiUrl, Js.get, Js.or. cbn [Js.own].
  rewrite E1, E2, E3, E4, Hinh. reflexivity.
Qed.

(** X6: for every network name that no object inherits, the lookups of
    verify.js never come back empty: an RPC URL is always found (a
    missing Ethereum or Sepolia URL is silently replaced by the BSC
    testnet one), and a name outside the four known ones is treated as
    bsc-testnet by all three tables. *)
Theorem verify_lookups_fall_back (e : Env) (network : string) :
  Js.inherited network = Js.VUndefined ->
  (exists url, getRpcUrl e network = Js.VStr url /\ url <> "") /\
  (exists url, getApiUrl network = Js.VStr url /\ url <> "") /\
  (missing (ETH_MAINNET_RPC_URL e) = true ->
   getRpcUrl e "ethereum"
     = Js.VStr (str_or (BSC_TESTNET_RPC_URL e) bsc_testnet_default)) /\
  (missing (ETH_SEPOLIA_RPC_URL e) = true ->
   getRpcUrl e "sepolia"
     = Js.VStr (str_or (BSC_TESTNET_RPC_URL e) bsc_testnet_default)) /\
  (~ In network network_names ->
   getRpcUrl e network = getRpcUrl e "bsc-testnet" /\
   getApiUrl network = getApiUrl "bsc-testnet" /\
   forall a, getExplorerUrl network a = getExplorerUrl "bsc-testnet" a).
Proof.
  intros Hinh.
  assert (Hd1 : "https://bsc-dataseed.binance.org/" <> "") by discriminate.
  assert (Hd2 : bsc_testnet_default <> "") by discriminate.
  pose proof (str_or_nonempty (BSC_MAINNET_RPC_URL e) _ Hd1) as N1.
  pose proof (str_or_nonempty (BSC_TESTNET_RPC_URL e) _ Hd2) as N2.
  assert (T1 : Js.truthy (Js.VStr (str_or (BSC_MAINNET_RPC_URL e)
                 "https://bsc-dataseed.binance.org/")) = true).
  { simpl. apply String.eqb_neq in N1. now rewrite N1. }
  assert (T2 : Js.truthy (Js.VStr (str_or (BSC_TESTNET_RPC_URL e)
                 bsc_testnet_default)) = true).
  { simpl. apply String.eqb_neq in N2. now rewrite N2. }
  assert (Hmiss : forall o, missing o = true ->
            Js.truthy (Js.of_option o) = false).
  { intros [s |] H; simpl in *; [now rewrite H | reflexivity]. }
  assert (Hpres : forall o, missing o = false ->
            exists s, Js.of_option o = Js.VStr s /\ s <> "" /\
                      Js.truthy (Js.of_option o) = true).
  { intros [s |] H; simpl in *; [| discriminate].
    exists s. rewrite H. repeat split. now apply String.eqb_neq. }
  assert (Hfb : forall (a b c d : Js.value),
            Js.get [("bsc", a); ("bsc-testnet", b); ("ethereum", c);
                    ("sepolia", d)] "bsc-testnet" = b) by reflexivity.
  split; [| split; [| split; [| split]]].
  - unfold getRpcUrl. rewrite Hfb. unfold Js.get, Js.or. cbn [Js.own].
    destruct (network =? "bsc"); [rewrite T1; eauto |].
    destruct (network =? "bsc-testnet"); [rewrite T2; eauto |].
    destruct (network =? "ethereum").
    { destruct (missing (ETH_MAINNET_RPC_URL e)) eqn:Hm.
      - rewrite (Hmiss _ Hm). eauto.
      - destruct (Hpres _ Hm) as (s & Hs & Hne & Ht).
        rewrite Ht, Hs. eauto. }
    destruct (network =? "sepolia").
    { destruct (missing (ETH_SEPOLIA_RPC_URL e)) eqn:Hm.
      - rewrite (Hmiss _ Hm). eauto.
      - destruct (Hpres _ Hm) as (s & Hs & Hne & Ht).
        rewrite Ht, Hs. eauto. }
    rewrite Hinh. cbn [Js.truthy]. eauto.
  - unfold getApiUrl. rewrite Hfb. unfold Js.get, Js.or. cbn [Js.own].
    destruct (network =? "bsc"); [eexists; split; [reflexivity | discriminate] |].
    destruct (network =? "bsc-testnet");
      [eexists; split; [reflexivity | discriminate] |].
    destruct (network =? "ethereum");
      [eexists; split; [reflexivity | discriminate] |].
    destruct (network =? "sepolia");
      [eexists; split; [reflexivity | discriminate] |].
    rewrite Hinh. eexists; split; [reflexivity | discriminate].
  - intros Hm. unfold getRpcUrl. rewrite Hfb. unfold Js.get, Js.or.
    change (Js.own _ "ethereum")
      with (Some (Js.of_option (ETH_MAINNET_RPC_URL e))).
    cbv beta iota. now rewrite (Hmiss _ Hm).
  - intros Hm. unfold getRpcUrl. rewrite Hfb. unfold Js.get, Js.or.
    change (Js.own _ "sepolia")
      with (Some (Js.of_option (ETH_SEPOLIA_RPC_URL e))).
    cbv beta iota. now rewrite (Hmiss _ Hm).
  - intros Hn.
    destruct (own_unmapped network Hn) as (E1 & E2 & E3 & E4).
    assert (R1 : getRpcUrl e "bsc-testnet"
                 = Js.VStr (str_or (BSC_TESTNET_RPC_URL e) bsc_testnet_default)).
    { unfold getRpcUrl. rewrite !Hfb. unfold Js.or. now rewrite T2. }
    rewrite R1.
    change (getApiUrl "bsc-testnet")
      with (Js.VStr "https://api-testnet.bscscan.com/api").
    unfold getRpcUrl, getApiUrl. rewrite !Hfb.
    unfold Js.get, Js.or. cbn [Js.own]. rewrite E1, E2, E3, E4, Hinh.
    cbn [Js.truthy]. split; [reflexivity |]. split; [reflexivity |].
    intros a.
    change (getExplorerUrl "bsc-testnet" a)
      with ("https://testnet.bscscan.com/address/" ++ a ++ "#contracts").
    unfold getExplorerUrl. rewrite !Hfb.
    unfold Js.get, Js.or. cbn [Js.own]. rewrite E1, E2, E3, E4, Hinh.
    reflexivity.
Qed.

Lemma verify_lookups_fall_back_witness :
  let e := Sample.env [] (Some "0x01") 5 (Returns tt) "" [] in
  Js.inherited "polygon" = Js.VUndefined /\
  getRpcUrl e "ethereum" = Js.VStr bsc_testnet_default /\
  getApiUrl "polygon" = Js.VStr "https://api-testnet.bscscan.com/api".
Proof.
  intros e.
  destruct (verify_lookups_fall_back e "polygon" eq_refl)
    as (_ & _ & H1 & _ & H2).
  split; [reflexivity |]. split; [apply H1; reflexivity |].
  destruct H2 as (_ & H2 & _).
  - unfold network_names; simpl; intros H; in_trace H.
  - exact H2.
Defined.

(** X7: the API key is chosen by the text of the network name, the API URL
    by the table. On the four known networks the two agree (a BscScan URL
    goes with the BscScan key); a name outside the table that does not
    contain "bsc" is sent to the BscScan testnet API with the Etherscan
    key. *)
Theorem explorer_key_and_url (e : Env) (network : string) :
  (In network network_names ->
   (getApiKey e network = BSCSCAN_API_KEY e /\
    Js.includes (Js.to_string (getApiUrl network)) "bscscan" = true) \/
   (getApiKey e network = ETHERSCAN_API_KEY e /\
    Js.includes (Js.to_string (getApiUrl network)) "etherscan" = true)) /\
  (~ In network network_names ->
   Js.inherited network = Js.VUndefined ->
   Js.includes network "bsc" = false ->
   getApiKey e network = ETHERSCAN_API_KEY e /\
   Js.includes (Js.to_string (getApiUrl network)) "bscscan" = true).
Proof.
  split.
  - unfold network_names; simpl.
    intros [<- | [<- | [<- | [<- | []]]]];
      [left | left | right | right]; split; reflexivity.
  - intros Hn Hinh Hb.
    rewrite (getApiUrl_unmapped network Hinh Hn).
    unfold getApiKey. rewrite Hb. split; reflexivity.
Qed.

Lemma explorer_key_and_url_witness :
  let e := Sample.env [] (Some "0x01") 5 (Returns tt) "" [] in
  getApiKey e "sepolia" = None /\
  getApiKey e "polygon" = None /\
  getApiUrl "polygon" = Js.VStr "https://api-testnet.bscscan.com/api".
Proof.
  intros e.
  destruct (explorer_key_and_url e "polygon") as [_ H].
  destruct H as [H _].
  - unfold network_names; simpl; intros H; in_trace H.
  - reflexivity.
  - reflexivity.
  - split; [reflexivity |]. split; [exact H | reflexivity].
Defined.

(* ================================================================= *)
(** ** verify.js: from the submission to the exit *)

Ltac quiet_events H :=
  unfold prepend, trace_of, version_warnings in H; cbn [fst snd] in H;
  rewrite ?in_app_iff in H; simpl in H;
  repeat match goal with
         | H : context [if ?b then _ else _] |- _ => destruct b; simpl in H
         end;
  repeat (destruct H as [H | H]; try contradiction);
  try contradiction; subst; reflexivity.

(** [verify_body] either stops before the submission, having made no
    request to the explorer and written nothing, or posts the submission
    and goes on with the explorer's answer. *)
Lemma verify_body_cases (e : Env) (w : World) :
  (exists err t,
     verify_body e w = (Throw err, w, t) /\
     (forall ev, In ev t -> is_quiet ev = true)) \/
  (exists cs d live args src pre,
     files w SettingsFile = Some (FSettings cs) /\
     files w (DeploymentFile (cli_network e)) = Some (FDeployment d) /\
     eth_getCode e (d_contractAddress d) = Returns live /\
     Js.includes live (Js.slice 2 (s_deployedBytecode cs)) = true /\
     encoded_args e d = Returns args /\
     files w (SourceFile (s_contractName cs ++ ".sol")) = Some (FText src) /\
     (forall ev, In ev pre -> is_quiet ev = true) /\
     verify_body e w =
       prepend (pre ++ [EvHttpPost (getApiUrl (cli_network e))
                          (verification_payload e (cli_network e) cs d
                             args src)])
         (after_submission e (cli_network e) cs d w)).
Proof.
  unfold verify_body. cbv zeta.
  rewrite bind_read_settings.
  destruct (files w SettingsFile) as [[a | cs | d0 | s] |] eqn:Hs;
    try solve [left; eexists; eexists; split;
               [reflexivity | intros ev H; quiet_events H]].
  rewrite bind_warn_version_format.
  rewrite bind_read_deployment.
  destruct (files w (DeploymentFile (cli_network e)))
    as [[a | s0 | d | s] |] eqn:Hd;
    try solve [left; eexists; eexists; split;
               [reflexivity | intros ev H; quiet_events H]].
  rewrite bind_call.
  destruct (eth_getCode e (d_contractAddress d)) as [live | err] eqn:Hc;
    try solve [left; eexists; eexists; split;
               [reflexivity | intros ev H; quiet_events H]].
  destruct (Js.includes live (Js.slice 2 (s_deployedBytecode cs))) eqn:Hi;
    cbn [negb];
    [rewrite bind_ret
    | rewrite bind_throw;
      left; eexists; eexists; split;
      [reflexivity | intros ev H; quiet_events H]].
  rewrite bind_encoded_args.
  destruct (encoded_args e d) as [args | err] eqn:Ha;
    try solve [left; eexists; eexists; split;
               [reflexivity | intros ev H; quiet_events H]].
  rewrite bind_read_source.
  destruct (files w (SourceFile (s_contractName cs ++ ".sol")))
    as [[a | s0 | d1 | src] |] eqn:Hsrc;
    try solve [left; eexists; eexists; split;
               [reflexivity | intros ev H; quiet_events H]].
  right. exists cs, d, live, args, src.
  exists ([EvReadFile SettingsFile]
          ++ (if Js.includes (s_solcVersion cs) "+commit." then []
              else version_warnings (s_solcVersion cs))
          ++ [EvReadFile (DeploymentFile (cli_network e));
              EvGetCode (getRpcUrl e (cli_network e)) (d_contractAddress d);
              EvReadFile (SourceFile (s_contractName cs ++ ".sol"))])%list.
  repeat (split; [assumption || reflexivity |]).
  split; [intros ev H; quiet_events H |].
  unfold submitVerification. rewrite bind_call.
  unfold after_submission.
  destruct (http_submit e) as [response | err];
    unfold prepend, result_of, world_of, trace_of; cbn [fst snd];
    rewrite <- ?app_assoc; cbn [app]; rewrite <- ?app_assoc; cbn [app];
    rewrite ?app_nil_r; reflexivity.
Qed.

(** A run that posted the submission got through the loading phase. *)
Lemma submission_reached (e : Env) (w : World) url payload :
  In (EvHttpPost url payload) (trace_of (verifyContract e w)) ->
  exists cs d pre,
    files w SettingsFile = Some (FSettings cs) /\
    files w (DeploymentFile (cli_network e)) = Some (FDeployment d) /\
    (forall ev, In ev pre -> is_quiet ev = true) /\
    verify_body e w =
      prepend pre
        (prepend [EvHttpPost url payload]
           (after_submission e (cli_network e) cs d w)).
Proof.
  intros Hin.
  destruct (verifyContract_trace e w) as (report & Ht & Hrep).
  rewrite Ht in Hin. apply in_app_or in Hin as [Hin | Hin];
    [| apply Hrep in Hin; discriminate].
  destruct (verify_body_cases e w)
    as [(err & t & Hb & Hq)
       | (cs & d & live & args & src & pre & Hs & Hd & _ & _ & _ & _ & Hq & Hb)].
  - rewrite Hb in Hin. apply Hq in Hin. discriminate.
  - exists cs, d, pre. repeat (split; [assumption |]).
    rewrite Hb in Hin |- *.
    unfold prepend in Hin; cbn [trace_of snd] in Hin.
    rewrite !in_app_iff in Hin.
    unfold prepend, result_of, world_of, trace_of; cbn [fst snd].
    destruct Hin as [[Hin | Hin] | Hin].
    + apply Hq in Hin; discriminate.
    + destruct Hin as [Hin | []]. injection Hin as <- <-.
      now rewrite <- app_assoc.
    + exfalso. revert Hin. unfold after_submission.
      destruct (http_submit e) as [r | err]; [| intros []].
      destruct (r_status r =? "1"); [| intros []].
      rewrite bind_unfold.
      destruct (storeVerificationDetails_total e (cli_network e) d
                  (r_result r) cs w) as [Hr Hst].
      rewrite Hr, trace_of_prepend, in_app_iff.
      intros [Hin | Hin]; [apply Hst in Hin; discriminate |].
      destruct (poll_shape e (getApiUrl (cli_network e))
                  (getApiKey e (cli_network e)) (r_result r)
                  (cli_network e) d 20 0
                  (world_of (storeVerificationDetails e (cli_network e) d
                               (r_result r) cs w)))
        as (k & _ & [[err H] | (res & st & rs & _ & H)]);
        unfold pollVerificationStatus in Hin; rewrite H in Hin;
        cbn [trace_of snd] in Hin.
      * clear -Hin. induction k; simpl in Hin; [contradiction |].
        destruct Hin as [Hin | [Hin | Hin]]; try discriminate. auto.
      * apply in_app_or in Hin as [Hin | Hin].
        -- clear -Hin. induction k; simpl in Hin; [contradiction |].
           destruct Hin as [Hin | [Hin | Hin]]; try discriminate. auto.
        -- destruct (updateVerificationStatus_total e (cli_network e) d st
                       (r_result r) rs
                       (world_of (storeVerificationDetails e (cli_network e)
                                    d (r_result r) cs w))) as [_ Hu].
           apply Hu in Hin; discriminate.
Qed.

Lemma quiet_not_status_check (ev : Event) :
  is_quiet ev = true ->
  is_status_check ev = false /\ is_write ev = false /\
  is_submission ev = false /\ is_error_report ev = false.
Proof. destruct ev; simpl; intros H; try discriminate; repeat split. Qed.

(** X8: when the explorer accepts the submission (status "1") and the
    store works, the record with status [submitted], the returned GUID,
    the compiler version and the explorer URL is written right after the
    POST and before the first status check; every other field of the
    record is the one read at the start. *)
Theorem submitted_is_stored_before_polling (e : Env) (w : World)
    url payload (response : ApiResponse) :
  In (EvHttpPost url payload) (trace_of (verifyContract e w)) ->
  http_submit e = Returns response ->
  r_status response = "1" ->
  next_write_ok w = true ->
  exists cs d pre rest,
    files w SettingsFile = Some (FSettings cs) /\
    files w (DeploymentFile (cli_network e)) = Some (FDeployment d) /\
    trace_of (verifyContract e w) =
      (pre
       ++ EvHttpPost url payload
       :: EvWriteFile (DeploymentFile (cli_network e))
            (FDeployment
               (with_verification d
                  (submitted_status e (cli_network e) d (r_result response)
                     cs)))
       :: rest)%list /\
    (forall ev, In ev pre -> is_status_check ev = false).
Proof.
  intros Hin Hsub Hst Hw.
  destruct (submission_reached e w url payload Hin)
    as (cs & d & pre & Hs & Hd & Hq & Hb).
  destruct (verifyContract_trace e w) as (report & Ht & _).
  exists cs, d, pre.
  unfold after_submission in Hb. rewrite Hsub, Hst in Hb.
  cbn [String.eqb Ascii.eqb Bool.eqb] in Hb.
  rewrite bind_unfold in Hb.
  pose proof (storeVerificationDetails_run e (cli_network e) d
                (r_result response) cs w) as Hrun.
  cbv zeta in Hrun. rewrite Hw in Hrun. rewrite Hrun in Hb.
  cbn [result_of world_of trace_of fst snd] in Hb.
  eexists. split; [exact Hs |]. split; [exact Hd |].
  split; [| intros ev Hev; apply Hq in Hev;
            now apply quiet_not_status_check in Hev].
  rewrite Ht, Hb. unfold prepend; cbn [trace_of snd].
  rewrite <- !app_assoc. cbn [app]. reflexivity.
Qed.

Lemma submitted_is_stored_before_polling_witness :
  let e := Sample.env [] (Some "0x01") 5 (Returns tt) "0x6080"
             ["Pending"; "Pass - Verified"] in
  let w := Sample.world "0.8.20+commit.a1b79de6" [] in
  exists pre rest,
    trace_of (verifyContract e w) =
      (pre
       ++ EvHttpPost (getApiUrl "bsc-testnet")
            (verification_payload e "bsc-testnet"
               (Sample.settings "0.8.20+commit.a1b79de6") Sample.deployment
               "" Sample.source)
       :: EvWriteFile (DeploymentFile "bsc-testnet")
            (FDeployment
               (with_verification Sample.deployment
                  (submitted_status e "bsc-testnet" Sample.deployment
                     "abc123guid"
                     (Sample.settings "0.8.20+commit.a1b79de6"))))
       :: rest)%list /\
    (forall ev, In ev pre -> is_status_check ev = false).
Proof.
  intros e w.
  assert (Hin : In (EvHttpPost (getApiUrl "bsc-testnet")
                      (verification_payload e "bsc-testnet"
                         (Sample.settings "0.8.20+commit.a1b79de6")
                         Sample.deployment "" Sample.source))
                   (trace_of (verifyContract e w))).
  { vm_compute. tauto. }
  destruct (submitted_is_stored_before_polling e w _ _ _ Hin eq_refl eq_refl
              eq_refl) as (cs & d & pre & rest & Hs & Hd & Ht & Hq).
  injection Hs as <-. injection Hd as <-.
  exists pre, rest. split; [exact Ht | exact Hq].
Defined.

(** An occurrence of a text in [p ++ m] lies inside [m] when the first
    character of the text does not occur in [p]. *)
Lemma occurrence_after_prefix (p : string) (c : ascii) (t m a b : string) :
  Js.includes p (String c "") = false ->
  p ++ m = a ++ String c t ++ b ->
  exists a', m = a' ++ String c t ++ b.
Proof.
  revert a; induction p as [| c0 p IH]; intros a Hi H.
  - exists a. exact H.
  - change (Js.includes (String c0 p) (String c ""))
      with (if prefix (String c "") (String c0 p) then true
            else Js.includes p (String c "")) in Hi.
    destruct (prefix (String c "") (String c0 p)) eqn:Hp; [discriminate |].
    destruct a as [| c' a].
    + simpl in H. injection H as Hc _. subst c0.
      simpl in Hp. destruct (ascii_dec c c); [| congruence].
      destruct p; discriminate.
    + simpl in H. injection H as _ H. exact (IH a Hi H).
Qed.

(** X9: when the submission is posted but not accepted (the request
    fails, or the explorer answers with a status other than "1"),
    [verifyContract] stops there: it makes no status check, attempts no
    write, leaves the files as they were and ends with exit status 1. *)
Theorem rejected_submission_stops (e : Env) (w : World) url payload :
  In (EvHttpPost url payload) (trace_of (verifyContract e w)) ->
  submission_accepted e = false ->
  world_of (verifyContract e w) = w /\
  exit_status (result_of (verifyContract e w)) = 1%Z /\
  (forall ev, In ev (trace_of (verifyContract e w)) ->
     is_status_check ev = false /\ is_write ev = false) /\
  (forall response, http_submit e = Returns response ->
     Js.includes (r_message response)
       "Invalid Or Not supported solc version" = false ->
     In (EvError ("Verification failed: Verification submission failed: "
                  ++ r_message response))
        (trace_of (verifyContract e w))).
Proof.
  intros Hin Hrej.
  destruct (submission_reached e w url payload Hin)
    as (cs & d & pre & Hs & Hd & Hq & Hb).
  assert (Hafter : exists err,
            after_submission e (cli_network e) cs d w = (Throw err, w, []) /\
            forall response, http_submit e = Returns response ->
              err = mkError ("Verification submission failed: "
                             ++ r_message response)).
  { unfold after_submission, submission_accepted in *.
    destruct (http_submit e) as [r | err].
    - rewrite Hrej. eexists; split; [reflexivity |].
      intros response H; now injection H as <-.
    - eexists; split; [reflexivity | discriminate]. }
  destruct Hafter as (err & Ha & Herr).
  rewrite Ha in Hb.
  rewrite verifyContract_run, Hb.
  unfold prepend, result_of, world_of, trace_of; cbn [fst snd].
  repeat split.
  - destruct (Js.includes (message err) _); reflexivity.
  - destruct (Js.includes (message err) _); reflexivity.
  - destruct (Js.includes (message err) _); cbn [fst snd] in H;
      rewrite ?in_app_iff in H; simpl in H;
      repeat match goal with
             | H' : _ \/ _ |- _ => destruct H' as [H' | H']
             end;
      try contradiction;
      first [ subst ev; reflexivity
            | apply Hq in H; apply quiet_not_status_check in H; tauto ].
  - destruct (Js.includes (message err) _); cbn [fst snd] in H;
      rewrite ?in_app_iff in H; simpl in H;
      repeat match goal with
             | H' : _ \/ _ |- _ => destruct H' as [H' | H']
             end;
      try contradiction;
      first [ subst ev; reflexivity
            | apply Hq in H; apply quiet_not_status_check in H; tauto ].
  - intros response Hr Hnot. rewrite (Herr response Hr).
    assert (Hno : Js.includes
                    (message (mkError ("Verification submission failed: "
                                       ++ r_message response)))
                    "Invalid Or Not supported solc version" = false).
    { cbn [message mkError].
      destruct (Js.includes ("Verification submission failed: "
                             ++ r_message response) _) eqn:Hinc;
        [| reflexivity].
      apply includes_substring in Hinc as (a & b & Hab).
      exfalso. revert Hnot Hab. generalize (r_message response). clear.
      intros m Hnot Hab.
      assert (Js.includes m "Invalid Or Not supported solc version" = true);
        [| congruence].
      apply includes_substring.
      destruct (occurrence_after_prefix "Verification submission failed: "
                  "I"%char "nvalid Or Not supported solc version" m a b
                  eq_refl Hab) as [a' Ha'].
      exists a', b. exact Ha'. }
    rewrite Hno. cbn [fst snd]. rewrite !in_app_iff. simpl. tauto.
Qed.

Lemma rejected_submission_stops_witness :
  let e := rejecting "Missing or invalid API key" in
  let w := Sample.world "0.8.20+commit.a1b79de6" [] in
  submission_accepted e = false /\
  exit_status (result_of (verifyContract e w)) = 1%Z /\
  (forall ev, In ev (trace_of (verifyContract e w)) ->
     is_status_check ev = false /\ is_write ev = false) /\
  In (EvError ("Verification failed: Verification submission failed: "
               ++ "Missing or invalid API key"))
     (trace_of (verifyContract e w)).
Proof.
  intros e w.
  assert (Hin : In (EvHttpPost (getApiUrl "bsc-testnet")
                      (verification_payload e "bsc-testnet"
                         (Sample.settings "0.8.20+commit.a1b79de6")
                         Sample.deployment "" Sample.source))
                   (trace_of (verifyContract e w))).
  { vm_compute. tauto. }
  destruct (rejected_submission_stops e w _ _ Hin eq_refl)
    as (_ & Hx & Hq & Hm).
  split; [reflexivity |]. split; [exact Hx |]. split; [exact Hq |].
  apply (Hm _ eq_refl). reflexivity.
Defined.

Lemma poll_returns_only_on_pass (e : Env) apiUrl apiKey guid network d n :
  forall i w,
    result_of (poll_from e apiUrl apiKey guid network d n i w) = Ok tt ->
    exists k, (k < n)%nat /\
      http_checkstatus e (i + k) = Returns "Pass - Verified" /\
      forall j, (j < k)%nat ->
        exists r, http_checkstatus e (i + j) = Returns r /\ pending r = true.
Proof.
  induction n as [| n IH]; intros i w H.
  - rewrite poll_exhausted in H. discriminate.
  - destruct (http_checkstatus e i) as [r | err] eqn:Hr.
    + destruct (r =? "Pass - Verified") eqn:Hpass.
      * apply String.eqb_eq in Hpass; subst r.
        exists 0%nat. rewrite Nat.add_0_r.
        split; [lia |]. split; [exact Hr | intros j Hj; lia].
      * destruct (Js.includes r "Fail") eqn:Hfail.
        -- rewrite (poll_fail _ _ _ _ _ _ _ _ _ _ Hr Hfail) in H.
           discriminate.
        -- assert (Hp : pending r = true)
             by (unfold pending; now rewrite Hpass, Hfail).
           rewrite (poll_pending _ _ _ _ _ _ _ _ _ _ Hr Hp) in H.
           rewrite result_of_prepend in H.
           destruct (IH (S i) w H) as (k & Hk & Hk1 & Hk2).
           exists (S k). split; [lia |].
           replace (i + S k)%nat with (S i + k)%nat by lia.
           split; [exact Hk1 |].
           intros [| j] Hj.
           ++ rewrite Nat.add_0_r. eauto.
           ++ replace (i + S j)%nat with (S i + j)%nat by lia.
              apply Hk2. lia.
    + rewrite (poll_request_fails _ _ _ _ _ _ _ _ _ _ Hr) in H. discriminate.
Qed.

(** X10: [verifyContract] ends with exit status 0 only when the explorer
    accepted the submission and one of the at most 20 status checks
    answered exactly "Pass - Verified", every check before it having
    answered with a pending text; in every other run the exit status is
    1. *)
Theorem verified_exit_requires_pass (e : Env) (w : World) :
  (exit_status (result_of (verifyContract e w)) = 0%Z \/
   exit_status (result_of (verifyContract e w)) = 1%Z) /\
  (exit_status (result_of (verifyContract e w)) = 0%Z ->
   result_of (verifyContract e w) = Ok tt /\
   submission_accepted e = true /\
   exists k, (k < 20)%nat /\
     http_checkstatus e k = Returns "Pass - Verified" /\
     forall j, (j < k)%nat ->
       exists r, http_checkstatus e j = Returns r /\ pending r = true).
Proof.
  assert (Hthrow : forall err w' t,
            verify_body e w = (Throw err, w', t) ->
            exit_status (result_of (verifyContract e w)) = 1%Z).
  { intros err w' t Hb. rewrite verifyContract_run, Hb.
    cbn [result_of fst]. rewrite result_of_prepend.
    destruct (Js.includes (message err) _); reflexivity. }
  destruct (verify_body_cases e w)
    as [(err & t & Hb & _)
       | (cs & d & live & args & src & pre & _ & _ & _ & _ & _ & _ & _ & Hb)].
  { rewrite (Hthrow _ _ _ Hb). split; [now right | discriminate]. }
  unfold after_submission in Hb.
  unfold submission_accepted.
  destruct (http_submit e) as [r | err];
    [| rewrite (Hthrow _ _ _ Hb); split; [now right | discriminate]].
  destruct (r_status r =? "1");
    [| rewrite (Hthrow _ _ _ Hb); split; [now right | discriminate]].
  rewrite bind_unfold in Hb.
  destruct (storeVerificationDetails_total e (cli_network e) d (r_result r)
              cs w) as [Hst _].
  rewrite Hst in Hb.
  set (w1 := world_of (storeVerificationDetails e (cli_network e) d
                         (r_result r) cs w)) in *.
  destruct (result_of (pollVerificationStatus e (getApiUrl (cli_network e))
                         (getApiKey e (cli_network e)) (r_result r)
                         (cli_network e) d w1)) as [[] | err | n] eqn:Hp.
  - assert (Hres : result_of (verifyContract e w) = Ok tt).
    { rewrite verifyContract_run, Hb. rewrite !result_of_prepend, Hp.
      cbv beta iota. rewrite !result_of_prepend. exact Hp. }
    rewrite Hres. split; [now left |]. intros _.
    split; [reflexivity |]. split; [reflexivity |].
    unfold pollVerificationStatus in Hp.
    destruct (poll_returns_only_on_pass _ _ _ _ _ _ _ _ _ Hp)
      as (k & Hk & H1 & H2).
    exists k. auto.
  - assert (Hres : exit_status (result_of (verifyContract e w)) = 1%Z).
    { rewrite verifyContract_run, Hb. rewrite !result_of_prepend, Hp.
      cbv beta iota. rewrite !result_of_prepend.
      destruct (Js.includes (message err) _); reflexivity. }
    rewrite Hres. split; [now right | discriminate].
  - exfalso. unfold pollVerificationStatus in Hp.
    destruct (poll_shape e (getApiUrl (cli_network e))
                (getApiKey e (cli_network e)) (r_result r) (cli_network e)
                d 20 0 w1)
      as (k & _ & [[err H] | (res & st & rs & He & H)]);
      rewrite H in Hp; cbn [result_of fst] in Hp;
      [discriminate | destruct He; discriminate].
Qed.

Lemma verified_exit_requires_pass_witness :
  let e := Sample.env [] (Some "0x01") 5 (Returns tt) "0x6080"
             ["Pending"; "Pass - Verified"] in
  let w := Sample.world "0.8.20+commit.a1b79de6" [] in
  exit_status (result_of (verifyContract e w)) = 0%Z /\
  exists k, (k < 20)%nat /\ http_checkstatus e k = Returns "Pass - Verified".
Proof.
  intros e w.
  destruct (verified_exit_requires_pass e w) as [_ H].
  destruct (H eq_refl) as (_ & _ & k & Hk & Hp & _).
  split; [reflexivity |]. exists k. split; assumption.
Defined.

Lemma includes_append_left (p m t : string) :
  Js.includes m t = true -> Js.includes (p ++ m) t = true.
Proof.
  intros H. apply includes_substring in H as (a & b & ->).
  apply includes_substring.
  exists (p ++ a), b.
  induction p as [| c p IH]; [reflexivity |].
  simpl. now rewrite IH.
Qed.

(** X11: when the explorer rejects the submission with a message containing
    "Invalid Or Not supported solc version", the [catch] block prints one
    line and then fails on its reference to [compilationSettings], which
    is out of scope there: the run ends on that ReferenceError instead of
    [process.exit(1)], and neither the remediation hints nor the
    "Verification failed:" line are printed. *)
Theorem version_rejection_skips_report (e : Env) (w : World) url payload
    (response : ApiResponse) :
  In (EvHttpPost url payload) (trace_of (verifyContract e w)) ->
  http_submit e = Returns response ->
  (r_status response =? "1") = false ->
  Js.includes (r_message response) "Invalid Or Not supported solc version"
    = true ->
  result_of (verifyContract e w) = Throw reference_error /\
  (exists pre,
     trace_of (verifyContract e w) =
       (pre ++ [EvError "Compiler version not supported by block explorer"])%list
     /\ forall ev, In ev pre -> is_error_report ev = false) /\
  (forall msg, ~ In (EvError ("Verification failed: " ++ msg))
                    (trace_of (verifyContract e w))).
Proof.
  intros Hin Hsub Hst Hmsg.
  destruct (submission_reached e w url payload Hin)
    as (cs & d & pre & Hs & Hd & Hq & Hb).
  unfold after_submission in Hb. rewrite Hsub, Hst in Hb.
  rewrite verifyContract_run, Hb.
  unfold prepend, throw, result_of, world_of, trace_of; cbn [fst snd].
  cbn [message mkError].
  rewrite (includes_append_left "Verification submission failed: " _ _ Hmsg).
  cbn [fst snd].
  assert (Hpre : forall ev, In ev (pre ++ [EvHttpPost url payload] ++ [])%list ->
                   is_error_report ev = false).
  { intros ev H. rewrite !in_app_iff in H. simpl in H.
    destruct H as [H | [[H | []] | []]]; [| subst ev; reflexivity].
    apply Hq in H. now apply quiet_not_status_check in H. }
  split; [reflexivity |]. split.
  - eexists. split; [reflexivity | exact Hpre].
  - intros msg H. apply in_app_or in H as [H | H].
    + apply Hpre in H. discriminate.
    + destruct H as [H | []]. discriminate H.
Qed.

Lemma version_rejection_skips_report_witness :
  let e := rejecting "Invalid Or Not supported solc version" in
  let w := Sample.world "0.8.20" [] in
  result_of (verifyContract e w) = Throw reference_error /\
  exit_status (result_of (verifyContract e w)) = 1%Z.
Proof.
  intros e w.
  assert (Hin : In (EvHttpPost (getApiUrl "bsc-testnet")
                      (verification_payload e "bsc-testnet"
                         (Sample.settings "0.8.20")
                         Sample.deployment "" Sample.source))
                   (trace_of (verifyContract e w))).
  { vm_compute. tauto. }
  destruct (version_rejection_skips_report e w _ _ _ Hin eq_refl eq_refl
              eq_refl) as (Hr & _).
  split; [exact Hr | rewrite Hr; reflexivity].
Defined.

(* ================================================================= *)
(** ** verify.js: the record across write-backs *)

(** X12: on a store that works, a status update that follows the
    submission write-back changes only [status], [verifiedAt] (set when the
    new status is [verified]) and [failureReason]; the GUID, submission
    time, compiler version and explorer URL stored at submission and all
    fields of the deployment are kept. The update works from the file, not
    from the record and GUID it is passed. *)
Theorem status_update_keeps_submission (e : Env) (network : string)
    (d d' : DeploymentRecord) (guid guid' : string)
    (cs : CompilationSettings) (status : VStatus) (reason : option string)
    (w : World) :
  let p := DeploymentFile network in
  let submitted :=
    FDeployment (with_verification d (submitted_status e network d guid cs)) in
  next_write_ok w = true ->
  next_write_ok (written w p submitted) = true ->
  let w1 := world_of (storeVerificationDetails e network d guid cs w) in
  let w2 := world_of (updateVerificationStatus e network d' status guid'
                        reason w1) in
  files w1 p = Some submitted /\
  files w2 p =
    Some (FDeployment
            (with_verification d
               {| v_status := status;
                  v_guid := Some guid;
                  v_submittedAt := Some (now e);
                  v_compilerVersion := Some (s_solcVersion cs);
                  v_explorerUrl :=
                    Some (getExplorerUrl network (d_contractAddress d));
                  v_verifiedAt :=
                    match status with
                    | Verified => Some (now e)
                    | _ => None
                    end;
                  v_failureReason := reason |})) /\
  (forall q, path_eqb p q = false -> files w2 q = files w q).
Proof.
  intros p submitted Hw Hw1 w1 w2.
  pose proof (storeVerificationDetails_run e network d guid cs w) as Hs.
  cbv zeta in Hs. rewrite Hw in Hs.
  assert (E1 : w1 = written w p submitted).
  { unfold w1. now rewrite Hs. }
  assert (F1 : files w1 p = Some submitted).
  { rewrite E1. unfold written, update_files; cbn [files].
    now rewrite path_eqb_refl. }
  assert (Hw1' : next_write_ok w1 = true) by (rewrite E1; exact Hw1).
  pose proof (updateVerificationStatus_ok e network d' status guid' reason
                w1 _ F1 Hw1') as Hu.
  cbv zeta in Hu.
  split; [exact F1 |]. split.
  - unfold w2. rewrite Hu. cbn [world_of fst snd].
    unfold written, update_files; cbn [files].
    rewrite path_eqb_refl. destruct status; reflexivity.
  - intros q Hq. unfold w2. rewrite Hu. cbn [world_of fst snd].
    rewrite E1. unfold written, update_files; cbn [files].
    fold p. now rewrite Hq.
Qed.

Lemma status_update_keeps_submission_witness :
  let e := Sample.env [] (Some "0x01") 5 (Returns tt) "0x6080" [] in
  let cs := Sample.settings "0.8.20+commit.a1b79de6" in
  let w := Sample.world "0.8.20+commit.a1b79de6" [] in
  let w1 := world_of (storeVerificationDetails e "bsc-testnet"
                        Sample.deployment "abc123guid" cs w) in
  let w2 := world_of (updateVerificationStatus e "bsc-testnet"
                        Sample.deployment Failed "" (Some "Fail - Unable")
                        w1) in
  option_map v_guid (persisted_verification w2 "bsc-testnet")
    = Some (Some "abc123guid") /\
  persisted_status w2 "bsc-testnet" = Some Failed.
Proof.
  intros e cs w w1 w2.
  pose proof (status_update_keeps_submission e "bsc-testnet"
                Sample.deployment Sample.deployment "abc123guid" "" cs Failed
                (Some "Fail - Unable") w eq_refl eq_refl) as H.
  cbv zeta in H. destruct H as (_ & H & _).
  unfold persisted_status, persisted_verification, w2, w1.
  rewrite H. split; reflexivity.
Defined.

(* ================================================================= *)
(** ** compile.js: the version of the compiler *)

Lemma append_nil_r (s : string) : s ++ "" = s.
Proof. induction s; simpl; congruence. Qed.

Lemma append_assoc (a b c : string) : (a ++ b) ++ c = a ++ b ++ c.
Proof. induction a; simpl; congruence. Qed.

(** Brings nested appends to right-nested form. *)
Ltac norm_app := repeat first [rewrite append_assoc | progress simpl].

Lemma span_spec (f : ascii -> bool) (s x r : string) :
  Re.span f s = (x, r) ->
  s = x ++ r /\ all_chars f x = true /\ stops_at f r = true.
Proof.
  revert x r; induction s as [| c s IH]; simpl; intros x r H.
  - injection H as <- <-. repeat split.
  - destruct (f c) eqn:Hc.
    + destruct (Re.span f s) as [a b]. injection H as <- <-.
      destruct (IH a b eq_refl) as (-> & Ha & Hb).
      simpl. rewrite Hc, Ha. repeat split. exact Hb.
    + injection H as <- <-. simpl. rewrite Hc. repeat split.
Qed.

Lemma span_app (f : ascii -> bool) (x r : string) :
  all_chars f x = true -> stops_at f r = true ->
  Re.span f (x ++ r) = (x, r).
Proof.
  induction x as [| c x IH]; simpl; intros Hx Hr.
  - destruct r as [| c r]; [reflexivity |].
    simpl in Hr |- *. apply negb_true_iff in Hr. now rewrite Hr.
  - apply andb_true_iff in Hx as [Hc Hx].
    now rewrite Hc, (IH Hx Hr).
Qed.

Lemma plus_spec (f : ascii -> bool) (s x r : string) :
  Re.plus f s = Some (x, r) ->
  s = x ++ r /\ x <> "" /\ all_chars f x = true /\ stops_at f r = true.
Proof.
  unfold Re.plus. destruct (Re.span f s) as [a b] eqn:H.
  destruct a as [| c a]; [discriminate |].
  intros E; injection E as <- <-.
  destruct (span_spec f s _ _ H) as (Hs & Ha & Hb).
  repeat split; try assumption. discriminate.
Qed.

Lemma plus_app (f : ascii -> bool) (x r : string) :
  x <> "" -> all_chars f x = true -> stops_at f r = true ->
  Re.plus f (x ++ r) = Some (x, r).
Proof.
  intros Hne Hx Hr. unfold Re.plus. rewrite (span_app f x r Hx Hr).
  destruct x; [congruence | reflexivity].
Qed.

Lemma strip_prefix_spec (p s r : string) :
  Re.strip_prefix p s = Some r -> s = p ++ r.
Proof.
  revert s; induction p as [| a p IH]; simpl; intros s H.
  - now injection H as <-.
  - destruct s as [| b s]; [discriminate |].
    destruct (Ascii.eqb a b) eqn:Hab; [| discriminate].
    apply Ascii.eqb_eq in Hab; subst b.
    now rewrite (IH s H).
Qed.

Lemma strip_prefix_app (p r : string) : Re.strip_prefix p (p ++ r) = Some r.
Proof.
  induction p as [| a p IH]; simpl; [reflexivity |].
  now rewrite Ascii.eqb_refl.
Qed.

(** A text matched by [\d+\.\d+\.\d+] is digits and dots. *)
Lemma semver_at_spec (s m r : string) :
  Re.semver_at s = Some (m, r) ->
  exists major minor patch,
    m = major ++ "." ++ minor ++ "." ++ patch /\ s = m ++ r /\
    major <> "" /\ minor <> "" /\ patch <> "" /\
    all_chars Re.is_digit major = true /\
    all_chars Re.is_digit minor = true /\
    all_chars Re.is_digit patch = true /\
    stops_at Re.is_digit r = true.
Proof.
  unfold Re.semver_at.
  destruct (Re.plus Re.is_digit s) as [[major r1] |] eqn:H1; [| discriminate].
  destruct (Re.strip_prefix "." r1) as [r2 |] eqn:H2; [| discriminate].
  destruct (Re.plus Re.is_digit r2) as [[minor r3] |] eqn:H3; [| discriminate].
  destruct (Re.strip_prefix "." r3) as [r4 |] eqn:H4; [| discriminate].
  destruct (Re.plus Re.is_digit r4) as [[patch r5] |] eqn:H5; [| discriminate].
  intros E; injection E as <- <-.
  destruct (plus_spec _ _ _ _ H1) as (-> & N1 & A1 & _).
  apply strip_prefix_spec in H2; subst r1.
  destruct (plus_spec _ _ _ _ H3) as (-> & N3 & A3 & _).
  apply strip_prefix_spec in H4; subst r3.
  destruct (plus_spec _ _ _ _ H5) as (-> & N5 & A5 & S5).
  exists major, minor, patch.
  repeat split; try assumption.
  norm_app. reflexivity.
Qed.

Lemma semver_at_app (major minor patch r : string) :
  major <> "" -> minor <> "" -> patch <> "" ->
  all_chars Re.is_digit major = true ->
  all_chars Re.is_digit minor = true ->
  all_chars Re.is_digit patch = true ->
  stops_at Re.is_digit r = true ->
  Re.semver_at (major ++ "." ++ minor ++ "." ++ patch ++ r)
    = Some (major ++ "." ++ minor ++ "." ++ patch, r).
Proof.
  intros N1 N2 N3 A1 A2 A3 S.
  unfold Re.semver_at.
  rewrite (plus_app _ major _ N1 A1) by reflexivity.
  change ("." ++ minor ++ "." ++ patch ++ r)
    with ("." ++ (minor ++ "." ++ patch ++ r)).
  rewrite strip_prefix_app.
  rewrite (plus_app _ minor _ N2 A2) by reflexivity.
  change ("." ++ patch ++ r) with ("." ++ (patch ++ r)).
  rewrite strip_prefix_app.
  rewrite (plus_app _ patch _ N3 A3 S). reflexivity.
Qed.

(** What [commit_version_at] returns matches the whole pattern. *)
Lemma commit_version_at_qualified (s m r : string) :
  Re.commit_version_at s = Some (m, r) ->
  commit_qualified m = true /\ Js.includes m "+commit." = true /\
  s = m ++ r.
Proof.
  unfold Re.commit_version_at.
  destruct (Re.semver_at s) as [[v r1] |] eqn:H1; [| discriminate].
  destruct (Re.strip_prefix "+commit." r1) as [r2 |] eqn:H2; [| discriminate].
  destruct (Re.plus Re.is_hex r2) as [[h r3] |] eqn:H3; [| discriminate].
  intros E; injection E as <- <-.
  destruct (semver_at_spec _ _ _ H1)
    as (major & minor & patch & -> & -> & N1 & N2 & N3 & A1 & A2 & A3 & _).
  apply strip_prefix_spec in H2; subst r1.
  destruct (plus_spec _ _ _ _ H3) as (-> & Nh & Ah & _).
  split; [| split].
  - unfold commit_qualified, Re.commit_version_at.
    match goal with
    | |- context [Re.semver_at ?x] =>
        assert (E : x = major ++ "." ++ minor ++ "." ++ patch
                        ++ ("+commit." ++ h))
          by (norm_app; reflexivity);
        rewrite E
    end.
    rewrite (semver_at_app major minor patch _ N1 N2 N3 A1 A2 A3)
      by reflexivity.
    rewrite strip_prefix_app.
    rewrite <- (append_nil_r h) at 1.
    rewrite (plus_app _ h "" Nh Ah) by reflexivity.
    reflexivity.
  - apply includes_substring.
    exists (major ++ "." ++ minor ++ "." ++ patch), h. reflexivity.
  - norm_app. reflexivity.
Qed.

Lemma search_spec {A} (at_ : string -> option A) (s : string) (m : A) :
  Re.search at_ s = Some m -> exists a t, s = a ++ t /\ at_ t = Some m.
Proof.
  induction s as [| c s IH]; simpl.
  - destruct (at_ "") eqn:H; [| discriminate].
    intros E; injection E as <-. exists "", "". auto.
  - destruct (at_ (String c s)) eqn:H.
    + intros E; injection E as <-. exists "", (String c s). auto.
    + intros E. destruct (IH E) as (a & t & -> & Ht).
      exists (String c a), t. auto.
Qed.

Lemma search_none {A} (at_ : string -> option A) (a t : string) :
  Re.search at_ (a ++ t) = None -> at_ t = None.
Proof.
  induction a as [| c a IH]; simpl.
  - destruct t; simpl; destruct (at_ _); congruence.
  - destruct (at_ (String c (a ++ t))); [discriminate | exact IH].
Qed.

Lemma all_chars_app (f : ascii -> bool) (a b : string) :
  all_chars f (a ++ b) = all_chars f a && all_chars f b.
Proof.
  induction a as [| c a IH]; simpl; [reflexivity |].
  now rewrite IH, andb_assoc.
Qed.

Lemma all_chars_weaken (f g : ascii -> bool) (s : string) :
  (forall c, f c = true -> g c = true) ->
  all_chars f s = true -> all_chars g s = true.
Proof.
  intros Hfg. induction s as [| c s IH]; simpl; [reflexivity |].
  intros H. apply andb_true_iff in H as [Hc Hs].
  now rewrite (Hfg c Hc), (IH Hs).
Qed.

(** A text cannot occur in a string none of whose characters is the
    first character of the text. *)
Lemma includes_first_char (f : ascii -> bool) (s : string) (c : ascii)
    (t : string) :
  all_chars f s = true -> f c = false -> Js.includes s (String c t) = false.
Proof.
  intros Hs Hc. induction s as [| c0 s IH]; [reflexivity |].
  simpl in Hs. apply andb_true_iff in Hs as [H0 Hs].
  change (Js.includes (String c0 s) (String c t))
    with (if prefix (String c t) (String c0 s) then true
          else Js.includes s (String c t)).
  rewrite (IH Hs). simpl.
  destruct (ascii_dec c c0) as [-> | _]; [congruence | reflexivity].
Qed.

Lemma semver_has_no_commit (s m r : string) :
  Re.semver_at s = Some (m, r) -> Js.includes m "+commit." = false.
Proof.
  intros H.
  destruct (semver_at_spec _ _ _ H)
    as (major & minor & patch & -> & _ & _ & _ & _ & A1 & A2 & A3 & _).
  set (f := fun c => Re.is_digit c || Ascii.eqb c ".").
  assert (W : forall x, all_chars Re.is_digit x = true -> all_chars f x = true).
  { intros x. apply all_chars_weaken. intros c Hc. unfold f. now rewrite Hc. }
  apply (includes_first_char f); [| reflexivity].
  rewrite !all_chars_app, (W _ A1), (W _ A2), (W _ A3). reflexivity.
Qed.

Lemma span_app_all (f : ascii -> bool) (h r : string) :
  all_chars f h = true ->
  exists x r', Re.span f (h ++ r) = (h ++ x, r').
Proof.
  induction h as [| c h IH]; simpl; intros H.
  - destruct (Re.span f r) as [x r']. exists x, r'. reflexivity.
  - apply andb_true_iff in H as [Hc Hh]. rewrite Hc.
    destruct (IH Hh) as (x & r' & ->). exists x, r'. reflexivity.
Qed.

(** A commit-qualified version is found wherever it stands in the text. *)
Lemma commit_version_found (a m r : string) :
  commit_qualified m = true ->
  exists m' r', Re.search Re.commit_version_at (a ++ m ++ r) = Some (m', r').
Proof.
  intros Hq.
  assert (Hat : Re.commit_version_at (m ++ r) <> None).
  { unfold commit_qualified in Hq.
    destruct (Re.commit_version_at m) as [[x [| ? ?]] |] eqn:Hm;
      try discriminate.
    clear Hq. revert Hm. unfold Re.commit_version_at.
    destruct (Re.semver_at m) as [[v r1] |] eqn:H1; [| discriminate].
    destruct (Re.strip_prefix "+commit." r1) as [r2 |] eqn:H2;
      [| discriminate].
    destruct (Re.plus Re.is_hex r2) as [[h r3] |] eqn:H3; [| discriminate].
    intros E; injection E as <- ->.
    destruct (semver_at_spec _ _ _ H1)
      as (major & minor & patch & -> & -> & N1 & N2 & N3 & A1 & A2 & A3 & _).
    apply strip_prefix_spec in H2; subst r1.
    destruct (plus_spec _ _ _ _ H3) as (-> & Nh & Ah & _).
    match goal with
    | |- context [Re.semver_at ?x] =>
        assert (E : x = major ++ "." ++ minor ++ "." ++ patch
                        ++ ("+commit." ++ h ++ r))
          by (norm_app; reflexivity);
        rewrite E
    end.
    rewrite (semver_at_app major minor patch _ N1 N2 N3 A1 A2 A3)
      by reflexivity.
    rewrite strip_prefix_app.
    destruct (span_app_all Re.is_hex h r Ah) as (x & r' & Hsp).
    unfold Re.plus. rewrite Hsp.
    destruct h as [| c h]; [congruence |]. simpl. discriminate. }
  destruct (Re.search Re.commit_version_at (a ++ m ++ r)) as [[m' r'] |] eqn:Hs;
    [eauto |].
  apply search_none in Hs. contradiction.
Qed.

(** X13: [getCompilerVersion] never fails and touches no file. It returns
    the commit-qualified version when [solc.version()] contains one, and
    that text then matches the whole pattern
    [<major>.<minor>.<patch>+commit.<hex>] and passes the format check of
    [verifyContract] without a warning; otherwise it returns a bare
    semantic version with a warning, or "0.8.20" with an error report, and
    verification will warn about either. The first case is taken
    whenever the reported text contains a commit-qualified version. *)
Theorem getCompilerVersion_result (e : Env) (w : World) :
  exists v t,
    getCompilerVersion e w = (Ok v, w, t) /\
    ((commit_qualified v = true /\ t = [] /\
      warn_version_format v w = (Ok tt, w, []) /\
      exists full a r, solc_version e = Returns full /\ full = a ++ v ++ r) \/
     (Js.includes v "+commit." = false /\
      trace_of (warn_version_format v w) = version_warnings v /\
      (forall a m r, solc_version e = Returns (a ++ m ++ r) ->
         commit_qualified m = false) /\
      ((t = [EvWarn "Using semantic version only - verification may fail"] /\
        exists full a r, solc_version e = Returns full /\ full = a ++ v ++ r) \/
       (v = "0.8.20" /\
        exists msg, t = [EvError ("Version detection failed: " ++ msg)])))).
Proof.
  assert (Hwarn : forall v, Js.includes v "+commit." = false ->
            trace_of (warn_version_format v w) = version_warnings v).
  { intros v Hv. unfold warn_version_format. rewrite Hv. reflexivity. }
  unfold getCompilerVersion. rewrite try_catch_unfold, bind_lift.
  destruct (solc_version e) as [full | err] eqn:Hfull.
  - destruct (Re.search Re.commit_version_at full) as [[m r] |] eqn:Hc.
    + destruct (search_spec _ _ _ Hc) as (a & t & -> & Hat).
      destruct (commit_version_at_qualified _ _ _ Hat) as (Hq & Hi & ->).
      exists m, []. split; [reflexivity |]. left.
      split; [exact Hq |]. split; [reflexivity |]. split.
      * unfold warn_version_format. rewrite Hi. reflexivity.
      * exists (a ++ m ++ r), a, r. auto.
    + assert (Hnone : forall a m r, Returns full = Returns (a ++ m ++ r) ->
                commit_qualified m = false).
      { intros a m r E. injection E as ->.
        destruct (commit_qualified m) eqn:Hq; [| reflexivity].
        destruct (commit_version_found a m r Hq) as (m' & r' & H').
        congruence. }
      destruct (Re.search Re.semver_at full) as [[m r] |] eqn:Hs.
      * destruct (search_spec _ _ _ Hs) as (a & t & -> & Hat).
        pose proof (semver_has_no_commit _ _ _ Hat) as Hn.
        destruct (semver_at_spec _ _ _ Hat) as (_ & _ & _ & _ & Hsplit & _).
        exists m. eexists. split; [reflexivity |]. right.
        split; [exact Hn |]. split; [auto |]. split; [exact Hnone |]. left.
        split; [reflexivity |].
        exists (a ++ t), a, r. rewrite Hsplit. auto.
      * exists "0.8.20". eexists. split; [reflexivity |]. right.
        split; [reflexivity |]. split; [auto |]. split; [exact Hnone |].
        right. split; [reflexivity |]. eexists; reflexivity.
  - exists "0.8.20". eexists. split; [reflexivity |]. right.
    split; [reflexivity |]. split; [auto |].
    split; [intros a m r H; discriminate |]. right.
    split; [reflexivity |]. eexists; reflexivity.
Qed.

Lemma getCompilerVersion_result_witness :
  let e := Sample.env [] None 0 (Returns tt) "" [] in
  exists t,
    getCompilerVersion e Sample.fresh
      = (Ok "0.8.20+commit.a1b79de6", Sample.fresh, t) /\
    commit_qualified "0.8.20+commit.a1b79de6" = true.
Proof.
  intros e.
  destruct (getCompilerVersion_result e Sample.fresh)
    as (v & t & Hrun & _).
  exists t. split; [| reflexivity].
  assert (Hv : v = "0.8.20+commit.a1b79de6").
  { assert (H : result_of (getCompilerVersion e Sample.fresh) = Ok v)
      by (rewrite Hrun; reflexivity).
    vm_compute in H. now injection H as <-. }
  rewrite <- Hv. exact Hrun.
Defined.

(* ================================================================= *)
(** ** compile.js: license and pragma *)










(* ================================================================= *)
(** ** compile.js: the loop over the contracts directory *)

Lemma select_contract_run (output : SolcOutput) (file n : string) (w : World) :
  match compiled_contract output file n with
  | Some c => select_contract output file n w = (Ok c, w, [])
  | None => exists err, select_contract output file n w = (Throw err, w, [])
  end.
Proof.
  unfold compiled_contract, select_contract.
  destruct (o_contracts output) as [contracts |];
    [| eexists; reflexivity].
  destruct (assoc file contracts) as [units |]; [| eexists; reflexivity].
  destruct (assoc n units) as [c |]; [reflexivity |].
  destruct (Js.truthy (Js.inherited n)); eexists; reflexivity.
Qed.

Lemma error_check_run (output : SolcOutput) :
  match o_errors output with
  | Some errors =>
      if existsb (fun error => severity error =? "error") errors
      then throw (mkError "Compilation failed due to errors")
      else ret tt
  | None => ret tt
  end
  = if has_error output
    then throw (mkError "Compilation failed due to errors")
    else ret tt.
Proof. unfold has_error. now destruct (o_errors output). Qed.

(** The last step of an iteration: the two writes. *)
Lemma compile_persist_run (p1 : Path) (f1 f2 : File) (w : World) :
  bind (writeFile p1 f1) (fun _ : unit => writeFile SettingsFile f2) w =
  if next_write_ok w then
    if next_write_ok (written w p1 f1) then
      (Ok tt, written (written w p1 f1) SettingsFile f2,
       [EvWriteFile p1 f1; EvWriteFile SettingsFile f2])
    else
      (Throw (eacces SettingsFile),
       with_faults (written w p1 f1) (tl (faults (written w p1 f1))),
       [EvWriteFile p1 f1; EvWriteFailed SettingsFile])
  else
    (Throw (eacces p1), with_faults w (tl (faults w)), [EvWriteFailed p1]).
Proof.
  rewrite bind_unfold.
  destruct (next_write_ok w) eqn:H1.
  - rewrite (writeFile_ok _ _ _ H1).
    cbn [result_of world_of trace_of fst snd].
    destruct (next_write_ok (written w p1 f1)) eqn:H2.
    + rewrite (writeFile_ok _ _ _ H2). reflexivity.
    + rewrite (writeFile_fails _ _ _ H2). reflexivity.
  - rewrite (writeFile_fails _ _ _ H1). reflexivity.
Qed.

(** What one iteration does. *)
Lemma compile_file_cases (e : Env) (v file : string) (w : World) :
  let n := basename_sol file in
  let rd := EvReadFile (SourceFile file) in
  (Js.endsWith file ".sol" = false /\
   compile_file e v file w = (Ok tt, w, [])) \/
  (Js.endsWith file ".sol" = true /\
   ((exists err t, compile_file e v file w = (Throw err, w, t) /\
                   (t = [] \/ t = [rd]) /\
                   forall src output c,
                     files w (SourceFile file) = Some (FText src) ->
                     solc_compile e file src = Returns output ->
                     compiled_contract output file n = Some c ->
                     has_error output = true) \/
    (exists src output c,
       files w (SourceFile file) = Some (FText src) /\
       solc_compile e file src = Returns output /\
       has_error output = false /\
       compiled_contract output file n = Some c /\
       let p1 := ArtifactFile n in
       let f1 := FArtifact (artifact_of n c) in
       let f2 := FSettings (settings_of e v n src c) in
       compile_file e v file w =
       if next_write_ok w then
         if next_write_ok (written w p1 f1) then
           (Ok tt, written (written w p1 f1) SettingsFile f2,
            [rd; EvWriteFile p1 f1; EvWriteFile SettingsFile f2])
         else
           (Throw (eacces SettingsFile),
            with_faults (written w p1 f1) (tl (faults (written w p1 f1))),
            [rd; EvWriteFile p1 f1; EvWriteFailed SettingsFile])
       else
         (Throw (eacces p1), with_faults w (tl (faults w)),
          [rd; EvWriteFailed p1])))).
Proof.
  intros n rd.
  remember (compile_file e v file w) as run eqn:Hrun.
  unfold compile_file in Hrun.
  destruct (Js.endsWith file ".sol") eqn:Hs; cbn [negb] in Hrun;
    cbv iota in Hrun;
    [right; split; [reflexivity |] | left; split; [reflexivity | exact Hrun]].
  rewrite bind_read_source in Hrun. fold n rd in Hrun.
  destruct (files w (SourceFile file)) as [[a | s | d | src] |] eqn:Hsrc;
    try (left; do 2 eexists; split; [exact Hrun |];
         split; [right; reflexivity | intros ? ? ? ?; discriminate]).
  rewrite bind_lift in Hrun.
  destruct (solc_compile e file src) as [output | err] eqn:Hout.
  2:{ left. do 2 eexists. split; [exact Hrun |].
      split; [right; reflexivity |].
      intros src' output' c' E E'. injection E as <-. congruence. }
  rewrite error_check_run in Hrun.
  destruct (has_error output) eqn:He.
  - left. rewrite bind_throw in Hrun. do 2 eexists. split; [exact Hrun |].
    split; [right; reflexivity |].
    intros src' output' c' E E' _. injection E as <-. congruence.
  - rewrite bind_ret in Hrun.
    pose proof (select_contract_run output file n w) as Hsel.
    destruct (compiled_contract output file n) as [c |] eqn:Hc.
    + right. exists src, output, c.
      repeat (split; [assumption || reflexivity |]).
      intros p1 f1 f2.
      rewrite (bind_Ok _ _ _ _ _ _ Hsel) in Hrun.
      cbv beta in Hrun.
      change (bind (writeFile (ArtifactFile n) _) _)
        with (bind (writeFile p1 f1) (fun _ : unit => writeFile SettingsFile f2))
        in Hrun.
      rewrite compile_persist_run, prepend_nil in Hrun.
      rewrite Hrun.
      destruct (next_write_ok w); [| reflexivity].
      destruct (next_write_ok (written w p1 f1)); reflexivity.
    + left. destruct Hsel as (err & Hsel).
      rewrite (bind_Throw _ _ _ _ _ _ Hsel) in Hrun.
      do 2 eexists. split; [exact Hrun |]. split; [right; reflexivity |].
      intros src' output' c' E E' Hc'. injection E as <-.
      rewrite Hout in E'. injection E' as <-. congruence.
Qed.

Lemma compile_files_app (e : Env) (v : string) (l1 l2 : list string)
    (w : World) :
  compile_files e v (l1 ++ l2)%list w
  = bind (compile_files e v l1) (fun _ => compile_files e v l2) w.
Proof.
  revert w; induction l1 as [| file l1 IH]; intros w.
  - simpl. now rewrite bind_ret.
  - simpl. rewrite bind_assoc.
    rewrite 2!(bind_unfold (compile_file e v file)).
    destruct (result_of (compile_file e v file w)); try reflexivity.
    now rewrite IH.
Qed.

Lemma compile_files_no_sol (e : Env) (v : string) (l : list string)
    (w : World) :
  no_sol l = true -> compile_files e v l w = (Ok tt, w, []).
Proof.
  induction l as [| file l IH]; intros H; [reflexivity |].
  simpl in H. apply andb_true_iff in H as [Hf Hl].
  simpl. unfold compile_file at 1. rewrite Hf, bind_ret. auto.
Qed.

Lemma files_written (w : World) (p : Path) (f : File) (q : Path) :
  files (written w p f) q = if path_eqb p q then Some f else files w q.
Proof. reflexivity. Qed.

Lemma compile_file_frame (e : Env) (v file : string) (w : World) (p : Path) :
  is_compile_output p = false ->
  files (world_of (compile_file e v file w)) p = files w p.
Proof.
  intros Hp.
  destruct (compile_file_cases e v file w)
    as [[_ ->] | [_ [(err & t & -> & _) | (src & o & c & _ & _ & _ & _ & ->)]]];
    try reflexivity.
  destruct (next_write_ok w); [| reflexivity].
  destruct (next_write_ok (written w _ _));
    cbn [world_of fst snd with_faults files];
    rewrite ?files_written; destruct p; try discriminate; reflexivity.
Qed.

Lemma world_of_bind {A B} (c : M A) (k : A -> M B) (w : World) :
  world_of (bind c k w) =
  match result_of (c w) with
  | Ok a => world_of (k a (world_of (c w)))
  | _ => world_of (c w)
  end.
Proof. rewrite bind_unfold. now destruct (result_of (c w)). Qed.

Lemma compile_files_frame (e : Env) (v : string) (l : list string)
    (w : World) (p : Path) :
  is_compile_output p = false ->
  files (world_of (compile_files e v l w)) p = files w p.
Proof.
  intros Hp. revert w; induction l as [| file l IH]; intros w;
    [reflexivity |].
  simpl. rewrite world_of_bind.
  destruct (result_of (compile_file e v file w)); rewrite ?IH;
    now apply compile_file_frame.
Qed.

(** The compiler version is always obtained, without touching a file. *)
Lemma getCompilerVersion_run (e : Env) (w : World) :
  exists v t, getCompilerVersion e w = (Ok v, w, t) /\
              (t = [] \/ (exists s, t = [EvWarn s])
               \/ exists s, t = [EvError s]).
Proof.
  unfold getCompilerVersion. rewrite try_catch_unfold, bind_lift.
  destruct (solc_version e) as [full | err].
  - destruct (Re.search Re.commit_version_at full) as [[m r] |].
    + exists m, []. auto.
    + destruct (Re.search Re.semver_at full) as [[m r] |].
      * exists m. eexists. split; [reflexivity |].
        right; left; eexists; reflexivity.
      * eexists. eexists. split; [reflexivity |].
        right; right; eexists; reflexivity.
  - eexists. eexists. split; [reflexivity |].
    right; right; eexists; reflexivity.
Qed.

(** [compile] in terms of its loop. *)
Lemma compile_run (e : Env) (w : World) :
  exists v tv,
    getCompilerVersion e w = (Ok v, w, tv) /\
    (tv = [] \/ (exists s, tv = [EvWarn s]) \/ exists s, tv = [EvError s]) /\
    compile e w =
    match fs_mkdir e ArtifactsDir with
    | Fails err =>
        (Ok false, w,
         [EvMkdir ArtifactsDir;
          EvError ("Compilation failed: " ++ message err)])
    | Returns _ =>
        match fs_readdir e ContractsDir with
        | Fails err =>
            (Ok false, w,
             (EvMkdir ArtifactsDir :: tv ++
              [EvReaddir ContractsDir;
               EvError ("Compilation failed: " ++ message err)])%list)
        | Returns l =>
            let r := compile_files e v l w in
            match result_of r with
            | Throw err =>
                (Ok false, world_of r,
                 (EvMkdir ArtifactsDir :: tv ++ EvReaddir ContractsDir ::
                  trace_of r ++
                  [EvError ("Compilation failed: " ++ message err)])%list)
            | _ =>
                (Ok true, world_of r,
                 (EvMkdir ArtifactsDir :: tv ++ EvReaddir ContractsDir ::
                  trace_of r)%list)
            end
        end
    end.
Proof.
  destruct (getCompilerVersion_run e w) as (v & tv & Hv & Htv).
  exists v, tv. split; [exact Hv |]. split; [exact Htv |].
  unfold compile, compile_body, mkdir, console_error.
  rewrite try_catch_unfold, bind_call.
  destruct (fs_mkdir e ArtifactsDir) as [[] | err]; [| reflexivity].
  rewrite (bind_Ok _ _ _ _ _ _ Hv), bind_call.
  destruct (fs_readdir e ContractsDir) as [l | err].
  2:{ cbn [prepend result_of world_of trace_of fst snd].
      unfold emit, bind, prepend, result_of, world_of, trace_of, ret.
      cbn. now rewrite <- app_assoc. }
  rewrite bind_unfold.
  pose proof (no_exit_compile_files e v l w) as Hne.
  destruct (compile_files e v l w) as [[[[] | err | n] w1] t1];
    cbn [prepend result_of world_of trace_of fst snd] in *.
  - unfold ret, prepend, result_of, world_of, trace_of. cbn.
    now rewrite app_nil_r.
  - unfold emit, bind, ret, prepend, result_of, world_of, trace_of.
    cbn [fst snd app]. f_equal. f_equal.
    now rewrite <- !app_assoc.
  - now elim (Hne n).
Qed.

Lemma compile_files_project (e : Env) (l l' : list string)
    (c : string -> string -> Reply SolcOutput) (v : string)
    (l0 : list string) :
  compile_files (with_project e l c) v l0
  = compile_files (with_project e l' c) v l0.
Proof.
  induction l0 as [| file l0 IH]; [reflexivity |].
  simpl. rewrite IH. reflexivity.
Qed.

Lemma compile_files_artifact_writes (e : Env) (v : string) (l : list string)
    (w : World) (n : string) (f : File) :
  In (EvWriteFile (ArtifactFile n) f) (trace_of (compile_files e v l w)) ->
  exists file src output c,
    In file l /\ Js.endsWith file ".sol" = true /\ n = basename_sol file /\
    files w (SourceFile file) = Some (FText src) /\
    solc_compile e file src = Returns output /\
    has_error output = false /\
    compiled_contract output file n = Some c /\
    f = FArtifact (artifact_of n c).
Proof.
  revert w; induction l as [| file l IH]; intros w H; [destruct H |].
  simpl in H. rewrite bind_unfold in H.
  assert (Hin : In (EvWriteFile (ArtifactFile n) f)
                   (trace_of (compile_file e v file w)) \/
                In (EvWriteFile (ArtifactFile n) f)
                   (trace_of (compile_files e v l
                                (world_of (compile_file e v file w))))).
  { destruct (result_of (compile_file e v file w)); auto.
    rewrite trace_of_prepend in H. apply in_app_or in H. exact H. }
  clear H. destruct Hin as [H | H].
  - destruct (compile_file_cases e v file w)
      as [[_ E] | [Hs [(err & t & E & Ht & _)
                      | (src & o & c & Hsrc & Ho & He & Hc & E)]]].
    + rewrite E in H. destruct H.
    + rewrite E in H. cbn [trace_of snd] in H.
      destruct Ht as [-> | ->]; simpl in H; [tauto |].
      destruct H as [H | []]; discriminate.
    + cbv zeta in E. rewrite E in H.
      assert (Hev : EvWriteFile (ArtifactFile n) f
                    = EvWriteFile (ArtifactFile (basename_sol file))
                        (FArtifact (artifact_of (basename_sol file) c))).
      { destruct (next_write_ok w);
          [destruct (next_write_ok (written w _ _)) |];
          cbn [trace_of snd] in H; simpl in H;
          repeat (destruct H as [H | H]; try discriminate; try tauto);
          now symmetry. }
      injection Hev as -> ->.
      exists file, src, o, c. simpl; auto 10.
  - destruct (IH _ H) as (file' & src & o & c & Hin & Hs & Hn & Hsrc & Rest).
    exists file', src, o, c. split; [right; exact Hin |].
    split; [exact Hs |]. split; [exact Hn |].
    split; [| exact Rest].
    rewrite <- Hsrc. symmetry. now apply compile_file_frame.
Qed.

Lemma compile_files_last (e : Env) (v : string) (l1 : list string)
    (file : string) (l2 : list string) (w : World) :
  Js.endsWith file ".sol" = true ->
  no_sol l2 = true ->
  result_of (compile_files e v (l1 ++ file :: l2)%list w) = Ok tt ->
  exists src output c,
    files w (SourceFile file) = Some (FText src) /\
    solc_compile e file src = Returns output /\
    has_error output = false /\
    compiled_contract output file (basename_sol file) = Some c /\
    files (world_of (compile_files e v (l1 ++ file :: l2)%list w))
          SettingsFile
    = Some (FSettings (settings_of e v (basename_sol file) src c)).
Proof.
  intros Hs Hl2. rewrite compile_files_app, bind_unfold.
  pose proof (compile_files_frame e v l1 w (SourceFile file) eq_refl) as Hfr.
  destruct (result_of (compile_files e v l1 w)); try discriminate.
  set (w1 := world_of (compile_files e v l1 w)) in *.
  rewrite result_of_prepend, world_of_prepend.
  change (compile_files e v (file :: l2))
    with (bind (compile_file e v file) (fun _ => compile_files e v l2)).
  rewrite bind_unfold.
  destruct (compile_file_cases e v file w1)
    as [[E _] | [_ [(err & t & E & _)
                   | (src & o & c & Hsrc & Ho & He & Hc & E)]]].
  - congruence.
  - rewrite E. discriminate.
  - cbv zeta in E. intros H. exists src, o, c.
    rewrite <- Hfr.
    repeat (split; [assumption |]).
    revert H. rewrite E.
    destruct (next_write_ok w1); [| discriminate].
    destruct (next_write_ok (written w1 _ _)); [| discriminate].
    cbn [result_of world_of trace_of fst snd].
    rewrite (compile_files_no_sol _ _ _ _ Hl2). intros _. reflexivity.
Qed.



(** X17: every artifact [compile] writes comes from a directory entry
    ending in [.sol]: it is named after that entry, and holds the ABI,
    bytecode, deployed bytecode and metadata the compiler returned for
    the source text the project had at the start of the run, in an output
    without a diagnostic of severity "error". *)
Theorem artifact_provenance (e : Env) (w : World) (n : string) (f : File) :
  In (EvWriteFile (ArtifactFile n) f) (trace_of (compile e w)) ->
  exists l file src output c,
    fs_readdir e ContractsDir = Returns l /\ In file l /\
    Js.endsWith file ".sol" = true /\ n = basename_sol file /\
    files w (SourceFile file) = Some (FText src) /\
    solc_compile e file src = Returns output /\
    has_error output = false /\
    compiled_contract output file n = Some c /\
    f = FArtifact {| a_contractName := n;
                     a_abi := c_abi c;
                     a_bytecode := c_bytecode c;
                     a_deployedBytecode := c_deployedBytecode c;
                     a_metadata := c_metadata c |}.
Proof.
  destruct (compile_run e w) as (v & tv & _ & Htv & ->).
  assert (Htv' : ~ In (EvWriteFile (ArtifactFile n) f) tv).
  { destruct Htv as [-> | [(s & ->) | (s & ->)]]; simpl;
      intros H; try tauto; destruct H as [H | []]; discriminate. }
  destruct (fs_mkdir e ArtifactsDir) as [[] | err].
  2:{ simpl. intros [H | [H | []]]; discriminate. }
  destruct (fs_readdir e ContractsDir) as [l | err].
  2:{ cbn [trace_of snd]. simpl. rewrite in_app_iff. simpl.
      intros [H | [H | [H | [H | []]]]]; try discriminate. tauto. }
  cbv zeta. intros H.
  assert (Hin : In (EvWriteFile (ArtifactFile n) f)
                   (trace_of (compile_files e v l w))).
  { destruct (result_of (compile_files e v l w));
      cbn [trace_of snd] in H; simpl in H;
      rewrite !in_app_iff in H; simpl in H;
      rewrite ?in_app_iff in H; simpl in H;
      repeat (destruct H as [H | H]; try discriminate; try tauto). }
  destruct (compile_files_artifact_writes _ _ _ _ _ _ Hin)
    as (file & src & o & c & R).
  exists l, file, src, o, c. split; [reflexivity |]. exact R.
Qed.

Lemma artifact_provenance_witness :
  let e := Sample.env [] None 0 (Returns tt) "" [] in
  let n := "SimpleStorage" in
  exists l file src output c,
    fs_readdir e ContractsDir = Returns l /\ In file l /\
    Js.endsWith file ".sol" = true /\ n = basename_sol file /\
    files Sample.fresh (SourceFile file) = Some (FText src) /\
    solc_compile e file src = Returns output /\
    has_error output = false /\
    compiled_contract output file n = Some c /\
    FArtifact {| a_contractName := "SimpleStorage";
                 a_abi := a_abi Sample.artifact;
                 a_bytecode := "60806040";
                 a_deployedBytecode := "6080";
                 a_metadata := "" |}
    = FArtifact {| a_contractName := n;
                   a_abi := c_abi c;
                   a_bytecode := c_bytecode c;
                   a_deployedBytecode := c_deployedBytecode c;
                   a_metadata := c_metadata c |}.
Proof.
  intros e n.
  apply (artifact_provenance e Sample.fresh n).
  vm_compute. do 3 right. left. reflexivity.
Defined.

(** X18: after a run of [compile] that returned [true],
    compilation-settings.json describes the last [.sol] entry of the
    directory listing only: it carries that contract's name, the license
    and pragma read from that contract's source, its deployed bytecode,
    and the compiler version of the run. *)
Theorem settings_describe_last_contract (e : Env) (w : World)
    (l1 : list string) (file : string) (l2 : list string) :
  fs_readdir e ContractsDir = Returns (l1 ++ file :: l2)%list ->
  Js.endsWith file ".sol" = true ->
  no_sol l2 = true ->
  result_of (compile e w) = Ok true ->
  exists st src output c,
    files (world_of (compile e w)) SettingsFile = Some (FSettings st) /\
    files w (SourceFile file) = Some (FText src) /\
    solc_compile e file src = Returns output /\
    compiled_contract output file (basename_sol file) = Some c /\
    s_contractName st = basename_sol file /\
    result_of (getCompilerVersion e w) = Ok (s_solcVersion st) /\
    s_license st = extract_license src /\
    s_pragma st = extract_pragma src /\
    s_deployedBytecode st = c_deployedBytecode c.
Proof.
  intros Hr Hs Hl2.
  destruct (compile_run e w) as (v & tv & Hv & _ & ->).
  rewrite Hr, Hv.
  destruct (fs_mkdir e ArtifactsDir) as [[] | err]; [| discriminate].
  cbv zeta.
  pose proof (compile_files_last e v l1 file l2 w Hs Hl2) as Hlast.
  pose proof (no_exit_compile_files e v (l1 ++ file :: l2)%list w) as Hne.
  destruct (result_of (compile_files e v (l1 ++ file :: l2)%list w))
    as [[] | err | k]; [| discriminate | now elim (Hne k)].
  intros _.
  destruct (Hlast eq_refl) as (src & o & c & Hsrc & Ho & _ & Hc & Hset).
  exists (settings_of e v (basename_sol file) src c), src, o, c.
  cbn [world_of fst snd]. repeat (split; [assumption || reflexivity |]).
  reflexivity.
Qed.

Lemma settings_describe_last_contract_witness :
  let e := with_project (Sample.env [] None 0 (Returns tt) "" [])
             ["README.md"; "SimpleStorage.sol"; ".gitkeep"]
             (solc_compile (Sample.env [] None 0 (Returns tt) "" [])) in
  exists st,
    files (world_of (compile e Sample.fresh)) SettingsFile
      = Some (FSettings st) /\
    s_contractName st = "SimpleStorage" /\
    s_license st = "MIT" /\ s_pragma st = "0.8.20".
Proof.
  intros e.
  destruct (settings_describe_last_contract e Sample.fresh
              ["README.md"] "SimpleStorage.sol" [".gitkeep"]
              eq_refl eq_refl eq_refl eq_refl)
    as (st & src & o & c & H1 & H2 & _ & _ & H5 & _ & H7 & H8 & _).
  exists st. split; [exact H1 |]. split; [exact H5 |].
  assert (Hsrc : src = Sample.source).
  { change (files Sample.fresh (SourceFile "SimpleStorage.sol"))
      with (Some (FText Sample.source)) in H2.
    now injection H2 as <-. }
  rewrite H7, H8, Hsrc. split; reflexivity.
Defined.

(** X19: the loop ends at the first entry that fails, and whatever the
    listing holds after that entry changes nothing: a run that returned
    [false] is, result, files and trace, the run on the longer listing
    too. *)
Theorem compile_stops_at_first_failure (e : Env) (w : World)
    (l l2 : list string) (c : string -> string -> Reply SolcOutput) :
  result_of (compile (with_project e l c) w) = Ok false ->
  compile (with_project e (l ++ l2)%list c) w
  = compile (with_project e l c) w.
Proof.
  destruct (compile_run (with_project e l c) w) as (v & tv & Hv & _ & ->).
  destruct (compile_run (with_project e (l ++ l2)%list c) w)
    as (v' & tv' & Hv' & _ & ->).
  change (getCompilerVersion (with_project e (l ++ l2)%list c) w)
    with (getCompilerVersion (with_project e l c) w) in Hv'.
  rewrite Hv in Hv'. injection Hv' as <- <-.
  change (fs_mkdir (with_project e (l ++ l2)%list c) ArtifactsDir)
    with (fs_mkdir (with_project e l c) ArtifactsDir).
  destruct (fs_mkdir (with_project e l c) ArtifactsDir) as [[] | err];
    [| reflexivity].
  cbn [fs_readdir with_project]. cbv zeta.
  rewrite (compile_files_project e (l ++ l2)%list l c v (l ++ l2)%list).
  rewrite compile_files_app, bind_unfold.
  destruct (result_of (compile_files (with_project e l c) v l w));
    try discriminate.
  reflexivity.
Qed.

Lemma compile_stops_at_first_failure_witness :
  let e := Sample.env [] None 0 (Returns tt) "" [] in
  compile (with_project e ["SimpleStorage.sol"; "Token.sol"]
             failing_compiler) Sample.fresh
  = compile (with_project e ["SimpleStorage.sol"] failing_compiler)
      Sample.fresh.
Proof.
  intros e.
  apply (compile_stops_at_first_failure e Sample.fresh
           ["SimpleStorage.sol"] ["Token.sol"] failing_compiler).
  reflexivity.
Defined.

(** X20: [compile] changes no file other than the artifacts and
    compilation-settings.json: sources and deployment records are as
    they were, however the run ends. *)
Theorem compile_frame (e : Env) (w : World) (p : Path) :
  is_compile_output p = false ->
  files (world_of (compile e w)) p = files w p.
Proof.
  intros Hp.
  destruct (compile_run e w) as (v & tv & _ & _ & ->).
  destruct (fs_mkdir e ArtifactsDir) as [[] | err]; [| reflexivity].
  destruct (fs_readdir e ContractsDir) as [l | err]; [| reflexivity].
  cbv zeta.
  destruct (result_of (compile_files e v l w));
    cbn [world_of fst snd]; now apply compile_files_frame.
Qed.

Lemma compile_frame_witness :
  let e := Sample.env [] None 0 (Returns tt) "" [] in
  files (world_of (compile e (Sample.world "0.8.20" [])))
        (DeploymentFile "bsc-testnet")
  = Some (FDeployment Sample.deployment).
Proof.
  intros e.
  rewrite (compile_frame e (Sample.world "0.8.20" [])
             (DeploymentFile "bsc-testnet") eq_refl).
  reflexivity.
Defined.

(* ================================================================= *)
(** ** deploy.js and verify.js: the constructor arguments *)



